(** * Verification of the key-mapping engine of [system/lib/keymap-util.py]

    A shallow embedding of class [KeyMapper]: the key identifier registry
    ([keycode_to_dotool_name], [name_to_keycode], [normalize_config_key]),
    the four-tier resolver ([get_mapping]), the window cache
    ([get_focused_window]), the streaming transport ([send_dotool_key]) and
    the event dispatcher ([process_event], [run]).

    Conventions of the embedding.
    - Python [str] values are Rocq strings; the case, whitespace and digit
      classes are the ASCII ones (characters above 127 are left alone by
      [upper]/[lower] and are neither spaces nor digits).
    - Python [int] is [Z].
    - A [dict] loaded from JSON is an association list in insertion order:
      the resolver iterates over [keys()], so order is observable.
    - [self.pressed_keys] is a finite set ([gset string]).
    - A method that mutates [self] returns the new mapper; what it sends to
      the outside world (uinput writes, dotool lines, launched commands) is
      returned as a list of [Effect]s; an uncaught Python exception is
      [Raise].  A call recorded as an effect is taken to return.
    - The configuration is the result of [json.load] on a file whose
      tables map strings to strings.
    - [print] calls (verbose logging) are not part of the model. *)

From Stdlib Require Import ZArith Lia Ascii String DecimalString DecimalZ DecimalPos.
From stdpp Require Import base list gmap strings.

Local Open Scope Z_scope.

(** ** Python built-ins used by the source *)

Module Py.

(** [c.isspace()] on the ASCII range: TAB, LF, VT, FF, CR, FS, GS, RS, US
    and the blank. *)
Definition is_space (c : ascii) : bool :=
  let n := nat_of_ascii c in
  ((9 <=? n)%nat && (n <=? 13)%nat) || ((28 <=? n)%nat && (n <=? 32)%nat).

Definition is_digit (c : ascii) : bool :=
  let n := nat_of_ascii c in (48 <=? n)%nat && (n <=? 57)%nat.

Definition digit_val (c : ascii) : Z := Z.of_nat (nat_of_ascii c) - 48.

Definition upper_char (c : ascii) : ascii :=
  let n := nat_of_ascii c in
  if (97 <=? n)%nat && (n <=? 122)%nat then ascii_of_nat (n - 32) else c.

Definition lower_char (c : ascii) : ascii :=
  let n := nat_of_ascii c in
  if (65 <=? n)%nat && (n <=? 90)%nat then ascii_of_nat (n + 32) else c.

Fixpoint map_chars (f : ascii -> ascii) (s : string) : string :=
  match s with
  | EmptyString => EmptyString
  | String c r => String (f c) (map_chars f r)
  end.

(** [s.upper()] and [s.lower()]. *)
Definition upper : string -> string := map_chars upper_char.
Definition lower : string -> string := map_chars lower_char.

(** [s.startswith(p)]. *)
Definition startswith (s p : string) : bool := String.prefix p s.

(** [s[n:]]. *)
Fixpoint drop_chars (n : nat) (s : string) : string :=
  match n, s with
  | O, _ => s
  | S n', String _ r => drop_chars n' r
  | S _, EmptyString => EmptyString
  end.

Fixpoint lstrip (s : string) : string :=
  match s with
  | String c r => if is_space c then lstrip r else s
  | EmptyString => EmptyString
  end.

(** [rstrip] keeps a character when it is not a space or when something
    that is not a space follows it. *)
Fixpoint rstrip (s : string) : string :=
  match s with
  | EmptyString => EmptyString
  | String c r =>
      match rstrip r with
      | EmptyString => if is_space c then EmptyString else String c EmptyString
      | r' => String c r'
      end
  end.

(** [s.strip()]. *)
Definition strip (s : string) : string := rstrip (lstrip s).

(** [needle in hay] on strings. *)
Fixpoint contains (hay needle : string) : bool :=
  String.prefix needle hay ||
  match hay with
  | EmptyString => false
  | String _ r => contains r needle
  end.

(** Truth value of a string: [bool(s)]. *)
Definition truthy (s : string) : bool :=
  match s with EmptyString => false | _ => true end.

(** [str(n)] for an [int].  (Python refuses to print an integer of more
    than 4300 digits; the integers printed by the source are key codes
    and user ids.) *)
Definition str (n : Z) : string := NilZero.string_of_int (Z.to_int n).

(** The white space that [int()] skips around a literal: TAB, LF, VT, FF,
    CR and the blank (the separators FS, GS, RS, US, which [strip()]
    removes, are not among them). *)
Definition is_int_space (c : ascii) : bool :=
  let n := nat_of_ascii c in
  ((9 <=? n)%nat && (n <=? 13)%nat) || (n =? 32)%nat.

Fixpoint int_lstrip (s : string) : string :=
  match s with
  | String c r => if is_int_space c then int_lstrip r else s
  | EmptyString => EmptyString
  end.

Fixpoint int_rstrip (s : string) : string :=
  match s with
  | EmptyString => EmptyString
  | String c r =>
      match int_rstrip r with
      | EmptyString => if is_int_space c then EmptyString else String c EmptyString
      | r' => String c r'
      end
  end.

(** The digits of a decimal literal: groups of digits separated by single
    underscores.  [prev] tells whether the previous character was a
    digit. *)
Fixpoint int_digits (acc : Z) (prev : bool) (s : string) : option Z :=
  match s with
  | EmptyString => if prev then Some acc else None
  | String c r =>
      if is_digit c then int_digits (10 * acc + digit_val c) true r
      else if Ascii.eqb c "_" then
        (if prev then int_digits acc false r else None)
      else None
  end.

(** How many digits a literal has; underscores and the sign do not
    count. *)
Fixpoint count_digits (s : string) : Z :=
  match s with
  | EmptyString => 0
  | String c r => (if is_digit c then 1 else 0) + count_digits r
  end.

(** [sys.get_int_max_str_digits()], as Python sets it by default. *)
Definition int_max_str_digits : Z := 4300.

(** A literal without its sign: refused when it has more digits than the
    limit. *)
Definition int_literal (t : string) : option Z :=
  if int_max_str_digits <? count_digits t then None else int_digits 0 false t.

(** [int(s)] in base 10; [None] stands for [ValueError].  Surrounding
    white space and one sign are accepted. *)
Definition int (s : string) : option Z :=
  match int_rstrip (int_lstrip s) with
  | String "-" r => option_map Z.opp (int_literal r)
  | String "+" r => int_literal r
  | t => int_literal t
  end.

(** [len(s)]. *)
Definition len (s : string) : nat := String.length s.

End Py.

(** ** The evdev tables

    [ecodes] is the module of python-evdev; its content is generated from
    the kernel header [linux/input-event-codes.h].  [ecodes.KEY] maps a
    code to its name, or to the collection of its names when the header
    gives several names to one code: such a value is never equal to a
    string.  [ecodes.BTN] does the same for the button codes, and
    [ecodes.keys] holds both. *)

Module ecodes.

Inductive key_names : Type :=
| Name (s : string)
| Names (l : list string).

Definition EV_SYN : Z := 0.
Definition EV_KEY : Z := 1.

Definition KEY_A : Z := 30.
Definition KEY_B : Z := 48.
Definition KEY_C : Z := 46.
Definition KEY_D : Z := 32.
Definition KEY_E : Z := 18.
Definition KEY_F : Z := 33.
Definition KEY_G : Z := 34.
Definition KEY_H : Z := 35.
Definition KEY_I : Z := 23.
Definition KEY_J : Z := 36.
Definition KEY_K : Z := 37.
Definition KEY_L : Z := 38.
Definition KEY_M : Z := 50.
Definition KEY_N : Z := 49.
Definition KEY_O : Z := 24.
Definition KEY_P : Z := 25.
Definition KEY_Q : Z := 16.
Definition KEY_R : Z := 19.
Definition KEY_S : Z := 31.
Definition KEY_T : Z := 20.
Definition KEY_U : Z := 22.
Definition KEY_V : Z := 47.
Definition KEY_W : Z := 17.
Definition KEY_X : Z := 45.
Definition KEY_Y : Z := 21.
Definition KEY_Z : Z := 44.
Definition KEY_1 : Z := 2.
Definition KEY_2 : Z := 3.
Definition KEY_3 : Z := 4.
Definition KEY_4 : Z := 5.
Definition KEY_5 : Z := 6.
Definition KEY_6 : Z := 7.
Definition KEY_7 : Z := 8.
Definition KEY_8 : Z := 9.
Definition KEY_9 : Z := 10.
Definition KEY_0 : Z := 11.
Definition KEY_SPACE : Z := 57.
Definition KEY_ENTER : Z := 28.
Definition KEY_TAB : Z := 15.
Definition KEY_BACKSPACE : Z := 14.
Definition KEY_ESC : Z := 1.
Definition KEY_LEFTSHIFT : Z := 42.
Definition KEY_RIGHTSHIFT : Z := 54.
Definition KEY_LEFTCTRL : Z := 29.
Definition KEY_RIGHTCTRL : Z := 97.
Definition KEY_LEFTALT : Z := 56.
Definition KEY_RIGHTALT : Z := 100.
Definition KEY_LEFTMETA : Z := 125.
Definition KEY_RIGHTMETA : Z := 126.
Definition KEY_UP : Z := 103.
Definition KEY_DOWN : Z := 108.
Definition KEY_LEFT : Z := 105.
Definition KEY_RIGHT : Z := 106.
Definition KEY_HOME : Z := 102.
Definition KEY_END : Z := 107.
Definition KEY_PAGEUP : Z := 104.
Definition KEY_PAGEDOWN : Z := 109.
Definition KEY_DELETE : Z := 111.
Definition KEY_INSERT : Z := 110.
Definition KEY_F1 : Z := 59.
Definition KEY_F2 : Z := 60.
Definition KEY_F3 : Z := 61.
Definition KEY_F4 : Z := 62.
Definition KEY_F5 : Z := 63.
Definition KEY_F6 : Z := 64.
Definition KEY_F7 : Z := 65.
Definition KEY_F8 : Z := 66.
Definition KEY_F9 : Z := 67.
Definition KEY_F10 : Z := 68.
Definition KEY_F11 : Z := 87.
Definition KEY_F12 : Z := 88.
Definition KEY_F13 : Z := 183.
Definition KEY_F14 : Z := 184.
Definition KEY_F15 : Z := 185.
Definition KEY_F16 : Z := 186.
Definition KEY_F17 : Z := 187.
Definition KEY_F18 : Z := 188.
Definition KEY_F19 : Z := 189.
Definition KEY_F20 : Z := 190.
Definition KEY_F21 : Z := 191.
Definition KEY_F22 : Z := 192.
Definition KEY_F23 : Z := 193.
Definition KEY_F24 : Z := 194.

Definition KEY : list (Z * key_names) :=
 [
  (0, Name "KEY_RESERVED"); (1, Name "KEY_ESC"); (2, Name "KEY_1"); (3, Name "KEY_2");
  (4, Name "KEY_3"); (5, Name "KEY_4"); (6, Name "KEY_5"); (7, Name "KEY_6"); (8, Name "KEY_7");
  (9, Name "KEY_8"); (10, Name "KEY_9"); (11, Name "KEY_0"); (12, Name "KEY_MINUS");
  (13, Name "KEY_EQUAL"); (14, Name "KEY_BACKSPACE"); (15, Name "KEY_TAB"); (16, Name "KEY_Q");
  (17, Name "KEY_W"); (18, Name "KEY_E"); (19, Name "KEY_R"); (20, Name "KEY_T");
  (21, Name "KEY_Y"); (22, Name "KEY_U"); (23, Name "KEY_I"); (24, Name "KEY_O");
  (25, Name "KEY_P"); (26, Name "KEY_LEFTBRACE"); (27, Name "KEY_RIGHTBRACE");
  (28, Name "KEY_ENTER"); (29, Name "KEY_LEFTCTRL"); (30, Name "KEY_A"); (31, Name "KEY_S");
  (32, Name "KEY_D"); (33, Name "KEY_F"); (34, Name "KEY_G"); (35, Name "KEY_H");
  (36, Name "KEY_J"); (37, Name "KEY_K"); (38, Name "KEY_L"); (39, Name "KEY_SEMICOLON");
  (40, Name "KEY_APOSTROPHE"); (41, Name "KEY_GRAVE"); (42, Name "KEY_LEFTSHIFT");
  (43, Name "KEY_BACKSLASH"); (44, Name "KEY_Z"); (45, Name "KEY_X"); (46, Name "KEY_C");
  (47, Name "KEY_V"); (48, Name "KEY_B"); (49, Name "KEY_N"); (50, Name "KEY_M");
  (51, Name "KEY_COMMA"); (52, Name "KEY_DOT"); (53, Name "KEY_SLASH");
  (54, Name "KEY_RIGHTSHIFT"); (55, Name "KEY_KPASTERISK"); (56, Name "KEY_LEFTALT");
  (57, Name "KEY_SPACE"); (58, Name "KEY_CAPSLOCK"); (59, Name "KEY_F1"); (60, Name "KEY_F2");
  (61, Name "KEY_F3"); (62, Name "KEY_F4"); (63, Name "KEY_F5"); (64, Name "KEY_F6");
  (65, Name "KEY_F7"); (66, Name "KEY_F8"); (67, Name "KEY_F9"); (68, Name "KEY_F10");
  (69, Name "KEY_NUMLOCK"); (70, Name "KEY_SCROLLLOCK"); (71, Name "KEY_KP7");
  (72, Name "KEY_KP8"); (73, Name "KEY_KP9"); (74, Name "KEY_KPMINUS"); (75, Name "KEY_KP4");
  (76, Name "KEY_KP5"); (77, Name "KEY_KP6"); (78, Name "KEY_KPPLUS"); (79, Name "KEY_KP1");
  (80, Name "KEY_KP2"); (81, Name "KEY_KP3"); (82, Name "KEY_KP0"); (83, Name "KEY_KPDOT");
  (85, Name "KEY_ZENKAKUHANKAKU"); (86, Name "KEY_102ND"); (87, Name "KEY_F11");
  (88, Name "KEY_F12"); (89, Name "KEY_RO"); (90, Name "KEY_KATAKANA"); (91, Name "KEY_HIRAGANA");
  (92, Name "KEY_HENKAN"); (93, Name "KEY_KATAKANAHIRAGANA"); (94, Name "KEY_MUHENKAN");
  (95, Name "KEY_KPJPCOMMA"); (96, Name "KEY_KPENTER"); (97, Name "KEY_RIGHTCTRL");
  (98, Name "KEY_KPSLASH"); (99, Name "KEY_SYSRQ"); (100, Name "KEY_RIGHTALT");
  (101, Name "KEY_LINEFEED"); (102, Name "KEY_HOME"); (103, Name "KEY_UP");
  (104, Name "KEY_PAGEUP"); (105, Name "KEY_LEFT"); (106, Name "KEY_RIGHT");
  (107, Name "KEY_END"); (108, Name "KEY_DOWN"); (109, Name "KEY_PAGEDOWN");
  (110, Name "KEY_INSERT"); (111, Name "KEY_DELETE"); (112, Name "KEY_MACRO");
  (113, Names ["KEY_MIN_INTERESTING"; "KEY_MUTE"]); (114, Name "KEY_VOLUMEDOWN");
  (115, Name "KEY_VOLUMEUP"); (116, Name "KEY_POWER"); (117, Name "KEY_KPEQUAL");
  (118, Name "KEY_KPPLUSMINUS"); (119, Name "KEY_PAUSE"); (120, Name "KEY_SCALE");
  (121, Name "KEY_KPCOMMA"); (122, Names ["KEY_HANGEUL"; "KEY_HANGUEL"]); (123, Name "KEY_HANJA");
  (124, Name "KEY_YEN"); (125, Name "KEY_LEFTMETA"); (126, Name "KEY_RIGHTMETA");
  (127, Name "KEY_COMPOSE"); (128, Name "KEY_STOP"); (129, Name "KEY_AGAIN");
  (130, Name "KEY_PROPS"); (131, Name "KEY_UNDO"); (132, Name "KEY_FRONT");
  (133, Name "KEY_COPY"); (134, Name "KEY_OPEN"); (135, Name "KEY_PASTE"); (136, Name "KEY_FIND");
  (137, Name "KEY_CUT"); (138, Name "KEY_HELP"); (139, Name "KEY_MENU"); (140, Name "KEY_CALC");
  (141, Name "KEY_SETUP"); (142, Name "KEY_SLEEP"); (143, Name "KEY_WAKEUP");
  (144, Name "KEY_FILE"); (145, Name "KEY_SENDFILE"); (146, Name "KEY_DELETEFILE");
  (147, Name "KEY_XFER"); (148, Name "KEY_PROG1"); (149, Name "KEY_PROG2"); (150, Name "KEY_WWW");
  (151, Name "KEY_MSDOS"); (152, Names ["KEY_COFFEE"; "KEY_SCREENLOCK"]);
  (153, Names ["KEY_DIRECTION"; "KEY_ROTATE_DISPLAY"]); (154, Name "KEY_CYCLEWINDOWS");
  (155, Name "KEY_MAIL"); (156, Name "KEY_BOOKMARKS"); (157, Name "KEY_COMPUTER");
  (158, Name "KEY_BACK"); (159, Name "KEY_FORWARD"); (160, Name "KEY_CLOSECD");
  (161, Name "KEY_EJECTCD"); (162, Name "KEY_EJECTCLOSECD"); (163, Name "KEY_NEXTSONG");
  (164, Name "KEY_PLAYPAUSE"); (165, Name "KEY_PREVIOUSSONG"); (166, Name "KEY_STOPCD");
  (167, Name "KEY_RECORD"); (168, Name "KEY_REWIND"); (169, Name "KEY_PHONE");
  (170, Name "KEY_ISO"); (171, Name "KEY_CONFIG"); (172, Name "KEY_HOMEPAGE");
  (173, Name "KEY_REFRESH"); (174, Name "KEY_EXIT"); (175, Name "KEY_MOVE");
  (176, Name "KEY_EDIT"); (177, Name "KEY_SCROLLUP"); (178, Name "KEY_SCROLLDOWN");
  (179, Name "KEY_KPLEFTPAREN"); (180, Name "KEY_KPRIGHTPAREN"); (181, Name "KEY_NEW");
  (182, Name "KEY_REDO"); (183, Name "KEY_F13"); (184, Name "KEY_F14"); (185, Name "KEY_F15");
  (186, Name "KEY_F16"); (187, Name "KEY_F17"); (188, Name "KEY_F18"); (189, Name "KEY_F19");
  (190, Name "KEY_F20"); (191, Name "KEY_F21"); (192, Name "KEY_F22"); (193, Name "KEY_F23");
  (194, Name "KEY_F24"); (200, Name "KEY_PLAYCD"); (201, Name "KEY_PAUSECD");
  (202, Name "KEY_PROG3"); (203, Name "KEY_PROG4");
  (204, Names ["KEY_ALL_APPLICATIONS"; "KEY_DASHBOARD"]); (205, Name "KEY_SUSPEND");
  (206, Name "KEY_CLOSE"); (207, Name "KEY_PLAY"); (208, Name "KEY_FASTFORWARD");
  (209, Name "KEY_BASSBOOST"); (210, Name "KEY_PRINT"); (211, Name "KEY_HP");
  (212, Name "KEY_CAMERA"); (213, Name "KEY_SOUND"); (214, Name "KEY_QUESTION");
  (215, Name "KEY_EMAIL"); (216, Name "KEY_CHAT"); (217, Name "KEY_SEARCH");
  (218, Name "KEY_CONNECT"); (219, Name "KEY_FINANCE"); (220, Name "KEY_SPORT");
  (221, Name "KEY_SHOP"); (222, Name "KEY_ALTERASE"); (223, Name "KEY_CANCEL");
  (224, Name "KEY_BRIGHTNESSDOWN"); (225, Name "KEY_BRIGHTNESSUP"); (226, Name "KEY_MEDIA");
  (227, Name "KEY_SWITCHVIDEOMODE"); (228, Name "KEY_KBDILLUMTOGGLE");
  (229, Name "KEY_KBDILLUMDOWN"); (230, Name "KEY_KBDILLUMUP"); (231, Name "KEY_SEND");
  (232, Name "KEY_REPLY"); (233, Name "KEY_FORWARDMAIL"); (234, Name "KEY_SAVE");
  (235, Name "KEY_DOCUMENTS"); (236, Name "KEY_BATTERY"); (237, Name "KEY_BLUETOOTH");
  (238, Name "KEY_WLAN"); (239, Name "KEY_UWB"); (240, Name "KEY_UNKNOWN");
  (241, Name "KEY_VIDEO_NEXT"); (242, Name "KEY_VIDEO_PREV"); (243, Name "KEY_BRIGHTNESS_CYCLE");
  (244, Names ["KEY_BRIGHTNESS_AUTO"; "KEY_BRIGHTNESS_ZERO"]); (245, Name "KEY_DISPLAY_OFF");
  (246, Names ["KEY_WIMAX"; "KEY_WWAN"]); (247, Name "KEY_RFKILL"); (248, Name "KEY_MICMUTE");
  (352, Name "KEY_OK"); (353, Name "KEY_SELECT"); (354, Name "KEY_GOTO"); (355, Name "KEY_CLEAR");
  (356, Name "KEY_POWER2"); (357, Name "KEY_OPTION"); (358, Name "KEY_INFO");
  (359, Name "KEY_TIME"); (360, Name "KEY_VENDOR"); (361, Name "KEY_ARCHIVE");
  (362, Name "KEY_PROGRAM"); (363, Name "KEY_CHANNEL"); (364, Name "KEY_FAVORITES");
  (365, Name "KEY_EPG"); (366, Name "KEY_PVR"); (367, Name "KEY_MHP"); (368, Name "KEY_LANGUAGE");
  (369, Name "KEY_TITLE"); (370, Name "KEY_SUBTITLE"); (371, Name "KEY_ANGLE");
  (372, Names ["KEY_FULL_SCREEN"; "KEY_ZOOM"]); (373, Name "KEY_MODE");
  (374, Name "KEY_KEYBOARD"); (375, Names ["KEY_ASPECT_RATIO"; "KEY_SCREEN"]);
  (376, Name "KEY_PC"); (377, Name "KEY_TV"); (378, Name "KEY_TV2"); (379, Name "KEY_VCR");
  (380, Name "KEY_VCR2"); (381, Name "KEY_SAT"); (382, Name "KEY_SAT2"); (383, Name "KEY_CD");
  (384, Name "KEY_TAPE"); (385, Name "KEY_RADIO"); (386, Name "KEY_TUNER");
  (387, Name "KEY_PLAYER"); (388, Name "KEY_TEXT"); (389, Name "KEY_DVD"); (390, Name "KEY_AUX");
  (391, Name "KEY_MP3"); (392, Name "KEY_AUDIO"); (393, Name "KEY_VIDEO");
  (394, Name "KEY_DIRECTORY"); (395, Name "KEY_LIST"); (396, Name "KEY_MEMO");
  (397, Name "KEY_CALENDAR"); (398, Name "KEY_RED"); (399, Name "KEY_GREEN");
  (400, Name "KEY_YELLOW"); (401, Name "KEY_BLUE"); (402, Name "KEY_CHANNELUP");
  (403, Name "KEY_CHANNELDOWN"); (404, Name "KEY_FIRST"); (405, Name "KEY_LAST");
  (406, Name "KEY_AB"); (407, Name "KEY_NEXT"); (408, Name "KEY_RESTART"); (409, Name "KEY_SLOW");
  (410, Name "KEY_SHUFFLE"); (411, Name "KEY_BREAK"); (412, Name "KEY_PREVIOUS");
  (413, Name "KEY_DIGITS"); (414, Name "KEY_TEEN"); (415, Name "KEY_TWEN");
  (416, Name "KEY_VIDEOPHONE"); (417, Name "KEY_GAMES"); (418, Name "KEY_ZOOMIN");
  (419, Name "KEY_ZOOMOUT"); (420, Name "KEY_ZOOMRESET"); (421, Name "KEY_WORDPROCESSOR");
  (422, Name "KEY_EDITOR"); (423, Name "KEY_SPREADSHEET"); (424, Name "KEY_GRAPHICSEDITOR");
  (425, Name "KEY_PRESENTATION"); (426, Name "KEY_DATABASE"); (427, Name "KEY_NEWS");
  (428, Name "KEY_VOICEMAIL"); (429, Name "KEY_ADDRESSBOOK"); (430, Name "KEY_MESSENGER");
  (431, Names ["KEY_BRIGHTNESS_TOGGLE"; "KEY_DISPLAYTOGGLE"]); (432, Name "KEY_SPELLCHECK");
  (433, Name "KEY_LOGOFF"); (434, Name "KEY_DOLLAR"); (435, Name "KEY_EURO");
  (436, Name "KEY_FRAMEBACK"); (437, Name "KEY_FRAMEFORWARD"); (438, Name "KEY_CONTEXT_MENU");
  (439, Name "KEY_MEDIA_REPEAT"); (440, Name "KEY_10CHANNELSUP");
  (441, Name "KEY_10CHANNELSDOWN"); (442, Name "KEY_IMAGES");
  (444, Name "KEY_NOTIFICATION_CENTER"); (445, Name "KEY_PICKUP_PHONE");
  (446, Name "KEY_HANGUP_PHONE"); (447, Name "KEY_LINK_PHONE"); (448, Name "KEY_DEL_EOL");
  (449, Name "KEY_DEL_EOS"); (450, Name "KEY_INS_LINE"); (451, Name "KEY_DEL_LINE");
  (464, Name "KEY_FN"); (465, Name "KEY_FN_ESC"); (466, Name "KEY_FN_F1");
  (467, Name "KEY_FN_F2"); (468, Name "KEY_FN_F3"); (469, Name "KEY_FN_F4");
  (470, Name "KEY_FN_F5"); (471, Name "KEY_FN_F6"); (472, Name "KEY_FN_F7");
  (473, Name "KEY_FN_F8"); (474, Name "KEY_FN_F9"); (475, Name "KEY_FN_F10");
  (476, Name "KEY_FN_F11"); (477, Name "KEY_FN_F12"); (478, Name "KEY_FN_1");
  (479, Name "KEY_FN_2"); (480, Name "KEY_FN_D"); (481, Name "KEY_FN_E"); (482, Name "KEY_FN_F");
  (483, Name "KEY_FN_S"); (484, Name "KEY_FN_B"); (485, Name "KEY_FN_RIGHT_SHIFT");
  (497, Name "KEY_BRL_DOT1"); (498, Name "KEY_BRL_DOT2"); (499, Name "KEY_BRL_DOT3");
  (500, Name "KEY_BRL_DOT4"); (501, Name "KEY_BRL_DOT5"); (502, Name "KEY_BRL_DOT6");
  (503, Name "KEY_BRL_DOT7"); (504, Name "KEY_BRL_DOT8"); (505, Name "KEY_BRL_DOT9");
  (506, Name "KEY_BRL_DOT10"); (512, Name "KEY_NUMERIC_0"); (513, Name "KEY_NUMERIC_1");
  (514, Name "KEY_NUMERIC_2"); (515, Name "KEY_NUMERIC_3"); (516, Name "KEY_NUMERIC_4");
  (517, Name "KEY_NUMERIC_5"); (518, Name "KEY_NUMERIC_6"); (519, Name "KEY_NUMERIC_7");
  (520, Name "KEY_NUMERIC_8"); (521, Name "KEY_NUMERIC_9"); (522, Name "KEY_NUMERIC_STAR");
  (523, Name "KEY_NUMERIC_POUND"); (524, Name "KEY_NUMERIC_A"); (525, Name "KEY_NUMERIC_B");
  (526, Name "KEY_NUMERIC_C"); (527, Name "KEY_NUMERIC_D"); (528, Name "KEY_CAMERA_FOCUS");
  (529, Name "KEY_WPS_BUTTON"); (530, Name "KEY_TOUCHPAD_TOGGLE"); (531, Name "KEY_TOUCHPAD_ON");
  (532, Name "KEY_TOUCHPAD_OFF"); (533, Name "KEY_CAMERA_ZOOMIN");
  (534, Name "KEY_CAMERA_ZOOMOUT"); (535, Name "KEY_CAMERA_UP"); (536, Name "KEY_CAMERA_DOWN");
  (537, Name "KEY_CAMERA_LEFT"); (538, Name "KEY_CAMERA_RIGHT"); (539, Name "KEY_ATTENDANT_ON");
  (540, Name "KEY_ATTENDANT_OFF"); (541, Name "KEY_ATTENDANT_TOGGLE");
  (542, Name "KEY_LIGHTS_TOGGLE"); (560, Name "KEY_ALS_TOGGLE");
  (561, Name "KEY_ROTATE_LOCK_TOGGLE"); (562, Name "KEY_REFRESH_RATE_TOGGLE");
  (576, Name "KEY_BUTTONCONFIG"); (577, Name "KEY_TASKMANAGER"); (578, Name "KEY_JOURNAL");
  (579, Name "KEY_CONTROLPANEL"); (580, Name "KEY_APPSELECT"); (581, Name "KEY_SCREENSAVER");
  (582, Name "KEY_VOICECOMMAND"); (583, Name "KEY_ASSISTANT"); (584, Name "KEY_KBD_LAYOUT_NEXT");
  (585, Name "KEY_EMOJI_PICKER"); (586, Name "KEY_DICTATE"); (592, Name "KEY_BRIGHTNESS_MIN");
  (593, Name "KEY_BRIGHTNESS_MAX"); (608, Name "KEY_KBDINPUTASSIST_PREV");
  (609, Name "KEY_KBDINPUTASSIST_NEXT"); (610, Name "KEY_KBDINPUTASSIST_PREVGROUP");
  (611, Name "KEY_KBDINPUTASSIST_NEXTGROUP"); (612, Name "KEY_KBDINPUTASSIST_ACCEPT");
  (613, Name "KEY_KBDINPUTASSIST_CANCEL"); (614, Name "KEY_RIGHT_UP");
  (615, Name "KEY_RIGHT_DOWN"); (616, Name "KEY_LEFT_UP"); (617, Name "KEY_LEFT_DOWN");
  (618, Name "KEY_ROOT_MENU"); (619, Name "KEY_MEDIA_TOP_MENU"); (620, Name "KEY_NUMERIC_11");
  (621, Name "KEY_NUMERIC_12"); (622, Name "KEY_AUDIO_DESC"); (623, Name "KEY_3D_MODE");
  (624, Name "KEY_NEXT_FAVORITE"); (625, Name "KEY_STOP_RECORD"); (626, Name "KEY_PAUSE_RECORD");
  (627, Name "KEY_VOD"); (628, Name "KEY_UNMUTE"); (629, Name "KEY_FASTREVERSE");
  (630, Name "KEY_SLOWREVERSE"); (631, Name "KEY_DATA"); (632, Name "KEY_ONSCREEN_KEYBOARD");
  (633, Name "KEY_PRIVACY_SCREEN_TOGGLE"); (634, Name "KEY_SELECTIVE_SCREENSHOT");
  (635, Name "KEY_NEXT_ELEMENT"); (636, Name "KEY_PREVIOUS_ELEMENT");
  (637, Name "KEY_AUTOPILOT_ENGAGE_TOGGLE"); (638, Name "KEY_MARK_WAYPOINT");
  (639, Name "KEY_SOS"); (640, Name "KEY_NAV_CHART"); (641, Name "KEY_FISHING_CHART");
  (642, Name "KEY_SINGLE_RANGE_RADAR"); (643, Name "KEY_DUAL_RANGE_RADAR");
  (644, Name "KEY_RADAR_OVERLAY"); (645, Name "KEY_TRADITIONAL_SONAR");
  (646, Name "KEY_CLEARVU_SONAR"); (647, Name "KEY_SIDEVU_SONAR"); (648, Name "KEY_NAV_INFO");
  (649, Name "KEY_BRIGHTNESS_MENU"); (656, Name "KEY_MACRO1"); (657, Name "KEY_MACRO2");
  (658, Name "KEY_MACRO3"); (659, Name "KEY_MACRO4"); (660, Name "KEY_MACRO5");
  (661, Name "KEY_MACRO6"); (662, Name "KEY_MACRO7"); (663, Name "KEY_MACRO8");
  (664, Name "KEY_MACRO9"); (665, Name "KEY_MACRO10"); (666, Name "KEY_MACRO11");
  (667, Name "KEY_MACRO12"); (668, Name "KEY_MACRO13"); (669, Name "KEY_MACRO14");
  (670, Name "KEY_MACRO15"); (671, Name "KEY_MACRO16"); (672, Name "KEY_MACRO17");
  (673, Name "KEY_MACRO18"); (674, Name "KEY_MACRO19"); (675, Name "KEY_MACRO20");
  (676, Name "KEY_MACRO21"); (677, Name "KEY_MACRO22"); (678, Name "KEY_MACRO23");
  (679, Name "KEY_MACRO24"); (680, Name "KEY_MACRO25"); (681, Name "KEY_MACRO26");
  (682, Name "KEY_MACRO27"); (683, Name "KEY_MACRO28"); (684, Name "KEY_MACRO29");
  (685, Name "KEY_MACRO30"); (688, Name "KEY_MACRO_RECORD_START");
  (689, Name "KEY_MACRO_RECORD_STOP"); (690, Name "KEY_MACRO_PRESET_CYCLE");
  (691, Name "KEY_MACRO_PRESET1"); (692, Name "KEY_MACRO_PRESET2");
  (693, Name "KEY_MACRO_PRESET3"); (696, Name "KEY_KBD_LCD_MENU1");
  (697, Name "KEY_KBD_LCD_MENU2"); (698, Name "KEY_KBD_LCD_MENU3");
  (699, Name "KEY_KBD_LCD_MENU4"); (700, Name "KEY_KBD_LCD_MENU5"); (767, Name "KEY_MAX");
  (768, Name "KEY_CNT")
 ].

(** [ecodes.BTN], the button codes of the same header. *)
Definition BTN : list (Z * key_names) :=
 [
  (256, Names ["BTN_0"; "BTN_MISC"]); (257, Name "BTN_1"); (258, Name "BTN_2");
  (259, Name "BTN_3"); (260, Name "BTN_4"); (261, Name "BTN_5"); (262, Name "BTN_6");
  (263, Name "BTN_7"); (264, Name "BTN_8"); (265, Name "BTN_9");
  (272, Names ["BTN_LEFT"; "BTN_MOUSE"]); (273, Name "BTN_RIGHT"); (274, Name "BTN_MIDDLE");
  (275, Name "BTN_SIDE"); (276, Name "BTN_EXTRA"); (277, Name "BTN_FORWARD");
  (278, Name "BTN_BACK"); (279, Name "BTN_TASK"); (288, Names ["BTN_JOYSTICK"; "BTN_TRIGGER"]);
  (289, Name "BTN_THUMB"); (290, Name "BTN_THUMB2"); (291, Name "BTN_TOP");
  (292, Name "BTN_TOP2"); (293, Name "BTN_PINKIE"); (294, Name "BTN_BASE");
  (295, Name "BTN_BASE2"); (296, Name "BTN_BASE3"); (297, Name "BTN_BASE4");
  (298, Name "BTN_BASE5"); (299, Name "BTN_BASE6"); (303, Name "BTN_DEAD");
  (304, Names ["BTN_A"; "BTN_GAMEPAD"; "BTN_SOUTH"]); (305, Names ["BTN_B"; "BTN_EAST"]);
  (306, Name "BTN_C"); (307, Names ["BTN_NORTH"; "BTN_X"]); (308, Names ["BTN_WEST"; "BTN_Y"]);
  (309, Name "BTN_Z"); (310, Name "BTN_TL"); (311, Name "BTN_TR"); (312, Name "BTN_TL2");
  (313, Name "BTN_TR2"); (314, Name "BTN_SELECT"); (315, Name "BTN_START");
  (316, Name "BTN_MODE"); (317, Name "BTN_THUMBL"); (318, Name "BTN_THUMBR");
  (320, Names ["BTN_DIGI"; "BTN_TOOL_PEN"]); (321, Name "BTN_TOOL_RUBBER");
  (322, Name "BTN_TOOL_BRUSH"); (323, Name "BTN_TOOL_PENCIL"); (324, Name "BTN_TOOL_AIRBRUSH");
  (325, Name "BTN_TOOL_FINGER"); (326, Name "BTN_TOOL_MOUSE"); (327, Name "BTN_TOOL_LENS");
  (328, Name "BTN_TOOL_QUINTTAP"); (329, Name "BTN_STYLUS3"); (330, Name "BTN_TOUCH");
  (331, Name "BTN_STYLUS"); (332, Name "BTN_STYLUS2"); (333, Name "BTN_TOOL_DOUBLETAP");
  (334, Name "BTN_TOOL_TRIPLETAP"); (335, Name "BTN_TOOL_QUADTAP");
  (336, Names ["BTN_GEAR_DOWN"; "BTN_WHEEL"]); (337, Name "BTN_GEAR_UP");
  (544, Name "BTN_DPAD_UP"); (545, Name "BTN_DPAD_DOWN"); (546, Name "BTN_DPAD_LEFT");
  (547, Name "BTN_DPAD_RIGHT"); (704, Names ["BTN_TRIGGER_HAPPY"; "BTN_TRIGGER_HAPPY1"]);
  (705, Name "BTN_TRIGGER_HAPPY2"); (706, Name "BTN_TRIGGER_HAPPY3");
  (707, Name "BTN_TRIGGER_HAPPY4"); (708, Name "BTN_TRIGGER_HAPPY5");
  (709, Name "BTN_TRIGGER_HAPPY6"); (710, Name "BTN_TRIGGER_HAPPY7");
  (711, Name "BTN_TRIGGER_HAPPY8"); (712, Name "BTN_TRIGGER_HAPPY9");
  (713, Name "BTN_TRIGGER_HAPPY10"); (714, Name "BTN_TRIGGER_HAPPY11");
  (715, Name "BTN_TRIGGER_HAPPY12"); (716, Name "BTN_TRIGGER_HAPPY13");
  (717, Name "BTN_TRIGGER_HAPPY14"); (718, Name "BTN_TRIGGER_HAPPY15");
  (719, Name "BTN_TRIGGER_HAPPY16"); (720, Name "BTN_TRIGGER_HAPPY17");
  (721, Name "BTN_TRIGGER_HAPPY18"); (722, Name "BTN_TRIGGER_HAPPY19");
  (723, Name "BTN_TRIGGER_HAPPY20"); (724, Name "BTN_TRIGGER_HAPPY21");
  (725, Name "BTN_TRIGGER_HAPPY22"); (726, Name "BTN_TRIGGER_HAPPY23");
  (727, Name "BTN_TRIGGER_HAPPY24"); (728, Name "BTN_TRIGGER_HAPPY25");
  (729, Name "BTN_TRIGGER_HAPPY26"); (730, Name "BTN_TRIGGER_HAPPY27");
  (731, Name "BTN_TRIGGER_HAPPY28"); (732, Name "BTN_TRIGGER_HAPPY29");
  (733, Name "BTN_TRIGGER_HAPPY30"); (734, Name "BTN_TRIGGER_HAPPY31");
  (735, Name "BTN_TRIGGER_HAPPY32"); (736, Name "BTN_TRIGGER_HAPPY33");
  (737, Name "BTN_TRIGGER_HAPPY34"); (738, Name "BTN_TRIGGER_HAPPY35");
  (739, Name "BTN_TRIGGER_HAPPY36"); (740, Name "BTN_TRIGGER_HAPPY37");
  (741, Name "BTN_TRIGGER_HAPPY38"); (742, Name "BTN_TRIGGER_HAPPY39");
  (743, Name "BTN_TRIGGER_HAPPY40")
 ].

Definition KEY_MAX : Z := 767.
Definition KEY_CNT : Z := 768.

(** [ecodes.keys]: "a combination of all BTN and KEY codes", from which
    the module deletes the entries of [KEY_MAX] and [KEY_CNT]. *)
Definition keys : list (Z * key_names) :=
  List.filter (fun item => negb (fst item =? KEY_MAX) && negb (fst item =? KEY_CNT))
              (BTN ++ KEY).

End ecodes.

(** ** Dictionaries

    A JSON object becomes a Python [dict]; iteration follows insertion
    order and keys are unique.  [dict_get d k] is both [k in d] (is it
    [Some]?) and [d[k]]. *)

Definition dict (V : Type) : Type := list (string * V).

Fixpoint dict_get {V : Type} (d : dict V) (k : string) : option V :=
  match d with
  | [] => None
  | (k', v) :: r => if String.eqb k' k then Some v else dict_get r k
  end.

Definition dict_mem {V : Type} (d : dict V) (k : string) : bool :=
  match dict_get d k with Some _ => true | None => false end.

Definition dict_keys {V : Type} (d : dict V) : list string := map fst d.

(** The same for the literal tables of the source that are keyed by a key
    code. *)
Fixpoint code_get (d : list (Z * string)) (k : Z) : option string :=
  match d with
  | [] => None
  | (k', v) :: r => if Z.eqb k' k then Some v else code_get r k
  end.

(** ** Results, exceptions and effects *)

Inductive exn : Type := ValueError | KeyError.

Inductive result (A : Type) : Type :=
| Ret (a : A)
| Raise (e : exn).
Arguments Ret {A} a.
Arguments Raise {A} e.

(** What [get_mapping] returns: [None], the pair [("COMMAND", cmd)], a key
    code (uinput) or a key name (dotool). *)
Inductive Mapped : Type :=
| RNone
| RCommand (cmd : string)
| RInt (n : Z)
| RStr (s : string).

(** What the mapper does to its collaborators. *)
Inductive Effect : Type :=
| UWrite (etype code value : Z)   (* self.uinput.write(etype, code, value) *)
| USyn                            (* self.uinput.syn() *)
| DotoolLine (line : string)      (* a line written to the dotool child *)
| Exec (command : string).        (* execute_command(command) *)

(** ** KeyIdentifierRegistry *)

Definition key_name_map : list (Z * string) :=
  [ (ecodes.KEY_A, "a"); (ecodes.KEY_B, "b"); (ecodes.KEY_C, "c"); (ecodes.KEY_D, "d");
    (ecodes.KEY_E, "e"); (ecodes.KEY_F, "f"); (ecodes.KEY_G, "g"); (ecodes.KEY_H, "h");
    (ecodes.KEY_I, "i"); (ecodes.KEY_J, "j"); (ecodes.KEY_K, "k"); (ecodes.KEY_L, "l");
    (ecodes.KEY_M, "m"); (ecodes.KEY_N, "n"); (ecodes.KEY_O, "o"); (ecodes.KEY_P, "p");
    (ecodes.KEY_Q, "q"); (ecodes.KEY_R, "r"); (ecodes.KEY_S, "s"); (ecodes.KEY_T, "t");
    (ecodes.KEY_U, "u"); (ecodes.KEY_V, "v"); (ecodes.KEY_W, "w"); (ecodes.KEY_X, "x");
    (ecodes.KEY_Y, "y"); (ecodes.KEY_Z, "z");
    (ecodes.KEY_1, "1"); (ecodes.KEY_2, "2"); (ecodes.KEY_3, "3"); (ecodes.KEY_4, "4");
    (ecodes.KEY_5, "5"); (ecodes.KEY_6, "6"); (ecodes.KEY_7, "7"); (ecodes.KEY_8, "8");
    (ecodes.KEY_9, "9"); (ecodes.KEY_0, "0");
    (ecodes.KEY_SPACE, "space"); (ecodes.KEY_ENTER, "enter"); (ecodes.KEY_TAB, "tab");
    (ecodes.KEY_BACKSPACE, "backspace"); (ecodes.KEY_ESC, "escape");
    (ecodes.KEY_LEFTSHIFT, "shift"); (ecodes.KEY_RIGHTSHIFT, "shift");
    (ecodes.KEY_LEFTCTRL, "ctrl"); (ecodes.KEY_RIGHTCTRL, "ctrl");
    (ecodes.KEY_LEFTALT, "alt"); (ecodes.KEY_RIGHTALT, "alt");
    (ecodes.KEY_LEFTMETA, "super"); (ecodes.KEY_RIGHTMETA, "super");
    (ecodes.KEY_UP, "up"); (ecodes.KEY_DOWN, "down");
    (ecodes.KEY_LEFT, "left"); (ecodes.KEY_RIGHT, "right");
    (ecodes.KEY_HOME, "home"); (ecodes.KEY_END, "end");
    (ecodes.KEY_PAGEUP, "pageup"); (ecodes.KEY_PAGEDOWN, "pagedown");
    (ecodes.KEY_DELETE, "delete"); (ecodes.KEY_INSERT, "insert");
    (ecodes.KEY_F1, "f1"); (ecodes.KEY_F2, "f2"); (ecodes.KEY_F3, "f3"); (ecodes.KEY_F4, "f4");
    (ecodes.KEY_F5, "f5"); (ecodes.KEY_F6, "f6"); (ecodes.KEY_F7, "f7"); (ecodes.KEY_F8, "f8");
    (ecodes.KEY_F9, "f9"); (ecodes.KEY_F10, "f10"); (ecodes.KEY_F11, "f11");
    (ecodes.KEY_F12, "f12"); (ecodes.KEY_F13, "f13"); (ecodes.KEY_F14, "f14");
    (ecodes.KEY_F15, "f15"); (ecodes.KEY_F16, "f16"); (ecodes.KEY_F17, "f17");
    (ecodes.KEY_F18, "f18"); (ecodes.KEY_F19, "f19"); (ecodes.KEY_F20, "f20");
    (ecodes.KEY_F21, "f21"); (ecodes.KEY_F22, "f22"); (ecodes.KEY_F23, "f23");
    (ecodes.KEY_F24, "f24") ].

(** [keycode_to_dotool_name]: the dotool name of the table, or the
    synthetic [k:<code>]. *)
Definition keycode_to_dotool_name (key_code : Z) : string :=
  match code_get key_name_map key_code with
  | Some name => name
  | None => "k:" +:+ Py.str key_code
  end.

Definition char_map : dict Z :=
  [ ("a", ecodes.KEY_A); ("b", ecodes.KEY_B); ("c", ecodes.KEY_C); ("d", ecodes.KEY_D);
    ("e", ecodes.KEY_E); ("f", ecodes.KEY_F); ("g", ecodes.KEY_G); ("h", ecodes.KEY_H);
    ("i", ecodes.KEY_I); ("j", ecodes.KEY_J); ("k", ecodes.KEY_K); ("l", ecodes.KEY_L);
    ("m", ecodes.KEY_M); ("n", ecodes.KEY_N); ("o", ecodes.KEY_O); ("p", ecodes.KEY_P);
    ("q", ecodes.KEY_Q); ("r", ecodes.KEY_R); ("s", ecodes.KEY_S); ("t", ecodes.KEY_T);
    ("u", ecodes.KEY_U); ("v", ecodes.KEY_V); ("w", ecodes.KEY_W); ("x", ecodes.KEY_X);
    ("y", ecodes.KEY_Y); ("z", ecodes.KEY_Z);
    ("1", ecodes.KEY_1); ("2", ecodes.KEY_2); ("3", ecodes.KEY_3); ("4", ecodes.KEY_4);
    ("5", ecodes.KEY_5); ("6", ecodes.KEY_6); ("7", ecodes.KEY_7); ("8", ecodes.KEY_8);
    ("9", ecodes.KEY_9); ("0", ecodes.KEY_0) ].

Definition name_map : dict Z :=
  [ ("space", ecodes.KEY_SPACE); ("enter", ecodes.KEY_ENTER); ("tab", ecodes.KEY_TAB);
    ("backspace", ecodes.KEY_BACKSPACE); ("escape", ecodes.KEY_ESC); ("esc", ecodes.KEY_ESC);
    ("shift", ecodes.KEY_LEFTSHIFT); ("ctrl", ecodes.KEY_LEFTCTRL);
    ("control", ecodes.KEY_LEFTCTRL);
    ("alt", ecodes.KEY_LEFTALT); ("super", ecodes.KEY_LEFTMETA); ("meta", ecodes.KEY_LEFTMETA);
    ("up", ecodes.KEY_UP); ("down", ecodes.KEY_DOWN); ("left", ecodes.KEY_LEFT);
    ("right", ecodes.KEY_RIGHT);
    ("home", ecodes.KEY_HOME); ("end", ecodes.KEY_END);
    ("pageup", ecodes.KEY_PAGEUP); ("pagedown", ecodes.KEY_PAGEDOWN);
    ("delete", ecodes.KEY_DELETE); ("insert", ecodes.KEY_INSERT);
    ("f1", ecodes.KEY_F1); ("f2", ecodes.KEY_F2); ("f3", ecodes.KEY_F3); ("f4", ecodes.KEY_F4);
    ("f5", ecodes.KEY_F5); ("f6", ecodes.KEY_F6); ("f7", ecodes.KEY_F7); ("f8", ecodes.KEY_F8);
    ("f9", ecodes.KEY_F9); ("f10", ecodes.KEY_F10); ("f11", ecodes.KEY_F11);
    ("f12", ecodes.KEY_F12); ("f13", ecodes.KEY_F13); ("f14", ecodes.KEY_F14);
    ("f15", ecodes.KEY_F15); ("f16", ecodes.KEY_F16); ("f17", ecodes.KEY_F17);
    ("f18", ecodes.KEY_F18); ("f19", ecodes.KEY_F19); ("f20", ecodes.KEY_F20);
    ("f21", ecodes.KEY_F21); ("f22", ecodes.KEY_F22); ("f23", ecodes.KEY_F23);
    ("f24", ecodes.KEY_F24) ].

(** The loop [for code, name in ecodes.KEY.items(): if name == key_name_upper:
    return code]. *)
Fixpoint search_KEY (items : list (Z * ecodes.key_names)) (key_name_upper : string)
  : option Z :=
  match items with
  | [] => None
  | (code, ecodes.Name name) :: r =>
      if String.eqb name key_name_upper then Some code else search_KEY r key_name_upper
  | (_, ecodes.Names _) :: r => search_KEY r key_name_upper
  end.

(** [name_to_keycode]: the evdev name (with or without [KEY_], any case),
    then a single character, then the common names. *)
Definition name_to_keycode (key_name : string) : option Z :=
  let key_name_upper :=
    if Py.startswith (Py.upper key_name) "KEY_" then Py.upper key_name
    else "KEY_" +:+ Py.upper key_name in
  match search_KEY ecodes.KEY key_name_upper with
  | Some code => Some code
  | None =>
      match (if Nat.eqb (Py.len key_name) 1
             then dict_get char_map (Py.lower key_name) else None) with
      | Some code => Some code
      | None => dict_get name_map (Py.lower key_name)
      end
  end.

(** [normalize_config_key]: name first, decimal literal second. *)
Definition normalize_config_key (key : string) : option Z * option string :=
  match name_to_keycode key with
  | Some keycode => (Some keycode, Some (keycode_to_dotool_name keycode))
  | None =>
      match Py.int key with
      | Some keycode => (Some keycode, Some (keycode_to_dotool_name keycode))
      | None => (None, None)
      end
  end.

(** [normalized_keycode == key_code], where the left side may be [None]. *)
Definition code_is (normalized_keycode : option Z) (key_code : Z) : bool :=
  match normalized_keycode with
  | Some c => Z.eqb c key_code
  | None => false
  end.

(** ** Configuration and mapper state *)

(** [self.config]: each table is optional (["..." in self.config]).  The
    values of the tables are strings; a table holding another kind of JSON
    value is not in the model. *)
Record Config : Type := {
  window_command_mappings : option (dict (dict string));
  command_mappings : option (dict string);
  window_mappings : option (dict (dict string));
  global_mappings : option (dict string)
}.

(** The fields of [KeyMapper] that event processing reads or writes.
    [uinput] and [dotool_process] tell whether the attribute is not [None];
    times are in milliseconds. *)
Record KeyMapper : Type := {
  config : Config;
  output_method : string;
  uinput : bool;
  dotool_process : bool;
  pressed_keys : gset string;
  current_window : option string;
  window_cache_time : Z
}.

Definition window_cache_ttl : Z := 100.

(** How the run of the window command ends: [subprocess.run] returns with a
    return code and the captured output, or raises. *)
Inductive ProbeOutcome : Type :=
| Exited (returncode : Z) (stdout : string)
| TimeoutExpired
| FileNotFound
| OtherError.

(** What the outside world answers during one call of [process_event]: the
    clock, the window command should it be run, and whether a write to the
    dotool pipe fails ([BrokenPipeError]). *)
Record World : Type := {
  now : Z;
  probe : ProbeOutcome;
  pipe_broken : bool
}.

Record InputEvent : Type := {
  ev_type : Z;
  ev_code : Z;
  ev_value : Z
}.

Definition set_window (m : KeyMapper) (w : option string) (t : Z) : KeyMapper :=
  {| config := config m; output_method := output_method m; uinput := uinput m;
     dotool_process := dotool_process m; pressed_keys := pressed_keys m;
     current_window := w; window_cache_time := t |}.

Definition set_dotool (m : KeyMapper) (alive : bool) (keys : gset string) : KeyMapper :=
  {| config := config m; output_method := output_method m; uinput := uinput m;
     dotool_process := alive; pressed_keys := keys;
     current_window := current_window m; window_cache_time := window_cache_time m |}.

(** ** Streaming transport *)

Definition newline : string := String (ascii_of_nat 10) EmptyString.

(** [send_dotool_key].  A failed write leaves [pressed_keys] alone and
    drops the process handle. *)
Definition send_dotool_key (m : KeyMapper) (broken : bool) (key_name : string) (value : Z)
  : KeyMapper * list Effect :=
  if negb (dotool_process m) || negb (Py.truthy key_name) then (m, [])
  else if value =? 1 then
    if decide (key_name ∈ pressed_keys m) then (m, [])
    else if broken then (set_dotool m false (pressed_keys m), [])
    else (set_dotool m true ({[ key_name ]} ∪ pressed_keys m),
          [DotoolLine ("keydown " +:+ key_name +:+ newline)])
  else if value =? 0 then
    if decide (key_name ∈ pressed_keys m) then
      if broken then (set_dotool m false (pressed_keys m), [])
      else (set_dotool m true (pressed_keys m ∖ {[ key_name ]}),
            [DotoolLine ("keyup " +:+ key_name +:+ newline)])
    else (m, [])
  else (m, []).

(** ** WindowContextProvider *)

(** [get_focused_window], from the cache test to the end.  The lines
    between the two (341-376) choose the command line and the user it runs
    as; their result is folded into the [ProbeOutcome], and the function
    is embedded for a window command that these lines can prepare (a
    string that [shlex.split] refuses is not among them). *)
Definition get_focused_window (m : KeyMapper) (w : World) : KeyMapper * option string :=
  if now w - window_cache_time m <? window_cache_ttl then (m, current_window m)
  else
    match probe w with
    | Exited returncode stdout =>
        if returncode =? 0 then
          let window := Py.strip (Py.strip stdout) in
          let cw := if Py.truthy window then Some window else None in
          (set_window m cw (now w), cw)
        else (m, current_window m)
    | TimeoutExpired | FileNotFound | OtherError => (m, current_window m)
    end.

(** ** MappingResolver *)

Definition is_command_mapping (mapped_value : string) : bool :=
  Py.startswith mapped_value "cmd:" || Py.startswith mapped_value "CMD:".

Definition get_command_from_mapping (mapped_value : string) : option string :=
  if Py.startswith mapped_value "cmd:" then Some (Py.strip (Py.drop_chars 4 mapped_value))
  else if Py.startswith mapped_value "CMD:" then Some (Py.strip (Py.drop_chars 4 mapped_value))
  else None.

(** [int(mapped)], uncaught. *)
Definition int_or_raise (mapped : string) : result Mapped :=
  match Py.int mapped with
  | Some n => Ret (RInt n)
  | None => Raise ValueError
  end.

(** "Convert mapped value based on output method". *)
Definition convert_mapped (method mapped : string) : result Mapped :=
  if String.eqb method "dotool" then
    match snd (normalize_config_key mapped) with
    | Some mapped_name => if Py.truthy mapped_name then Ret (RStr mapped_name)
                          else Ret (RStr mapped)
    | None => Ret (RStr mapped)
    end
  else
    match fst (normalize_config_key mapped) with
    | Some mapped_keycode => if mapped_keycode =? 0 then int_or_raise mapped
                             else Ret (RInt mapped_keycode)
    | None => int_or_raise mapped
    end.

(** What the two key-substitution blocks do with a matched value. *)
Definition key_mapping_result (method mapped : string) : result Mapped :=
  if is_command_mapping mapped then
    match get_command_from_mapping mapped with
    | Some cmd => if Py.truthy cmd then Ret (RCommand cmd) else convert_mapped method mapped
    | None => convert_mapped method mapped
    end
  else convert_mapped method mapped.

(** What the two command blocks do with a matched value. *)
Definition command_mapping_result (mapped : string) : result Mapped :=
  Ret (RCommand mapped).

(** The two loops every block runs over one table.  [None] means that the
    loop ended without a [return]. *)
Section TableLoops.
Context {R : Type}.
Variable key_code : Z.
Variable table : dict string.
Variable on_match : string -> R.

(** [for lookup_key in lookup_keys: if lookup_key in table: ...] *)
Fixpoint direct_loop (lookup_keys : list string) : option R :=
  match lookup_keys with
  | [] => None
  | lookup_key :: rest =>
      match dict_get table lookup_key with
      | Some mapped =>
          if code_is (fst (normalize_config_key lookup_key)) key_code
          then Some (on_match mapped)
          else direct_loop rest
      | None => direct_loop rest
      end
  end.

(** [for config_key in list(table.keys()): ...]; the keys come from the
    table, so [table[config_key]] is there. *)
Fixpoint normalize_loop (config_keys : list string) : option R :=
  match config_keys with
  | [] => None
  | config_key :: rest =>
      if code_is (fst (normalize_config_key config_key)) key_code
      then match dict_get table config_key with
           | Some mapped => Some (on_match mapped)
           | None => normalize_loop rest
           end
      else normalize_loop rest
  end.

Definition table_loops (lookup_keys : list string) : option R :=
  match direct_loop lookup_keys with
  | Some r => Some r
  | None => normalize_loop (dict_keys table)
  end.
End TableLoops.

(** The choice of [window_key]: exact, then equal up to case, then
    substring in either direction. *)
Definition find_window_key {V : Type} (window : string) (maps : dict V) : option string :=
  if dict_mem maps window then Some window
  else
    match find (fun w => String.eqb (Py.lower w) (Py.lower window)) (dict_keys maps) with
    | Some w => Some w
    | None =>
        let window_lower := Py.lower window in
        find (fun w => Py.contains window_lower (Py.lower w)
                       || Py.contains (Py.lower w) window_lower) (dict_keys maps)
    end.

(** A block guarded by [if window and "..." in self.config] and then by
    [if window_key]. *)
Definition window_block {R : Type} (window : option string)
    (maps : option (dict (dict string))) (key_code : Z) (lookup_keys : list string)
    (on_match : string -> R) : option R :=
  match window, maps with
  | Some w, Some window_maps =>
      if Py.truthy w then
        match find_window_key w window_maps with
        | Some window_key =>
            if Py.truthy window_key then
              match dict_get window_maps window_key with
              | Some table => table_loops key_code table on_match lookup_keys
              | None => None
              end
            else None
        | None => None
        end
      else None
  | _, _ => None
  end.

(** A block guarded by [if "..." in self.config]. *)
Definition global_block {R : Type} (maps : option (dict string)) (key_code : Z)
    (lookup_keys : list string) (on_match : string -> R) : option R :=
  match maps with
  | Some table => table_loops key_code table on_match lookup_keys
  | None => None
  end.

Definition lookup_keys_of (key_code : Z) : list string :=
  let key_name := keycode_to_dotool_name key_code in
  Py.str key_code ::
  (if Py.truthy key_name then [key_name; Py.lower key_name; Py.upper key_name] else []).

(** The body of [get_mapping] after [window = self.get_focused_window()]:
    the four blocks in the order of the source, each returning as soon as
    it matches. *)
Definition get_mapping_in (cfg : Config) (method : string) (window : option string)
    (key_code : Z) : result Mapped :=
  let lookup_keys := lookup_keys_of key_code in
  match window_block window (window_command_mappings cfg) key_code lookup_keys
          command_mapping_result with
  | Some r => r
  | None =>
  match global_block (command_mappings cfg) key_code lookup_keys
          command_mapping_result with
  | Some r => r
  | None =>
  match window_block window (window_mappings cfg) key_code lookup_keys
          (key_mapping_result method) with
  | Some r => r
  | None =>
  match global_block (global_mappings cfg) key_code lookup_keys
          (key_mapping_result method) with
  | Some r => r
  | None => Ret RNone
  end end end end.

(** [get_mapping]. *)
Definition get_mapping (m : KeyMapper) (w : World) (key_code : Z)
  : KeyMapper * result Mapped :=
  let '(m', window) := get_focused_window m w in
  (m', get_mapping_in (config m') (output_method m') window key_code).

(** ** ActionDispatcher and EventLoop *)

(** [execute_command] launches the command detached and swallows every
    exception. *)
Definition execute_command (command : string) : list Effect := [Exec command].

(** [code in ecodes.keys]. *)
Definition in_ecodes_keys (code : Z) : bool :=
  existsb (fun item => fst item =? code) ecodes.keys.

(** [categorize(event)] of python-evdev.  For a key event it builds a
    [KeyEvent], whose constructor reads [ecodes.keys[event.code]] and lets
    the [KeyError] of a code without a name escape; for the other classes
    of events nothing fails.  [process_event] does not use the object it
    returns. *)
Definition categorize (event : InputEvent) : result unit :=
  if ev_type event =? ecodes.EV_KEY then
    if in_ecodes_keys (ev_code event) then Ret tt else Raise KeyError
  else Ret tt.

(** [process_event]. *)
Definition process_event (m : KeyMapper) (w : World) (event : InputEvent)
  : result (KeyMapper * list Effect) :=
  if ev_type event =? ecodes.EV_KEY then
    match categorize event with
    | Raise e => Raise e
    | Ret _ =>
    let key_code := ev_code event in
    let '(m1, r) := get_mapping m w key_code in
    match r with
    | Raise e => Raise e
    | Ret (RCommand cmd) =>
        Ret (m1, if ev_value event =? 1 then execute_command cmd else [])
    | Ret mapped =>
        let output_key :=
          match mapped with
          | RNone => if String.eqb (output_method m1) "dotool"
                     then RStr (keycode_to_dotool_name key_code)
                     else RInt key_code
          | other => other
          end in
        let key_truthy :=
          match output_key with
          | RStr s => Py.truthy s
          | RInt n => negb (n =? 0)
          | _ => false
          end in
        if String.eqb (output_method m1) "dotool" && dotool_process m1 && key_truthy then
          match output_key with
          | RStr s => Ret (send_dotool_key m1 (pipe_broken w) s (ev_value event))
          | RInt n => Ret (send_dotool_key m1 (pipe_broken w) (Py.str n) (ev_value event))
          | _ => Ret (m1, [])
          end
        else
          match output_key with
          | RInt n => if uinput m1
                      then Ret (m1, [UWrite ecodes.EV_KEY n (ev_value event); USyn])
                      else Ret (m1, [])
          | _ => Ret (m1, [])
          end
    end
    end
  else
    if uinput m then
      Ret (m, UWrite (ev_type event) (ev_code event) (ev_value event)
              :: (if ev_type event =? ecodes.EV_SYN then [USyn] else []))
    else Ret (m, []).

(** How [run] leaves its loop: the device has no more events for it (the
    interrupt) or an exception escapes [process_event]. *)
Inductive Outcome : Type :=
| Interrupted (m : KeyMapper)
| Aborted (e : exn).

(** The loop of [run]: [for event in self.device.read_loop():
    self.process_event(event)]; only [KeyboardInterrupt] is caught. *)
Fixpoint run (m : KeyMapper) (events : list (World * InputEvent)) : list Effect * Outcome :=
  match events with
  | [] => ([], Interrupted m)
  | (w, event) :: rest =>
      match process_event m w event with
      | Raise e => ([], Aborted e)
      | Ret (m', out) => let '(outs, o) := run m' rest in (out ++ outs, o)
      end
  end.


(** ** Notions used to state the properties *)

(** The right-hand modifier keys: [key_name_map] gives them the name of
    their left-hand twin. *)
Definition right_modifiers : list Z :=
  [ecodes.KEY_RIGHTSHIFT; ecodes.KEY_RIGHTCTRL; ecodes.KEY_RIGHTALT; ecodes.KEY_RIGHTMETA].

(** A code has a name of its own in [key_name_map]. *)
Definition has_dotool_name (key_code : Z) : bool :=
  match code_get key_name_map key_code with Some _ => true | None => false end.

(** The value of a digit sequence read from the left, the way [Py.int]
    reads it. *)
Fixpoint uint_value (acc : Z) (d : Decimal.uint) : Z :=
  match d with
  | Decimal.Nil => acc
  | Decimal.D0 d => uint_value (10 * acc + 0) d
  | Decimal.D1 d => uint_value (10 * acc + 1) d
  | Decimal.D2 d => uint_value (10 * acc + 2) d
  | Decimal.D3 d => uint_value (10 * acc + 3) d
  | Decimal.D4 d => uint_value (10 * acc + 4) d
  | Decimal.D5 d => uint_value (10 * acc + 5) d
  | Decimal.D6 d => uint_value (10 * acc + 6) d
  | Decimal.D7 d => uint_value (10 * acc + 7) d
  | Decimal.D8 d => uint_value (10 * acc + 8) d
  | Decimal.D9 d => uint_value (10 * acc + 9) d
  end.

(** The integers below this bound are those that are printed with at most
    [Py.int_max_str_digits] digits. *)
Definition int_str_bound : Z := 10 ^ Py.int_max_str_digits.

(** Strings made of decimal digits only. *)
Fixpoint all_digits (s : string) : bool :=
  match s with
  | EmptyString => true
  | String c r => Py.is_digit c && all_digits r
  end.

(** Sending a sequence of values for one key through a healthy pipe. *)
Fixpoint send_dotool_values (m : KeyMapper) (key_name : string) (values : list Z)
  : KeyMapper * list Effect :=
  match values with
  | [] => (m, [])
  | value :: rest =>
      let '(m1, out) := send_dotool_key m false key_name value in
      let '(m2, outs) := send_dotool_values m1 key_name rest in
      (m2, out ++ outs)
  end.

(** The window command ran and failed: it timed out or returned a code
    other than 0. *)
Definition probe_failed (p : ProbeOutcome) : Prop :=
  match p with
  | TimeoutExpired => True
  | Exited returncode _ => returncode <> 0
  | FileNotFound | OtherError => False
  end.

Definition key_event (key_code value : Z) : InputEvent :=
  {| ev_type := ecodes.EV_KEY; ev_code := key_code; ev_value := value |}.

(** *** Sample mappers *)

Definition no_tables : Config :=
  {| window_command_mappings := None; command_mappings := None;
     window_mappings := None; global_mappings := None |}.

(** The mapper as [__init__] leaves it when the transport of [method] could
    be set up. *)
Definition fresh_mapper (cfg : Config) (method : string) : KeyMapper :=
  {| config := cfg; output_method := method;
     uinput := negb (String.eqb method "dotool");
     dotool_process := String.eqb method "dotool";
     pressed_keys := ∅; current_window := None; window_cache_time := 0 |}.

Definition world (t : Z) (p : ProbeOutcome) : World :=
  {| now := t; probe := p; pipe_broken := false |}.

(** [{"window_mappings": {"krita": {"a": "b"}}, "global_mappings": {"a": "c"}}] *)
Definition krita_config : Config :=
  {| window_command_mappings := None; command_mappings := None;
     window_mappings := Some [("krita", [("a", "b")])];
     global_mappings := Some [("a", "c")] |}.

(** *** What a block finds

    The value a block finds for a key code, before anything is done with
    it: the two loops of the source run with the identity in place of the
    [return] statement. *)

Definition table_lookup (key_code : Z) (table : dict string) : option string :=
  table_loops key_code table (fun mapped => mapped) (lookup_keys_of key_code).

Definition window_lookup (window : option string) (maps : option (dict (dict string)))
    (key_code : Z) : option string :=
  window_block window maps key_code (lookup_keys_of key_code) (fun mapped => mapped).

Definition global_lookup (maps : option (dict string)) (key_code : Z) : option string :=
  global_block maps key_code (lookup_keys_of key_code) (fun mapped => mapped).

(** The first value found in the two command tables, and in the two
    key-substitution tables. *)
Definition command_lookup (cfg : Config) (window : option string) (key_code : Z)
  : option string :=
  match window_lookup window (window_command_mappings cfg) key_code with
  | Some mapped => Some mapped
  | None => global_lookup (command_mappings cfg) key_code
  end.

Definition key_lookup (cfg : Config) (window : option string) (key_code : Z)
  : option string :=
  match window_lookup window (window_mappings cfg) key_code with
  | Some mapped => Some mapped
  | None => global_lookup (global_mappings cfg) key_code
  end.

(** The value is stored in one of the inner tables of [maps]. *)
Definition stored_in_window_maps (maps : option (dict (dict string))) (mapped : string)
  : Prop :=
  exists window_maps window_key table config_key,
    maps = Some window_maps /\ In (window_key, table) window_maps /\
    In (config_key, mapped) table.

Definition stored_in_global_maps (maps : option (dict string)) (mapped : string) : Prop :=
  exists table config_key, maps = Some table /\ In (config_key, mapped) table.

(** The mapper of [krita_config] after a first probe, at time 1000, that
    printed [krita]. *)
Definition probed_krita_mapper : KeyMapper :=
  fst (get_focused_window (fresh_mapper krita_config "uinput")
         (world 1000 (Exited 0 ("krita" +:+ newline)))).

(** [{"window_command_mappings": {"krita": {"a": "xterm"}}}]: a command
    that only the table of one window holds, and the mapper after a first
    probe, at time 1000, that printed [krita]. *)
Definition window_command_config : Config :=
  {| window_command_mappings := Some [("krita", [("a", "xterm")])];
     command_mappings := None; window_mappings := None; global_mappings := None |}.

Definition probed_command_mapper : KeyMapper :=
  fst (get_focused_window (fresh_mapper window_command_config "uinput")
         (world 1000 (Exited 0 ("krita" +:+ newline)))).

(** One key with an entry in each of the four tables:
    [{"window_command_mappings": {"krita": {"a": "cmd1"}},
      "command_mappings": {"a": "cmd2"},
      "window_mappings": {"krita": {"a": "b"}},
      "global_mappings": {"a": "c"}}] *)
Definition four_tier_config : Config :=
  {| window_command_mappings := Some [("krita", [("a", "cmd1")])];
     command_mappings := Some [("a", "cmd2")];
     window_mappings := Some [("krita", [("a", "b")])];
     global_mappings := Some [("a", "c")] |}.

(** [{"command_mappings": {"a": "cmd:xyz"}}] and
    [{"global_mappings": {"a": "cmd:xyz"}}] *)
Definition prefixed_command_config : Config :=
  {| window_command_mappings := None; command_mappings := Some [("a", "cmd:xyz")];
     window_mappings := None; global_mappings := None |}.

Definition prefixed_key_config : Config :=
  {| window_command_mappings := None; command_mappings := None;
     window_mappings := None; global_mappings := Some [("a", "cmd:xyz")] |}.

(** [{"global_mappings": {"a": "x:exclam"}}]: the target is an XKB name,
    which is neither a key name of the registry nor a decimal literal. *)
Definition xkb_target_config : Config :=
  {| window_command_mappings := None; command_mappings := None;
     window_mappings := None; global_mappings := Some [("a", "x:exclam")] |}.

(** *** Respelling a key

    [respell_table old new table] is [table] with its key [old] written
    [new] instead; [respell_config] does so in all the tables of a
    configuration. *)

Definition respell_table (old new : string) (table : dict string) : dict string :=
  map (fun '(k, v) => (if String.eqb k old then new else k, v)) table.

Definition respell_window_maps (old new : string) (maps : dict (dict string))
  : dict (dict string) :=
  map (fun '(window_key, table) => (window_key, respell_table old new table)) maps.

Definition respell_config (old new : string) (cfg : Config) : Config :=
  {| window_command_mappings :=
       option_map (respell_window_maps old new) (window_command_mappings cfg);
     command_mappings := option_map (respell_table old new) (command_mappings cfg);
     window_mappings := option_map (respell_window_maps old new) (window_mappings cfg);
     global_mappings := option_map (respell_table old new) (global_mappings cfg) |}.

(** In [table], the only key that normalizes to [key_code], if any, is its
    decimal string. *)
Definition only_decimal_spelling (key_code : Z) (table : dict string) : bool :=
  forallb (fun k => String.eqb k (Py.str key_code)
                    || negb (code_is (fst (normalize_config_key k)) key_code))
          (dict_keys table).

Definition holds_in {A : Type} (p : A -> bool) (o : option A) : bool :=
  match o with Some a => p a | None => true end.

Definition only_decimal_spelling_in (key_code : Z) (cfg : Config) : bool :=
  holds_in (forallb (fun '(_, table) => only_decimal_spelling key_code table))
           (window_command_mappings cfg)
  && holds_in (only_decimal_spelling key_code) (command_mappings cfg)
  && holds_in (forallb (fun '(_, table) => only_decimal_spelling key_code table))
              (window_mappings cfg)
  && holds_in (only_decimal_spelling key_code) (global_mappings cfg).

(** [{"global_mappings": {"1": "a"}}]: the key is the decimal string of the
    code of Escape. *)
Definition escape_by_code_config : Config :=
  {| window_command_mappings := None; command_mappings := None;
     window_mappings := None; global_mappings := Some [("1", "a")] |}.

(** [{"global_mappings": {"30": "x", "a": "y"}}]: two entries for the key
    of code 30. *)
Definition a_twice_config : Config :=
  {| window_command_mappings := None; command_mappings := None;
     window_mappings := None; global_mappings := Some [("30", "x"); ("a", "y")] |}.

(** [{"global_mappings": {"30": "b"}}] *)
Definition a_by_code_config : Config :=
  {| window_command_mappings := None; command_mappings := None;
     window_mappings := None; global_mappings := Some [("30", "b")] |}.

(** *** Characters of a string *)

(** [ch in s] for a single character. *)
Fixpoint has_char (ch : ascii) (s : string) : bool :=
  match s with
  | EmptyString => false
  | String c r => Ascii.eqb c ch || has_char ch r
  end.

(** *** Effects of a run *)

Definition is_exec (e : Effect) : bool :=
  match e with Exec _ => true | _ => false end.

(** What a transparent mapper writes to uinput for one event: the event
    itself, and a [syn()] after a key event or a synchronization event. *)
Definition forward_event (event : InputEvent) : list Effect :=
  if ev_type event =? ecodes.EV_KEY
  then [UWrite ecodes.EV_KEY (ev_code event) (ev_value event); USyn]
  else UWrite (ev_type event) (ev_code event) (ev_value event)
       :: (if ev_type event =? ecodes.EV_SYN then [USyn] else []).

(** *** Lines of the dotool transport *)

Definition keydown_line (key_name : string) : string := "keydown " +:+ key_name +:+ newline.
Definition keyup_line (key_name : string) : string := "keyup " +:+ key_name +:+ newline.

(** How often [line] was written to the dotool child. *)
Fixpoint count_lines (line : string) (out : list Effect) : nat :=
  match out with
  | [] => O
  | DotoolLine l :: rest =>
      if String.eqb l line then S (count_lines line rest) else count_lines line rest
  | _ :: rest => count_lines line rest
  end.

(** 1 when the name is in [pressed_keys], 0 otherwise. *)
Definition is_down (m : KeyMapper) (key_name : string) : nat :=
  if decide (key_name ∈ pressed_keys m) then 1%nat else 0%nat.

(** Any sequence of calls of [send_dotool_key]: each with its key name,
    its value and whether the write, if one is made, fails. *)
Fixpoint send_dotool_calls (m : KeyMapper) (calls : list (string * Z * bool))
  : KeyMapper * list Effect :=
  match calls with
  | [] => (m, [])
  | (key_name, value, broken) :: rest =>
      let '(m1, out) := send_dotool_key m broken key_name value in
      let '(m2, outs) := send_dotool_calls m1 rest in
      (m2, out ++ outs)
  end.

(** *** The cached window *)

(** The cached window name is absent, or a non-empty string without
    white space around it. *)
Definition window_clean (window : option string) : Prop :=
  match window with
  | None => True
  | Some name => name <> "" /\ Py.strip name = name
  end.

(** ** The window command and the desktop user

    The functions below talk to the file system, to the process
    environment and to the password database.  What these answer is given
    by a record of functions; the code around the calls is embedded as it
    is written. *)

(** [s.endswith(suffix)]. *)
Fixpoint endswith (s suffix : string) : bool :=
  String.eqb s suffix ||
  match s with
  | EmptyString => false
  | String _ r => endswith r suffix
  end.

(** [os.path.isabs(p)] on POSIX. *)
Definition isabs (p : string) : bool := Py.startswith p "/".

(** The text after the first occurrence of [sep], if there is one. *)
Fixpoint after_first (sep s : string) : option string :=
  if String.prefix sep s then Some (Py.drop_chars (String.length sep) s)
  else match s with
       | EmptyString => None
       | String _ r => after_first sep r
       end.

(** The text before the first occurrence of [sep], all of [s] if there is
    none: [s.split(sep)[0]]. *)
Fixpoint before_first (sep s : string) : string :=
  if String.prefix sep s then EmptyString
  else match s with
       | EmptyString => EmptyString
       | String c r => String c (before_first sep r)
       end.

(** [s.split(sep)[1]], which exists when [sep in s]. *)
Definition split_second (sep s : string) : option string :=
  option_map (before_first sep) (after_first sep s).

(** What [pathlib] and [os.path] answer:
    - [fs_config_dir p] is [str(Path(p).parent.resolve())];
    - [fs_script_dir] is [str(Path(__file__).parent.resolve())];
    - [fs_join d p] is [str(Path(d) / p)];
    - [fs_resolve p] is [str(Path(p).resolve())];
    - [fs_is_file p] is [q.exists() and (q.is_file() or q.is_symlink())]
      for [q = Path(p)];
    - [fs_exists p] is [os.path.exists(p)]. *)
Record FileSystem : Type := {
  fs_config_dir : string -> string;
  fs_script_dir : string;
  fs_join : string -> string -> string;
  fs_resolve : string -> string;
  fs_is_file : string -> bool;
  fs_exists : string -> bool
}.

(** [cmd_path.endswith('.sh') or ... '.py' ... '.pl' ... '.rb'] *)
Definition has_script_extension (cmd_path : string) : bool :=
  endswith cmd_path ".sh" || endswith cmd_path ".py" ||
  endswith cmd_path ".pl" || endswith cmd_path ".rb".

(** [resolve_window_command_path]; [config_path] is [self.config_path]. *)
Definition resolve_window_command_path (fs : FileSystem) (config_path : option string)
    (cmd_path : string) : string :=
  if isabs cmd_path then cmd_path
  else if negb (has_char "/" cmd_path) && negb (Py.startswith cmd_path "./")
          && negb (Py.startswith cmd_path "../")
          && negb (has_script_extension cmd_path)
  then cmd_path
  else
    let config_relative :=
      match config_path with
      | Some p => if Py.truthy p then Some (fs_join fs (fs_config_dir fs p) cmd_path)
                  else None
      | None => None
      end in
    match config_relative with
    | Some candidate =>
        if fs_is_file fs candidate then fs_resolve fs candidate
        else
          let script_relative := fs_join fs (fs_script_dir fs) cmd_path in
          if fs_is_file fs script_relative then fs_resolve fs script_relative
          else
            let cwd_relative := fs_resolve fs cmd_path in
            if fs_is_file fs cwd_relative then cwd_relative else cmd_path
    | None =>
        let script_relative := fs_join fs (fs_script_dir fs) cmd_path in
        if fs_is_file fs script_relative then fs_resolve fs script_relative
        else
          let cwd_relative := fs_resolve fs cmd_path in
          if fs_is_file fs cwd_relative then cwd_relative else cmd_path
    end.

(** The lines of [get_focused_window] that prepare a command given as a
    list of words (after [shlex.split], or a copy of the configured list):
    the first word is resolved when it is not absolute and looks like a
    path to a file. *)
Definition resolve_command_head (fs : FileSystem) (config_path : option string)
    (cmd : list string) : list string :=
  match cmd with
  | [] => []
  | head :: args =>
      if negb (isabs head) then
        if Py.startswith head "./" || Py.startswith head "../" || has_char "/" head
           || (endswith head ".sh" || endswith head ".py" || endswith head ".pl"
               || endswith head ".rb" || endswith head ".bash")
        then resolve_window_command_path fs config_path head :: args
        else cmd
      else cmd
  end.

(** What the process environment and the password database answer:
    [environ name] is [os.environ.get(name)], [geteuid] is [os.geteuid()],
    [passwd_name uid] is the name the database holds for the user id
    [uid], and [getpwnam name] is the pair [(pw_dir, pw_uid)] of
    [pwd.getpwnam(name)]; [None] stands for an absent entry
    ([KeyError]). *)
Record OsEnv : Type := {
  environ : string -> option string;
  geteuid : Z;
  passwd_name : Z -> option string;
  getpwnam : string -> option (string * Z)
}.

(** The user ids are the values of the C type [uid_t], 32 bits wide. *)
Definition uid_max : Z := 2 ^ 32 - 1.

(** [pwd.getpwuid(uid).pw_name].  The argument is converted to [uid_t]:
    [-1] is read as the largest value, and an integer outside the type is
    refused with the [KeyError] of an absent entry. *)
Definition getpwuid (os : OsEnv) (uid : Z) : option string :=
  if uid =? -1 then passwd_name os uid_max
  else if (0 <=? uid) && (uid <=? uid_max) then passwd_name os uid
  else None.

(** The body of the loop of [get_original_user] for one value of a
    variable: [Some] is a [return], [None] goes on with the loop. *)
Definition runtime_dir_user (os : OsEnv) (runtime_dir : string) : option string :=
  if Py.truthy runtime_dir then
    if Py.contains runtime_dir "/run/user/" then
      match split_second "/run/user/" runtime_dir with
      | Some text =>
          match Py.int (before_first "/" text) with
          | Some uid => getpwuid os uid
          | None => None
          end
      | None => None
      end
    else None
  else None.

Fixpoint runtime_dir_loop (os : OsEnv) (env_vars : list string) : option string :=
  match env_vars with
  | [] => None
  | env_var :: rest =>
      match environ os env_var with
      | Some runtime_dir =>
          match runtime_dir_user os runtime_dir with
          | Some user => Some user
          | None => runtime_dir_loop os rest
          end
      | None => runtime_dir_loop os rest
      end
  end.

(** [get_original_user]. *)
Definition get_original_user (os : OsEnv) : option string :=
  let sudo_user :=
    match environ os "SUDO_USER" with
    | Some u => if Py.truthy u then Some u else None
    | None => None
    end in
  match sudo_user with
  | Some u => Some u
  | None =>
      let pkexec_user :=
        match environ os "PKEXEC_UID" with
        | Some pkexec_uid =>
            if Py.truthy pkexec_uid then
              match Py.int pkexec_uid with
              | Some uid => getpwuid os uid
              | None => None
              end
            else None
        | None => None
        end in
      match pkexec_user with
      | Some u => Some u
      | None =>
          if geteuid os =? 0
          then runtime_dir_loop os ["XDG_RUNTIME_DIR"; "WAYLAND_DISPLAY"; "DISPLAY"]
          else None
      end
  end.

(** [env[key] = value] on a [dict]: the value of an existing key is
    replaced where it stands, a new key goes to the end. *)
Fixpoint dict_set {V : Type} (d : dict V) (key : string) (value : V) : dict V :=
  match d with
  | [] => [(key, value)]
  | (k, v) :: r =>
      if String.eqb k key then (k, value) :: r else (k, v) :: dict_set r key value
  end.

(** The loop [for var in [...]: if var in os.environ: env[var] =
    os.environ[var]]. *)
Fixpoint copy_environ (os : OsEnv) (env : dict string) (vars : list string) : dict string :=
  match vars with
  | [] => env
  | var :: rest =>
      match environ os var with
      | Some value => copy_environ os (dict_set env var value) rest
      | None => copy_environ os env rest
      end
  end.

(** [os.path.join(a, b)] for a relative [b] and a non-empty [a]. *)
Definition path_join (a b : string) : string :=
  if endswith a "/" then a +:+ b else a +:+ "/" +:+ b.

(** [get_user_environment]. *)
Definition get_user_environment (fs : FileSystem) (os : OsEnv) (username : string)
  : dict string :=
  match getpwnam os username with
  | None => []
  | Some (pw_dir, pw_uid) =>
      let env := [("HOME", pw_dir); ("USER", username); ("USERNAME", username)] in
      let xdg_runtime := "/run/user/" +:+ Py.str pw_uid in
      let env := if fs_exists fs xdg_runtime
                 then dict_set env "XDG_RUNTIME_DIR" xdg_runtime else env in
      let env := copy_environ os env
                   ["WAYLAND_DISPLAY"; "DISPLAY"; "XDG_SESSION_TYPE";
                    "XDG_CURRENT_DESKTOP"] in
      match dict_get env "XDG_RUNTIME_DIR" with
      | Some dir =>
          if fs_exists fs (path_join dir "wayland-0")
          then dict_set env "WAYLAND_DISPLAY" "wayland-0" else env
      | None => env
      end
  end.

(** A sample file system in which only [/etc/keymap/probe.sh] and
    [/etc/keymap/probe.bash] are files, and a sample root session. *)
Definition sample_fs : FileSystem :=
  {| fs_config_dir := fun _ => "/etc/keymap";
     fs_script_dir := "/opt/keymap";
     fs_join := fun d p => d +:+ "/" +:+ p;
     fs_resolve := fun p => p;
     fs_is_file := fun p => String.eqb p "/etc/keymap/probe.sh"
                            || String.eqb p "/etc/keymap/probe.bash";
     fs_exists := fun p => String.eqb p "/run/user/1000"
                           || String.eqb p "/run/user/1000/wayland-0" |}.

Definition sample_os : OsEnv :=
  {| environ := fun name =>
       if String.eqb name "XDG_RUNTIME_DIR" then Some "/run/user/1000"
       else if String.eqb name "WAYLAND_DISPLAY" then Some "wayland-1"
       else None;
     geteuid := 0;
     passwd_name := fun uid => if uid =? 1000 then Some "alice" else None;
     getpwnam := fun name => if String.eqb name "alice"
                             then Some ("/home/alice", 1000) else None |}.

(** * Properties *)

(** ** Generic facts about the containers *)

Lemma dict_get_In {V : Type} (d : dict V) (k : string) (v : V) :
  dict_get d k = Some v -> In (k, v) d.
Proof.
  induction d as [|[k' v'] d IH]; simpl; [discriminate|].
  destruct (String.eqb_spec k' k) as [->|Hne].
  - intros [= ->]. now left.
  - intros H. right. now apply IH.
Qed.

Lemma dict_get_key {V : Type} (d : dict V) (k : string) (v : V) :
  dict_get d k = Some v -> In k (dict_keys d).
Proof.
  intros H. apply dict_get_In in H. unfold dict_keys.
  apply in_map_iff. now exists (k, v).
Qed.

Lemma dict_get_of_key {V : Type} (d : dict V) (k : string) :
  In k (dict_keys d) -> exists v, dict_get d k = Some v.
Proof.
  induction d as [|[k' v'] d IH]; simpl; [tauto|].
  destruct (String.eqb_spec k' k) as [->|Hne]; [eauto|].
  intros [H|H]; [congruence | now apply IH].
Qed.

Lemma code_get_In (d : list (Z * string)) (k : Z) (v : string) :
  code_get d k = Some v -> In (k, v) d.
Proof.
  induction d as [|[k' v'] d IH]; simpl; [discriminate|].
  destruct (Z.eqb_spec k' k) as [->|Hne].
  - intros [= ->]. now left.
  - intros H. right. now apply IH.
Qed.

Lemma search_KEY_In (items : list (Z * ecodes.key_names)) (n : string) (c : Z) :
  search_KEY items n = Some c -> In (c, ecodes.Name n) items.
Proof.
  induction items as [|[c' [n'|l]] items IH]; simpl; [discriminate| |].
  - destruct (String.eqb_spec n' n) as [->|Hne].
    + intros [= ->]. now left.
    + intros H. right. now apply IH.
  - intros H. right. now apply IH.
Qed.

(** ** KeyIdentifierRegistry *)

(** The constants of [ecodes] agree with the table [ecodes.KEY]. *)
Lemma ecodes_constants_in_KEY :
  forallb (fun '(c, n) =>
             match name_to_keycode n with Some c' => Z.eqb c c' | None => false end)
          (map (fun '(n, c) => (c, n)) (char_map ++ name_map)) = true.
Proof. vm_compute. reflexivity. Qed.

Lemma normalize_unfold (key : string) :
  normalize_config_key key =
  match name_to_keycode key with
  | Some c => (Some c, Some (keycode_to_dotool_name c))
  | None =>
      match Py.int key with
      | Some c => (Some c, Some (keycode_to_dotool_name c))
      | None => (None, None)
      end
  end.
Proof. reflexivity. Qed.

Lemma normalize_of_name (key : string) (c : Z) :
  name_to_keycode key = Some c ->
  normalize_config_key key = (Some c, Some (keycode_to_dotool_name c)).
Proof. intros H. rewrite normalize_unfold, H. reflexivity. Qed.

Lemma normalize_unresolvable (key : string) :
  name_to_keycode key = None -> Py.int key = None ->
  normalize_config_key key = (None, None).
Proof. intros H1 H2. rewrite normalize_unfold, H1, H2. reflexivity. Qed.

(** A table none of whose keys can be normalized matches no key code: both
    loops of a block run to their end. *)
Lemma direct_loop_no_code {R : Type} (key_code : Z) (table : dict string)
    (on_match : string -> R) (lookup_keys : list string) :
  (forall k, In k (dict_keys table) ->
             code_is (fst (normalize_config_key k)) key_code = false) ->
  direct_loop key_code table on_match lookup_keys = None.
Proof.
  intros Hno. induction lookup_keys as [|lk rest IH]; simpl; [reflexivity|].
  destruct (dict_get table lk) as [v|] eqn:Hget; [|exact IH].
  rewrite (Hno lk (dict_get_key _ _ _ Hget)). exact IH.
Qed.

Lemma normalize_loop_no_code {R : Type} (key_code : Z) (table : dict string)
    (on_match : string -> R) (config_keys : list string) :
  (forall k, In k config_keys ->
             code_is (fst (normalize_config_key k)) key_code = false) ->
  normalize_loop key_code table on_match config_keys = None.
Proof.
  induction config_keys as [|k rest IH]; simpl; [reflexivity|].
  intros Hno. rewrite (Hno k (or_introl eq_refl)).
  apply IH. intros k' Hk'. apply Hno. now right.
Qed.

Lemma table_loops_no_code {R : Type} (key_code : Z) (table : dict string)
    (on_match : string -> R) (lookup_keys : list string) :
  (forall k, In k (dict_keys table) ->
             code_is (fst (normalize_config_key k)) key_code = false) ->
  table_loops key_code table on_match lookup_keys = None.
Proof.
  intros Hno. unfold table_loops.
  rewrite direct_loop_no_code by exact Hno.
  now apply normalize_loop_no_code.
Qed.

(** C2. Normalization resolves the identifier as a key name first and reads
    it as a decimal key code only when that fails; ["1"] is the digit key
    [KEY_1] (code 2) and not key code 1; an identifier that is neither a
    name nor a decimal literal normalizes to [(None, None)], which compares
    unequal to every key code, so that a table made of such keys matches no
    event. *)
Theorem normalize_name_first :
  (forall key c, name_to_keycode key = Some c ->
     normalize_config_key key = (Some c, Some (keycode_to_dotool_name c))) /\
  (forall key, name_to_keycode key = None ->
     normalize_config_key key =
     match Py.int key with
     | Some c => (Some c, Some (keycode_to_dotool_name c))
     | None => (None, None)
     end) /\
  (Py.int "1" = Some 1 /\
   normalize_config_key "1" = (Some ecodes.KEY_1, Some "1") /\ ecodes.KEY_1 <> 1) /\
  (forall key, name_to_keycode key = None -> Py.int key = None ->
     normalize_config_key key = (None, None) /\
     (forall key_code, code_is (fst (normalize_config_key key)) key_code = false)) /\
  (forall (table : dict string) key_code lookup_keys,
     (forall k, In k (dict_keys table) ->
                name_to_keycode k = None /\ Py.int k = None) ->
     table_loops key_code table (fun v => v) lookup_keys = None).
Proof.
  split; [exact normalize_of_name|].
  split; [intros key H; now rewrite normalize_unfold, H|].
  split; [split; [|split]; [vm_compute; reflexivity | vm_compute; reflexivity | discriminate]|].
  split.
  - intros key H1 H2. rewrite (normalize_unresolvable key H1 H2).
    split; [reflexivity | intros; reflexivity].
  - intros table key_code lookup_keys Hall.
    apply table_loops_no_code. intros k Hk.
    destruct (Hall k Hk) as [H1 H2].
    now rewrite (normalize_unresolvable k H1 H2).
Qed.

Lemma normalize_name_first_witness :
  normalize_config_key "x:exclam" = (None, None) /\
  table_loops 30 [("x:exclam", "a"); ("", "b")] (fun v => v) (lookup_keys_of 30) = None.
Proof.
  split.
  - apply (proj1 (proj2 (proj2 (proj2 normalize_name_first))) "x:exclam");
      vm_compute; reflexivity.
  - apply (proj2 (proj2 (proj2 (proj2 normalize_name_first)))).
    intros k [<-|[<-|[]]]; split; vm_compute; reflexivity.
Defined.

(** *** Round trip between names and codes *)

Lemma table_names_roundtrip :
  forallb (fun '(c, n) =>
             existsb (Z.eqb c) right_modifiers ||
             match name_to_keycode n with Some c' => Z.eqb c' c | None => false end)
          key_name_map = true.
Proof. vm_compute. reflexivity. Qed.

Lemma existsb_eqb_In (c : Z) (l : list Z) : existsb (Z.eqb c) l = true -> In c l.
Proof.
  intros H. apply existsb_exists in H as (x & Hx & Heq).
  apply Z.eqb_eq in Heq. now subst.
Qed.

(** C7 (as amended). For every supported name [N] whose code has a name of
    its own in [key_name_map] and is not a right-hand modifier,
    [name_to_keycode (keycode_to_dotool_name (name_to_keycode N))] is the
    code of [N]. *)
Theorem name_code_roundtrip (N : string) (c : Z) :
  name_to_keycode N = Some c ->
  has_dotool_name c = true ->
  ~ In c right_modifiers ->
  name_to_keycode (keycode_to_dotool_name c) = name_to_keycode N.
Proof.
  intros HN Hname Hright. rewrite HN.
  unfold has_dotool_name in Hname. unfold keycode_to_dotool_name.
  destruct (code_get key_name_map c) as [n|] eqn:Hget; [|discriminate].
  apply code_get_In in Hget.
  pose proof (proj1 (forallb_forall _ _) table_names_roundtrip _ Hget) as Hb.
  cbv beta iota in Hb. apply orb_true_iff in Hb as [Hb|Hb].
  - now apply existsb_eqb_In in Hb.
  - destruct (name_to_keycode n) as [c'|]; [|discriminate].
    apply Z.eqb_eq in Hb. now subst.
Qed.

Lemma name_code_roundtrip_witness :
  name_to_keycode (keycode_to_dotool_name 1) = name_to_keycode "KEY_ESC".
Proof.
  apply (name_code_roundtrip "KEY_ESC" 1).
  - vm_compute. reflexivity.
  - vm_compute. reflexivity.
  - vm_compute. intuition discriminate.
Defined.

(** C7 (as stated) fails: [rightshift] is code 54, whose dotool name
    [shift] is the left shift key, code 42; [minus] is code 12, whose
    synthetic name [k:12] is not accepted by [name_to_keycode]. *)
Lemma name_code_roundtrip_counterexample :
  (name_to_keycode "rightshift" = Some 54 /\
   name_to_keycode (keycode_to_dotool_name 54) = Some 42) /\
  (name_to_keycode "minus" = Some 12 /\
   name_to_keycode (keycode_to_dotool_name 12) = None) /\
  ~ (forall N c, name_to_keycode N = Some c ->
                 name_to_keycode (keycode_to_dotool_name c) = name_to_keycode N).
Proof.
  split; [split; vm_compute; reflexivity|].
  split; [split; vm_compute; reflexivity|].
  intros H. specialize (H "rightshift" 54 ltac:(vm_compute; reflexivity)).
  vm_compute in H. discriminate.
Qed.

(** Every code that [name_to_keycode] can return. *)
Lemma name_to_keycode_codes (N : string) (c : Z) :
  name_to_keycode N = Some c ->
  In c (map fst ecodes.KEY ++ map snd char_map ++ map snd name_map).
Proof.
  unfold name_to_keycode.
  set (u := if Py.startswith (Py.upper N) "KEY_" then _ else _).
  destruct (search_KEY ecodes.KEY u) as [c0|] eqn:Hs.
  - intros [= ->]. apply search_KEY_In in Hs.
    apply in_or_app. left. apply in_map_iff. now exists (c, ecodes.Name u).
  - destruct (if Nat.eqb (Py.len N) 1 then _ else _) as [c1|] eqn:Hc.
    + intros [= ->]. destruct (Nat.eqb (Py.len N) 1); [|discriminate].
      apply dict_get_In in Hc.
      apply in_or_app. right. apply in_or_app. left.
      apply in_map_iff. now exists (Py.lower N, c).
    + intros Hn. apply dict_get_In in Hn.
      apply in_or_app. right. apply in_or_app. right.
      apply in_map_iff. now exists (Py.lower N, c).
Qed.

Lemma other_codes_do_not_roundtrip :
  forallb (fun c =>
             (has_dotool_name c && negb (existsb (Z.eqb c) right_modifiers)) ||
             negb (match name_to_keycode (keycode_to_dotool_name c) with
                   | Some c' => Z.eqb c' c
                   | None => false
                   end))
          (map fst ecodes.KEY ++ map snd char_map ++ map snd name_map) = true.
Proof. vm_compute. reflexivity. Qed.

(** The two conditions are necessary: a supported name round-trips only
    when its code has a name of its own and is not a right-hand modifier. *)
Lemma name_code_roundtrip_only (N : string) (c : Z) :
  name_to_keycode N = Some c ->
  name_to_keycode (keycode_to_dotool_name c) = name_to_keycode N ->
  has_dotool_name c = true /\ ~ In c right_modifiers.
Proof.
  intros HN Hrt. rewrite HN in Hrt.
  pose proof (proj1 (forallb_forall _ _) other_codes_do_not_roundtrip _
                (name_to_keycode_codes N c HN)) as Hb.
  cbv beta iota in Hb. rewrite Hrt, Z.eqb_refl in Hb.
  rewrite orb_false_r in Hb. apply andb_true_iff in Hb as [H1 H2].
  split; [exact H1|]. intros Hin.
  apply negb_true_iff in H2.
  assert (existsb (Z.eqb c) right_modifiers = true) as Ht; [|congruence].
  apply existsb_exists. exists c. split; [exact Hin | apply Z.eqb_refl].
Qed.

(** ** Streaming transport *)

Lemma send_dotool_key_press_new (m : KeyMapper) (key_name : string) :
  dotool_process m = true -> key_name <> "" -> key_name ∉ pressed_keys m ->
  send_dotool_key m false key_name 1 =
  (set_dotool m true ({[ key_name ]} ∪ pressed_keys m),
   [DotoolLine ("keydown " +:+ key_name +:+ newline)]).
Proof.
  intros Halive Hne Hnew. unfold send_dotool_key. rewrite Halive.
  destruct key_name as [|c r]; [congruence|]. simpl.
  destruct (decide _) as [Hin|_]; [contradiction | reflexivity].
Qed.

Lemma send_dotool_key_release_down (m : KeyMapper) (key_name : string) :
  dotool_process m = true -> key_name <> "" -> key_name ∈ pressed_keys m ->
  send_dotool_key m false key_name 0 =
  (set_dotool m true (pressed_keys m ∖ {[ key_name ]}),
   [DotoolLine ("keyup " +:+ key_name +:+ newline)]).
Proof.
  intros Halive Hne Hin. unfold send_dotool_key. rewrite Halive.
  destruct key_name as [|c r]; [congruence|]. simpl.
  destruct (decide _) as [_|Hout]; [reflexivity | contradiction].
Qed.

Lemma send_dotool_key_repeat (m : KeyMapper) (broken : bool) (key_name : string) :
  send_dotool_key m broken key_name 2 = (m, []).
Proof.
  unfold send_dotool_key.
  destruct (negb (dotool_process m) || negb (Py.truthy key_name)); reflexivity.
Qed.

Lemma send_dotool_key_press_down (m : KeyMapper) (broken : bool) (key_name : string) :
  key_name ∈ pressed_keys m -> send_dotool_key m broken key_name 1 = (m, []).
Proof.
  intros Hin. unfold send_dotool_key.
  destruct (negb (dotool_process m) || negb (Py.truthy key_name)); [reflexivity|].
  simpl. destruct (decide _); [reflexivity | contradiction].
Qed.

Lemma send_dotool_key_release_up (m : KeyMapper) (broken : bool) (key_name : string) :
  key_name ∉ pressed_keys m -> send_dotool_key m broken key_name 0 = (m, []).
Proof.
  intros Hout. unfold send_dotool_key.
  destruct (negb (dotool_process m) || negb (Py.truthy key_name)); [reflexivity|].
  simpl. destruct (decide _); [contradiction | reflexivity].
Qed.

(** C4. With a live dotool child and a key name (a non-empty string, as
    [process_event] passes) that is not down, press, repeat, release
    write one [keydown <name>] line and then one [keyup <name>] line and
    nothing else; the repeat writes nothing; a
    press of a name that is in [pressed_keys] writes nothing; a release of
    a name that is not in [pressed_keys] writes nothing. *)
Theorem dotool_press_repeat_release (m : KeyMapper) (key_name : string) :
  dotool_process m = true ->
  key_name <> "" ->
  key_name ∉ pressed_keys m ->
  snd (send_dotool_values m key_name [1; 2; 0]) =
    [DotoolLine ("keydown " +:+ key_name +:+ newline);
     DotoolLine ("keyup " +:+ key_name +:+ newline)] /\
  (key_name ∉ pressed_keys (fst (send_dotool_values m key_name [1; 2; 0]))) /\
  (forall m' broken, send_dotool_key m' broken key_name 2 = (m', [])) /\
  (forall m' broken, key_name ∈ pressed_keys m' ->
     send_dotool_key m' broken key_name 1 = (m', [])) /\
  (forall m' broken, key_name ∉ pressed_keys m' ->
     send_dotool_key m' broken key_name 0 = (m', [])).
Proof.
  intros Halive Hne Hnew.
  assert (send_dotool_values m key_name [1; 2; 0] =
          (set_dotool (set_dotool m true ({[ key_name ]} ∪ pressed_keys m)) true
             (({[ key_name ]} ∪ pressed_keys m) ∖ {[ key_name ]}),
           [DotoolLine ("keydown " +:+ key_name +:+ newline);
            DotoolLine ("keyup " +:+ key_name +:+ newline)])) as ->.
  { unfold send_dotool_values.
    rewrite (send_dotool_key_press_new m key_name Halive Hne Hnew).
    rewrite send_dotool_key_repeat.
    rewrite send_dotool_key_release_down; [reflexivity | reflexivity | exact Hne |].
    simpl. set_solver. }
  split; [reflexivity|].
  split.
  { cbn [fst set_dotool pressed_keys].
    intros [_ Hn]%elem_of_difference. apply Hn. now apply elem_of_singleton. }
  split; [intros; apply send_dotool_key_repeat|].
  split; [intros; now apply send_dotool_key_press_down|].
  intros; now apply send_dotool_key_release_up.
Qed.

Lemma dotool_press_repeat_release_witness :
  snd (send_dotool_values
         {| config := {| window_command_mappings := None; command_mappings := None;
                         window_mappings := None; global_mappings := None |};
            output_method := "dotool"; uinput := false; dotool_process := true;
            pressed_keys := ∅; current_window := None; window_cache_time := 0 |}
         "a" [1; 2; 0]) =
  [DotoolLine ("keydown a" +:+ newline); DotoolLine ("keyup a" +:+ newline)].
Proof.
  refine (proj1 (dotool_press_repeat_release _ "a" _ _ _)).
  - reflexivity.
  - discriminate.
  - simpl. set_solver.
Defined.

(** ** WindowContextProvider *)

(** C5 (as amended). When the window command times out or returns a code
    other than 0, [get_focused_window] reports the window name cached by
    the last successful probe (no window only when none is cached), leaves
    the cache and its time stamp as they are, and [get_mapping] resolves
    the key in that cached window. *)
Theorem probe_failure_keeps_cached_window (m : KeyMapper) (w : World) :
  probe_failed (probe w) ->
  get_focused_window m w = (m, current_window m) /\
  (forall key_code,
     get_mapping m w key_code =
     (m, get_mapping_in (config m) (output_method m) (current_window m) key_code)).
Proof.
  intros Hfail.
  assert (get_focused_window m w = (m, current_window m)) as Hw.
  { unfold get_focused_window.
    destruct (now w - window_cache_time m <? window_cache_ttl); [reflexivity|].
    destruct (probe w) as [rc out| | |]; simpl in Hfail; try reflexivity.
    destruct (Z.eqb_spec rc 0); [contradiction | reflexivity]. }
  split; [exact Hw|].
  intros key_code. unfold get_mapping. rewrite Hw. reflexivity.
Qed.

Lemma probe_failure_keeps_cached_window_witness :
  get_focused_window (fresh_mapper krita_config "uinput") (world 1000 TimeoutExpired) =
  (fresh_mapper krita_config "uinput", None).
Proof.
  apply (probe_failure_keeps_cached_window (fresh_mapper krita_config "uinput")
           (world 1000 TimeoutExpired)).
  simpl. exact I.
Defined.

(** C5 (as stated) fails: after one successful probe that printed [krita],
    a probe that times out (or returns 1) one second later still reports
    [krita], and the key [a] is resolved by the table of that window
    ([b], code 48) and not by the global table ([c], code 46). *)
Lemma probe_failure_counterexample :
  current_window probed_krita_mapper = Some "krita" /\
  snd (get_focused_window probed_krita_mapper (world 2000 TimeoutExpired))
    = Some "krita" /\
  snd (get_focused_window probed_krita_mapper (world 2000 (Exited 1 "")))
    = Some "krita" /\
  snd (get_mapping probed_krita_mapper (world 2000 TimeoutExpired) ecodes.KEY_A)
    = Ret (RInt ecodes.KEY_B) /\
  get_mapping_in krita_config "uinput" None ecodes.KEY_A = Ret (RInt ecodes.KEY_C).
Proof. repeat split; vm_compute; reflexivity. Qed.

(** ** Events that are not key events *)

(** C9 (as amended). An event that is not of the key class is written
    unmodified to the uinput device when there is one, followed by a
    [syn()] when it is a synchronization event; without a uinput device
    nothing is emitted, whatever the state of the dotool transport.  The
    mapper is left as it is. *)
Theorem non_key_event_passthrough (m : KeyMapper) (w : World) (event : InputEvent) :
  ev_type event <> ecodes.EV_KEY ->
  (uinput m = true ->
   process_event m w event =
   Ret (m, UWrite (ev_type event) (ev_code event) (ev_value event)
           :: (if ev_type event =? ecodes.EV_SYN then [USyn] else []))) /\
  (uinput m = false -> process_event m w event = Ret (m, [])).
Proof.
  intros Hty. unfold process_event.
  destruct (Z.eqb_spec (ev_type event) ecodes.EV_KEY) as [|_]; [contradiction|].
  split; intros ->; reflexivity.
Qed.

Lemma non_key_event_passthrough_witness :
  process_event (fresh_mapper no_tables "uinput") (world 1000 TimeoutExpired)
    {| ev_type := 4; ev_code := 4; ev_value := 458756 |} =
  Ret (fresh_mapper no_tables "uinput", [UWrite 4 4 458756]).
Proof.
  apply (non_key_event_passthrough (fresh_mapper no_tables "uinput")
           (world 1000 TimeoutExpired) {| ev_type := 4; ev_code := 4; ev_value := 458756 |}).
  - discriminate.
  - reflexivity.
Defined.

(** C9 (as stated) fails for the streaming transport: with a live dotool
    child and no uinput device, a scan-code event (class [EV_MSC], 4) is
    dropped. *)
Lemma non_key_event_dotool_counterexample :
  dotool_process (fresh_mapper no_tables "dotool") = true /\
  process_event (fresh_mapper no_tables "dotool") (world 1000 TimeoutExpired)
    {| ev_type := 4; ev_code := 4; ev_value := 458756 |}
  = Ret (fresh_mapper no_tables "dotool", []).
Proof. split; reflexivity. Qed.

(** ** MappingResolver *)

(** *** The loops of a block, and what they find *)

Section LoopFacts.
Context {R : Type}.
Variable key_code : Z.
Variable table : dict string.
Variable on_match : string -> R.

Lemma direct_loop_map (lookup_keys : list string) :
  direct_loop key_code table on_match lookup_keys =
  option_map on_match (direct_loop key_code table (fun v => v) lookup_keys).
Proof.
  induction lookup_keys as [|lk rest IH]; simpl; [reflexivity|].
  destruct (dict_get table lk); [|exact IH].
  destruct (code_is _ key_code); [reflexivity | exact IH].
Qed.

Lemma normalize_loop_map (config_keys : list string) :
  normalize_loop key_code table on_match config_keys =
  option_map on_match (normalize_loop key_code table (fun v => v) config_keys).
Proof.
  induction config_keys as [|k rest IH]; simpl; [reflexivity|].
  destruct (code_is _ key_code); [|exact IH].
  destruct (dict_get table k); [reflexivity | exact IH].
Qed.

Lemma table_loops_map (lookup_keys : list string) :
  table_loops key_code table on_match lookup_keys =
  option_map on_match (table_loops key_code table (fun v => v) lookup_keys).
Proof.
  unfold table_loops. rewrite direct_loop_map, normalize_loop_map.
  destruct (direct_loop key_code table (fun v => v) lookup_keys); reflexivity.
Qed.
End LoopFacts.

Lemma window_block_map {R : Type} window maps key_code (on_match : string -> R) :
  window_block window maps key_code (lookup_keys_of key_code) on_match =
  option_map on_match (window_lookup window maps key_code).
Proof.
  unfold window_lookup, window_block.
  destruct window as [w|]; [|reflexivity].
  destruct maps as [window_maps|]; [|reflexivity].
  destruct (Py.truthy w); [|reflexivity].
  destruct (find_window_key w window_maps) as [window_key|]; [|reflexivity].
  destruct (Py.truthy window_key); [|reflexivity].
  destruct (dict_get window_maps window_key) as [table|]; [|reflexivity].
  apply table_loops_map.
Qed.

Lemma global_block_map {R : Type} maps key_code (on_match : string -> R) :
  global_block maps key_code (lookup_keys_of key_code) on_match =
  option_map on_match (global_lookup maps key_code).
Proof.
  unfold global_lookup, global_block.
  destruct maps as [table|]; [apply table_loops_map | reflexivity].
Qed.

(** A value found by the loops is stored in the table, under a key that
    normalizes to the key code of the event. *)
Lemma direct_loop_found key_code table lookup_keys mapped :
  direct_loop key_code table (fun v => v) lookup_keys = Some mapped ->
  exists k, In (k, mapped) table /\
            code_is (fst (normalize_config_key k)) key_code = true.
Proof.
  induction lookup_keys as [|lk rest IH]; simpl; [discriminate|].
  destruct (dict_get table lk) as [v|] eqn:Hget; [|exact IH].
  destruct (code_is _ key_code) eqn:Hc; [|exact IH].
  intros [= ->]. exists lk. split; [now apply dict_get_In | exact Hc].
Qed.

Lemma normalize_loop_found key_code table config_keys mapped :
  normalize_loop key_code table (fun v => v) config_keys = Some mapped ->
  exists k, In (k, mapped) table /\
            code_is (fst (normalize_config_key k)) key_code = true.
Proof.
  induction config_keys as [|k rest IH]; simpl; [discriminate|].
  destruct (code_is _ key_code) eqn:Hc; [|exact IH].
  destruct (dict_get table k) as [v|] eqn:Hget; [|exact IH].
  intros [= ->]. exists k. split; [now apply dict_get_In | exact Hc].
Qed.

Lemma table_loops_found key_code table lookup_keys mapped :
  table_loops key_code table (fun v => v) lookup_keys = Some mapped ->
  exists k, In (k, mapped) table /\
            code_is (fst (normalize_config_key k)) key_code = true.
Proof.
  unfold table_loops.
  destruct (direct_loop _ _ _ _) as [v|] eqn:Hd.
  - intros [= ->]. now apply direct_loop_found in Hd.
  - apply normalize_loop_found.
Qed.

(** A table with a key that normalizes to the key code of the event always
    yields a value. *)
Lemma normalize_loop_finds key_code table config_keys k :
  In k config_keys -> (forall k', In k' config_keys -> In k' (dict_keys table)) ->
  code_is (fst (normalize_config_key k)) key_code = true ->
  normalize_loop key_code table (fun v => v) config_keys <> None.
Proof.
  induction config_keys as [|k0 rest IH]; simpl; [tauto|].
  intros Hin Hsub Hc.
  destruct (code_is (fst (normalize_config_key k0)) key_code) eqn:Hc0.
  - destruct (dict_get_of_key table k0 (Hsub k0 (or_introl eq_refl))) as [v ->].
    discriminate.
  - destruct Hin as [->|Hin]; [congruence|].
    apply IH; auto.
Qed.

Lemma table_lookup_finds key_code table k :
  In k (dict_keys table) ->
  code_is (fst (normalize_config_key k)) key_code = true ->
  table_lookup key_code table <> None.
Proof.
  intros Hin Hc. unfold table_lookup, table_loops.
  destruct (direct_loop _ _ _ _); [discriminate|].
  now apply (normalize_loop_finds key_code table (dict_keys table) k).
Qed.

Lemma window_lookup_stored window maps key_code mapped :
  window_lookup window maps key_code = Some mapped -> stored_in_window_maps maps mapped.
Proof.
  unfold window_lookup, window_block.
  destruct window as [w|]; [|discriminate].
  destruct maps as [window_maps|]; [|discriminate].
  destruct (Py.truthy w); [|discriminate].
  destruct (find_window_key w window_maps) as [window_key|]; [|discriminate].
  destruct (Py.truthy window_key); [|discriminate].
  destruct (dict_get window_maps window_key) as [table|] eqn:Hget; [|discriminate].
  intros (k & Hin & _)%table_loops_found.
  exists window_maps, window_key, table, k.
  split; [reflexivity|]. split; [now apply dict_get_In | exact Hin].
Qed.

Lemma global_lookup_stored maps key_code mapped :
  global_lookup maps key_code = Some mapped -> stored_in_global_maps maps mapped.
Proof.
  unfold global_lookup, global_block.
  destruct maps as [table|]; [|discriminate].
  intros (k & Hin & _)%table_loops_found.
  now exists table, k.
Qed.

(** *** Order of the four tables *)

Lemma get_mapping_in_unfold cfg method window key_code :
  get_mapping_in cfg method window key_code =
  match window_lookup window (window_command_mappings cfg) key_code with
  | Some cmd => Ret (RCommand cmd)
  | None =>
  match global_lookup (command_mappings cfg) key_code with
  | Some cmd => Ret (RCommand cmd)
  | None =>
  match window_lookup window (window_mappings cfg) key_code with
  | Some mapped => key_mapping_result method mapped
  | None =>
  match global_lookup (global_mappings cfg) key_code with
  | Some mapped => key_mapping_result method mapped
  | None => Ret RNone
  end end end end.
Proof.
  unfold get_mapping_in.
  rewrite !window_block_map, !global_block_map.
  destruct (window_lookup window (window_command_mappings cfg) key_code);
    [reflexivity|].
  destruct (global_lookup (command_mappings cfg) key_code); [reflexivity|].
  destruct (window_lookup window (window_mappings cfg) key_code); [reflexivity|].
  destruct (global_lookup (global_mappings cfg) key_code); reflexivity.
Qed.

Lemma window_lookup_unknown maps key_code : window_lookup None maps key_code = None.
Proof. reflexivity. Qed.

(** C1. [get_mapping] consults the window command table (only with a known
    window), then the global command table, then the window key table,
    then the global key table; the first table that has a value for the
    key decides, and [None] (pass the key through) is returned when none
    has.  So a window command mapping beats a global command mapping, and
    a command mapping of either tier beats a key mapping of either tier. *)
Theorem get_mapping_table_order cfg method window key_code :
  (forall cmd,
     window_lookup window (window_command_mappings cfg) key_code = Some cmd ->
     get_mapping_in cfg method window key_code = Ret (RCommand cmd)) /\
  (forall cmd,
     window_lookup window (window_command_mappings cfg) key_code = None ->
     global_lookup (command_mappings cfg) key_code = Some cmd ->
     get_mapping_in cfg method window key_code = Ret (RCommand cmd)) /\
  (forall mapped,
     command_lookup cfg window key_code = None ->
     window_lookup window (window_mappings cfg) key_code = Some mapped ->
     get_mapping_in cfg method window key_code = key_mapping_result method mapped) /\
  (forall mapped,
     command_lookup cfg window key_code = None ->
     window_lookup window (window_mappings cfg) key_code = None ->
     global_lookup (global_mappings cfg) key_code = Some mapped ->
     get_mapping_in cfg method window key_code = key_mapping_result method mapped) /\
  (command_lookup cfg window key_code = None ->
   key_lookup cfg window key_code = None ->
   get_mapping_in cfg method window key_code = Ret RNone) /\
  (window = None ->
   window_lookup window (window_command_mappings cfg) key_code = None /\
   window_lookup window (window_mappings cfg) key_code = None).
Proof.
  rewrite get_mapping_in_unfold. unfold command_lookup, key_lookup.
  split; [|split; [|split; [|split; [|split]]]].
  - now intros cmd ->.
  - now intros cmd -> ->.
  - intros mapped Hc Hw.
    destruct (window_lookup window (window_command_mappings cfg) key_code);
      [discriminate|].
    now rewrite Hc, Hw.
  - intros mapped Hc Hw Hg.
    destruct (window_lookup window (window_command_mappings cfg) key_code);
      [discriminate|].
    now rewrite Hc, Hw, Hg.
  - intros Hc Hk.
    destruct (window_lookup window (window_command_mappings cfg) key_code);
      [discriminate|].
    rewrite Hc.
    destruct (window_lookup window (window_mappings cfg) key_code); [discriminate|].
    now rewrite Hk.
  - intros ->. split; reflexivity.
Qed.

Lemma get_mapping_table_order_witness :
  get_mapping_in four_tier_config "uinput" (Some "org.kde.krita") ecodes.KEY_A
    = Ret (RCommand "cmd1") /\
  get_mapping_in four_tier_config "uinput" None ecodes.KEY_A = Ret (RCommand "cmd2").
Proof.
  split.
  - apply (proj1 (get_mapping_table_order four_tier_config "uinput"
                    (Some "org.kde.krita") ecodes.KEY_A)).
    vm_compute. reflexivity.
  - apply (proj1 (proj2 (get_mapping_table_order four_tier_config "uinput"
                           None ecodes.KEY_A))); vm_compute; reflexivity.
Defined.

(** An entry of a command table for the key, whatever its spelling, makes
    the result a command, whatever the key tables hold. *)
Lemma command_entry_beats_key_entries cfg method window key_code table k :
  command_mappings cfg = Some table ->
  In k (dict_keys table) ->
  code_is (fst (normalize_config_key k)) key_code = true ->
  exists cmd, get_mapping_in cfg method window key_code = Ret (RCommand cmd).
Proof.
  intros Hcfg Hin Hc. rewrite get_mapping_in_unfold.
  destruct (window_lookup window (window_command_mappings cfg) key_code) as [cmd|];
    [now exists cmd|].
  unfold global_lookup, global_block. rewrite Hcfg.
  pose proof (table_lookup_finds key_code table k Hin Hc) as Hsome.
  unfold table_lookup in Hsome.
  destruct (table_loops key_code table _ (lookup_keys_of key_code)) as [cmd|];
    [now exists cmd | congruence].
Qed.

(** *** What [process_event] does with the result *)

Lemma get_focused_window_fields (m : KeyMapper) (w : World) :
  let m1 := fst (get_focused_window m w) in
  config m1 = config m /\ output_method m1 = output_method m /\
  uinput m1 = uinput m /\ dotool_process m1 = dotool_process m /\
  pressed_keys m1 = pressed_keys m.
Proof.
  unfold get_focused_window.
  destruct (now w - window_cache_time m <? window_cache_ttl); [now simpl|].
  destruct (probe w) as [rc out| | |]; try now simpl.
  destruct (rc =? 0); now simpl.
Qed.

Lemma get_mapping_unfold (m : KeyMapper) (w : World) (key_code : Z) :
  get_mapping m w key_code =
  (fst (get_focused_window m w),
   get_mapping_in (config m) (output_method m) (snd (get_focused_window m w)) key_code).
Proof.
  unfold get_mapping.
  pose proof (get_focused_window_fields m w) as (Hc & Hm & _).
  destruct (get_focused_window m w) as [m1 window]. simpl in *.
  now rewrite Hc, Hm.
Qed.

Lemma categorize_key (key_code value : Z) :
  categorize (key_event key_code value) =
  if in_ecodes_keys key_code then Ret tt else Raise KeyError.
Proof. reflexivity. Qed.

(** A key event whose code evdev has no name for is not processed. *)
Lemma process_event_unnamed (m : KeyMapper) (w : World) (key_code value : Z) :
  in_ecodes_keys key_code = false ->
  process_event m w (key_event key_code value) = Raise KeyError.
Proof.
  intros Hk. unfold process_event. rewrite categorize_key, Hk. reflexivity.
Qed.

(** The key branch of [process_event] once [categorize] has returned. *)
Ltac key_branch Hk :=
  unfold process_event; rewrite categorize_key, Hk; unfold key_event; simpl.

Lemma process_event_command (m : KeyMapper) (w : World) (key_code value : Z)
    (cmd : string) :
  in_ecodes_keys key_code = true ->
  get_mapping_in (config m) (output_method m) (snd (get_focused_window m w)) key_code
    = Ret (RCommand cmd) ->
  process_event m w (key_event key_code value) =
  Ret (fst (get_focused_window m w), if value =? 1 then [Exec cmd] else []).
Proof.
  intros Hk H. key_branch Hk.
  rewrite get_mapping_unfold, H. reflexivity.
Qed.

Lemma process_event_raise (m : KeyMapper) (w : World) (key_code value : Z) (e : exn) :
  in_ecodes_keys key_code = true ->
  get_mapping_in (config m) (output_method m) (snd (get_focused_window m w)) key_code
    = Raise e ->
  process_event m w (key_event key_code value) = Raise e.
Proof.
  intros Hk H. key_branch Hk.
  rewrite get_mapping_unfold, H. reflexivity.
Qed.

(** Under dotool a key name is handed to [send_dotool_key], which does
    nothing when the child is gone or the name is empty. *)
Lemma process_event_dotool_name (m : KeyMapper) (w : World) (key_code value : Z)
    (name : string) :
  in_ecodes_keys key_code = true ->
  output_method m = "dotool" ->
  get_mapping_in (config m) (output_method m) (snd (get_focused_window m w)) key_code
    = Ret (RStr name) ->
  process_event m w (key_event key_code value) =
  Ret (send_dotool_key (fst (get_focused_window m w)) (pipe_broken w) name value).
Proof.
  intros Hk Hm H. key_branch Hk.
  rewrite get_mapping_unfold, H.
  pose proof (get_focused_window_fields m w) as (_ & Hm1 & _ & Hd1 & _).
  simpl in Hm1, Hd1. rewrite Hm1, Hm. simpl.
  unfold send_dotool_key.
  destruct (dotool_process (fst (get_focused_window m w))); [|reflexivity].
  destruct name as [|c r]; reflexivity.
Qed.

Lemma get_mapping_returns (m m1 : KeyMapper) (w : World) (key_code : Z)
    (r : result Mapped) :
  get_mapping m w key_code = (m1, r) ->
  m1 = fst (get_focused_window m w) /\
  get_mapping_in (config m) (output_method m) (snd (get_focused_window m w)) key_code = r.
Proof. rewrite get_mapping_unfold. now intros [= <- <-]. Qed.

(** C10. A value found in [window_command_mappings] or in
    [command_mappings] is returned as the command as it is stored, and a
    press of the key (a key that evdev has a name for) runs exactly that
    text: no [cmd:] prefix is looked for or removed. *)
Theorem command_tables_verbatim (m : KeyMapper) (w : World) (key_code : Z)
    (mapped : string) :
  command_lookup (config m) (snd (get_focused_window m w)) key_code = Some mapped ->
  snd (get_mapping m w key_code) = Ret (RCommand mapped) /\
  (in_ecodes_keys key_code = true ->
   process_event m w (key_event key_code 1) =
     Ret (fst (get_focused_window m w), [Exec mapped])) /\
  (stored_in_window_maps (window_command_mappings (config m)) mapped \/
   stored_in_global_maps (command_mappings (config m)) mapped).
Proof.
  intros Hlook.
  assert (get_mapping_in (config m) (output_method m)
            (snd (get_focused_window m w)) key_code = Ret (RCommand mapped)) as Hres.
  { rewrite get_mapping_in_unfold. unfold command_lookup in Hlook.
    destruct (window_lookup _ (window_command_mappings (config m)) key_code);
      [now inversion Hlook|].
    now rewrite Hlook. }
  split; [now rewrite get_mapping_unfold|].
  split; [intros Hk; now rewrite (process_event_command m w key_code 1 mapped Hk Hres)|].
  unfold command_lookup in Hlook.
  destruct (window_lookup _ (window_command_mappings (config m)) key_code) eqn:Hw.
  - inversion Hlook; subst. left. eapply window_lookup_stored, Hw.
  - right. eapply global_lookup_stored, Hlook.
Qed.

Lemma command_tables_verbatim_witness :
  process_event (fresh_mapper prefixed_command_config "uinput")
    (world 1000 TimeoutExpired) (key_event ecodes.KEY_A 1) =
  Ret (fst (get_focused_window (fresh_mapper prefixed_command_config "uinput")
              (world 1000 TimeoutExpired)), [Exec "cmd:xyz"]).
Proof.
  apply (command_tables_verbatim (fresh_mapper prefixed_command_config "uinput")
           (world 1000 TimeoutExpired) ecodes.KEY_A "cmd:xyz").
  - vm_compute. reflexivity.
  - vm_compute. reflexivity.
Defined.

(** The same value in a key-substitution table loses its prefix. *)
Lemma key_tables_strip_prefix :
  get_mapping_in prefixed_key_config "uinput" None ecodes.KEY_A = Ret (RCommand "xyz").
Proof. vm_compute. reflexivity. Qed.

(** A key without a mapping is passed through: its own code goes to
    uinput, its own name goes to dotool. *)
Lemma process_event_unmapped_uinput (m : KeyMapper) (w : World) (key_code value : Z) :
  in_ecodes_keys key_code = true ->
  get_mapping_in (config m) (output_method m) (snd (get_focused_window m w)) key_code
    = Ret RNone ->
  output_method m <> "dotool" -> uinput m = true ->
  process_event m w (key_event key_code value) =
  Ret (fst (get_focused_window m w), [UWrite ecodes.EV_KEY key_code value; USyn]).
Proof.
  intros Hk H Hm Hu. key_branch Hk.
  rewrite get_mapping_unfold, H.
  pose proof (get_focused_window_fields m w) as (_ & Hm1 & Hu1 & _).
  simpl in Hm1, Hu1. rewrite Hm1, Hu1, Hu.
  apply String.eqb_neq in Hm. rewrite Hm. reflexivity.
Qed.

Lemma process_event_unmapped_dotool (m : KeyMapper) (w : World) (key_code value : Z) :
  in_ecodes_keys key_code = true ->
  get_mapping_in (config m) (output_method m) (snd (get_focused_window m w)) key_code
    = Ret RNone ->
  output_method m = "dotool" ->
  process_event m w (key_event key_code value) =
  Ret (send_dotool_key (fst (get_focused_window m w)) (pipe_broken w)
         (keycode_to_dotool_name key_code) value).
Proof.
  intros Hk H Hm. key_branch Hk.
  rewrite get_mapping_unfold, H.
  pose proof (get_focused_window_fields m w) as (_ & Hm1 & _ & Hd1 & _).
  simpl in Hm1, Hd1. rewrite Hm1, Hm. simpl.
  unfold send_dotool_key.
  destruct (dotool_process (fst (get_focused_window m w))); [|reflexivity].
  destruct (keycode_to_dotool_name key_code) as [|a r]; reflexivity.
Qed.

(** *** Commands fire on the press only *)

Lemma run_cons_ret (m m' : KeyMapper) (w : World) (event : InputEvent)
    (out : list Effect) (rest : list (World * InputEvent)) :
  process_event m w event = Ret (m', out) ->
  run m ((w, event) :: rest) = (out ++ fst (run m' rest), snd (run m' rest)).
Proof.
  intros H. simpl. rewrite H. now destruct (run m' rest).
Qed.

Lemma run_cons_raise (m : KeyMapper) (w : World) (event : InputEvent) (e : exn)
    (rest : list (World * InputEvent)) :
  process_event m w event = Raise e -> run m ((w, event) :: rest) = ([], Aborted e).
Proof. intros H. simpl. now rewrite H. Qed.

(** What [process_event] does when [get_mapping] returns a command. *)
Lemma process_event_command_returned (m m1 : KeyMapper) (w : World)
    (key_code value : Z) (cmd : string) :
  in_ecodes_keys key_code = true ->
  get_mapping m w key_code = (m1, Ret (RCommand cmd)) ->
  process_event m w (key_event key_code value) =
  Ret (m1, if value =? 1 then [Exec cmd] else []).
Proof.
  intros Hk H. destruct (get_mapping_returns _ _ _ _ _ H) as [-> Hres].
  now apply process_event_command.
Qed.

(** C3. For a key that evdev has a name for and that [get_mapping]
    resolves to a command at each of the four events press, repeat,
    repeat, release: the command found at the press is run once, at the
    press; nothing is run at the repeats and at the release, and nothing
    is written to uinput or to dotool at any of the four events. *)
Theorem command_runs_once_per_keystroke (m m1 m2 m3 m4 : KeyMapper) (key_code : Z)
    (w1 w2 w3 w4 : World) (c1 c2 c3 c4 : string) :
  in_ecodes_keys key_code = true ->
  get_mapping m w1 key_code = (m1, Ret (RCommand c1)) ->
  get_mapping m1 w2 key_code = (m2, Ret (RCommand c2)) ->
  get_mapping m2 w3 key_code = (m3, Ret (RCommand c3)) ->
  get_mapping m3 w4 key_code = (m4, Ret (RCommand c4)) ->
  process_event m w1 (key_event key_code 1) = Ret (m1, [Exec c1]) /\
  process_event m1 w2 (key_event key_code 2) = Ret (m2, []) /\
  process_event m2 w3 (key_event key_code 2) = Ret (m3, []) /\
  process_event m3 w4 (key_event key_code 0) = Ret (m4, []) /\
  run m [(w1, key_event key_code 1); (w2, key_event key_code 2);
         (w3, key_event key_code 2); (w4, key_event key_code 0)]
  = ([Exec c1], Interrupted m4).
Proof.
  intros Hk H1 H2 H3 H4.
  pose proof (process_event_command_returned m m1 w1 key_code 1 c1 Hk H1) as Hp1.
  pose proof (process_event_command_returned m1 m2 w2 key_code 2 c2 Hk H2) as Hp2.
  pose proof (process_event_command_returned m2 m3 w3 key_code 2 c3 Hk H3) as Hp3.
  pose proof (process_event_command_returned m3 m4 w4 key_code 0 c4 Hk H4) as Hp4.
  simpl in Hp1, Hp2, Hp3, Hp4.
  split; [exact Hp1|]. split; [exact Hp2|]. split; [exact Hp3|]. split; [exact Hp4|].
  rewrite (run_cons_ret _ _ _ _ _ _ Hp1), (run_cons_ret _ _ _ _ _ _ Hp2),
          (run_cons_ret _ _ _ _ _ _ Hp3), (run_cons_ret _ _ _ _ _ _ Hp4).
  reflexivity.
Qed.

Lemma command_runs_once_per_keystroke_witness :
  run (fresh_mapper window_command_config "uinput")
      [(world 1000 (Exited 0 ("krita" +:+ newline)), key_event ecodes.KEY_A 1);
       (world 1030 TimeoutExpired, key_event ecodes.KEY_A 2);
       (world 1060 TimeoutExpired, key_event ecodes.KEY_A 2);
       (world 1090 TimeoutExpired, key_event ecodes.KEY_A 0)]
  = ([Exec "xterm"], Interrupted probed_command_mapper).
Proof.
  apply (command_runs_once_per_keystroke
           (fresh_mapper window_command_config "uinput")
           probed_command_mapper probed_command_mapper probed_command_mapper
           probed_command_mapper ecodes.KEY_A
           (world 1000 (Exited 0 ("krita" +:+ newline)))
           (world 1030 TimeoutExpired) (world 1060 TimeoutExpired)
           (world 1090 TimeoutExpired) "xterm" "xterm" "xterm" "xterm");
    vm_compute; reflexivity.
Defined.

(** The command of [window_command_config] is held by the table of one
    window only: without a window, or in another one, the key is not a
    command. *)
Lemma window_command_only_in_its_window :
  get_mapping_in window_command_config "uinput" (Some "krita") ecodes.KEY_A
    = Ret (RCommand "xterm") /\
  get_mapping_in window_command_config "uinput" None ecodes.KEY_A = Ret RNone /\
  get_mapping_in window_command_config "uinput" (Some "gimp") ecodes.KEY_A = Ret RNone.
Proof. repeat split; vm_compute; reflexivity. Qed.

(** *** Remap targets that cannot be normalized *)

Lemma get_mapping_in_key cfg method window key_code mapped :
  command_lookup cfg window key_code = None ->
  key_lookup cfg window key_code = Some mapped ->
  get_mapping_in cfg method window key_code = key_mapping_result method mapped.
Proof.
  intros Hc Hk. rewrite get_mapping_in_unfold.
  unfold command_lookup in Hc. unfold key_lookup in Hk.
  destruct (window_lookup window (window_command_mappings cfg) key_code);
    [discriminate|].
  rewrite Hc.
  destruct (window_lookup window (window_mappings cfg) key_code);
    [now inversion Hk|].
  now rewrite Hk.
Qed.




(** ** Decimal strings

    [str] and [int] on the decimal strings of key codes. *)

Lemma int_digits_uint (d : Decimal.uint) :
  forall acc, Py.int_digits acc true (NilEmpty.string_of_uint d) = Some (uint_value acc d).
Proof.
  induction d; intros acc; simpl NilEmpty.string_of_uint; simpl uint_value;
    try rewrite <- IHd; reflexivity.
Qed.

Lemma int_digits_uint_start (d : Decimal.uint) (acc : Z) :
  d <> Decimal.Nil ->
  Py.int_digits acc false (NilEmpty.string_of_uint d) = Some (uint_value acc d).
Proof.
  destruct d; intros Hd; [congruence|..];
    simpl NilEmpty.string_of_uint; simpl uint_value;
    rewrite <- int_digits_uint; reflexivity.
Qed.

Lemma uint_value_of_lu (d : Decimal.uint) :
  forall a, uint_value (Z.of_N (Unsigned.of_lu a)) d
            = Z.of_N (Unsigned.of_lu (Decimal.revapp d a)).
Proof.
  induction d; intros a; simpl uint_value; simpl Decimal.revapp;
    [reflexivity|..]; rewrite <- IHd; f_equal; simpl Unsigned.of_lu; lia.
Qed.

Lemma uint_value_of_uint (d : Decimal.uint) : uint_value 0 d = Z.of_uint d.
Proof.
  unfold Z.of_uint. rewrite Unsigned.of_uint_alt. unfold Decimal.rev.
  rewrite <- uint_value_of_lu. reflexivity.
Qed.

Lemma all_digits_uint (d : Decimal.uint) :
  all_digits (NilEmpty.string_of_uint d) = true.
Proof. induction d; simpl; [reflexivity|..]; exact IHd. Qed.

Lemma digit_not_space (c : ascii) : Py.is_digit c = true -> Py.is_space c = false.
Proof.
  unfold Py.is_digit, Py.is_space. intros [H1 H2]%andb_true_iff.
  apply Nat.leb_le in H1.
  destruct (Nat.leb_spec 9 (nat_of_ascii c)), (Nat.leb_spec (nat_of_ascii c) 13),
    (Nat.leb_spec 28 (nat_of_ascii c)), (Nat.leb_spec (nat_of_ascii c) 32);
    simpl; try reflexivity; lia.
Qed.

Lemma digit_case (c : ascii) :
  Py.is_digit c = true -> Py.upper_char c = c /\ Py.lower_char c = c.
Proof.
  unfold Py.is_digit, Py.upper_char, Py.lower_char. intros [H1 H2]%andb_true_iff.
  apply Nat.leb_le in H2.
  destruct (Nat.leb_spec 97 (nat_of_ascii c)), (Nat.leb_spec 65 (nat_of_ascii c));
    simpl; split; try reflexivity; lia.
Qed.

Lemma lstrip_digits (s : string) : all_digits s = true -> Py.lstrip s = s.
Proof.
  destruct s as [|c r]; [reflexivity|]. simpl.
  intros [Hc _]%andb_true_iff. now rewrite (digit_not_space c Hc).
Qed.

Lemma rstrip_digits (s : string) : all_digits s = true -> Py.rstrip s = s.
Proof.
  induction s as [|c r IH]; [reflexivity|]. simpl.
  intros [Hc Hr]%andb_true_iff. rewrite (IH Hr).
  destruct r; [now rewrite (digit_not_space c Hc) | reflexivity].
Qed.

Lemma strip_digits (s : string) : all_digits s = true -> Py.strip s = s.
Proof.
  intros H. unfold Py.strip. rewrite (lstrip_digits s H). now apply rstrip_digits.
Qed.

Lemma upper_digits (s : string) : all_digits s = true -> Py.upper s = s.
Proof.
  induction s as [|c r IH]; [reflexivity|]. simpl.
  intros [Hc Hr]%andb_true_iff. unfold Py.upper in *. simpl.
  now rewrite (proj1 (digit_case c Hc)), (IH Hr).
Qed.

Lemma lower_digits (s : string) : all_digits s = true -> Py.lower s = s.
Proof.
  induction s as [|c r IH]; [reflexivity|]. simpl.
  intros [Hc Hr]%andb_true_iff. unfold Py.lower in *. simpl.
  now rewrite (proj2 (digit_case c Hc)), (IH Hr).
Qed.

Lemma digit_not_int_space (c : ascii) : Py.is_digit c = true -> Py.is_int_space c = false.
Proof.
  unfold Py.is_digit, Py.is_int_space. intros [H1 H2]%andb_true_iff.
  apply Nat.leb_le in H1.
  destruct (Nat.leb_spec 9 (nat_of_ascii c)), (Nat.leb_spec (nat_of_ascii c) 13),
    (Nat.eqb_spec (nat_of_ascii c) 32); simpl; try reflexivity; lia.
Qed.

Lemma int_lstrip_digits (s : string) : all_digits s = true -> Py.int_lstrip s = s.
Proof.
  destruct s as [|c r]; [reflexivity|]. simpl.
  intros [Hc _]%andb_true_iff. now rewrite (digit_not_int_space c Hc).
Qed.

Lemma int_rstrip_digits (s : string) : all_digits s = true -> Py.int_rstrip s = s.
Proof.
  induction s as [|c r IH]; [reflexivity|]. simpl.
  intros [Hc Hr]%andb_true_iff. rewrite (IH Hr).
  destruct r; [now rewrite (digit_not_int_space c Hc) | reflexivity].
Qed.

Lemma int_of_digits (s : string) :
  all_digits s = true -> Py.int s = Py.int_literal s.
Proof.
  intros H. unfold Py.int. rewrite (int_lstrip_digits s H), (int_rstrip_digits s H).
  destruct s as [|c r]; [reflexivity|].
  simpl in H. apply andb_true_iff in H as [Hc _].
  destruct c as [[|] [|] [|] [|] [|] [|] [|] [|]]; try reflexivity; discriminate.
Qed.

Lemma str_digits (c : Z) :
  0 <= c ->
  exists d, d <> Decimal.Nil /\ Py.str c = NilEmpty.string_of_uint d /\ Z.of_uint d = c.
Proof.
  intros Hc. destruct c as [|p|p]; [| |lia].
  - exists (Decimal.D0 Decimal.Nil). repeat split. discriminate.
  - exists (Pos.to_uint p).
    pose proof (Unsigned.to_uint_nonnil p) as Hnn.
    split; [exact Hnn|]. split.
    + unfold Py.str. simpl. unfold NilZero.string_of_uint.
      destruct (Pos.to_uint p); [congruence | reflexivity ..].
    + unfold Z.of_uint. now rewrite Unsigned.of_to.
Qed.

Lemma str_all_digits (c : Z) : 0 <= c -> all_digits (Py.str c) = true.
Proof.
  intros (d & _ & -> & _)%str_digits. apply all_digits_uint.
Qed.

(** *** The number of digits of a decimal string *)

Lemma count_digits_nonneg (s : string) : 0 <= Py.count_digits s.
Proof.
  induction s as [|c r IH]; simpl; [lia|]. destruct (Py.is_digit c); lia.
Qed.

Lemma count_digits_cons (c : ascii) (r : string) :
  Py.is_digit c = true -> Py.count_digits (String c r) = Z.succ (Py.count_digits r).
Proof. intros H. simpl. rewrite H. lia. Qed.

(** Read from the left with [acc] in front, a digit sequence is at least
    [acc] followed by as many zeros. *)
Lemma uint_value_ge (d : Decimal.uint) :
  forall acc, 0 <= acc ->
    acc * 10 ^ Py.count_digits (NilEmpty.string_of_uint d) <= uint_value acc d.
Proof.
  induction d; intros acc Hacc;
    [simpl; lia|..];
    simpl NilEmpty.string_of_uint; rewrite count_digits_cons by reflexivity;
    rewrite Z.pow_succ_r by apply count_digits_nonneg;
    simpl uint_value;
    (etransitivity; [|apply IHd; lia]);
    pose proof (Z.pow_pos_nonneg 10 (Py.count_digits (NilEmpty.string_of_uint d))
                  ltac:(lia) (count_digits_nonneg _));
    nia.
Qed.

(** The decimal representation of a positive number is in normal form: it
    has no zero in front. *)
Lemma to_uint_normal (p : positive) : Decimal.unorm (Pos.to_uint p) = Pos.to_uint p.
Proof.
  rewrite <- (DecimalPos.Unsigned.to_of (Pos.to_uint p)).
  now rewrite DecimalPos.Unsigned.of_to.
Qed.

Lemma to_uint_head (p : positive) (d : Decimal.uint) : Pos.to_uint p <> Decimal.D0 d.
Proof.
  intros H. pose proof (to_uint_normal p) as Hn. rewrite H in Hn.
  rewrite DecimalFacts.unorm_D0 in Hn. unfold Decimal.unorm in Hn.
  destruct (Decimal.nzhead d) eqn:Hd;
    try (now apply (DecimalFacts.nzhead_nonzero d d); rewrite Hd).
  injection Hn as <-.
  pose proof (DecimalPos.Unsigned.of_to p) as Hp. rewrite H in Hp. discriminate.
Qed.

(** A number below [10 ^ k] has at most [k] digits. *)
Lemma str_count_digits (c k : Z) :
  0 <= c -> 1 <= k -> c < 10 ^ k -> Py.count_digits (Py.str c) <= k.
Proof.
  intros Hc Hk Hlt. destruct c as [|p|p]; [simpl; lia| |lia].
  assert (Py.str (Z.pos p) = NilEmpty.string_of_uint (Pos.to_uint p)) as ->.
  { unfold Py.str. simpl. unfold NilZero.string_of_uint.
    pose proof (Unsigned.to_uint_nonnil p).
    destruct (Pos.to_uint p); [congruence | reflexivity ..]. }
  assert (uint_value 0 (Pos.to_uint p) = Z.pos p) as Hv.
  { rewrite uint_value_of_uint. unfold Z.of_uint. now rewrite Unsigned.of_to. }
  pose proof (Unsigned.to_uint_nonnil p) as Hnn.
  pose proof (to_uint_head p) as Hhead.
  assert (forall d a, 1 <= a -> uint_value a d = Z.pos p ->
                      Z.succ (Py.count_digits (NilEmpty.string_of_uint d)) <= k) as Hlen.
  { intros d a Ha Hd.
    pose proof (uint_value_ge d a ltac:(lia)) as Hge. rewrite Hd in Hge.
    pose proof (count_digits_nonneg (NilEmpty.string_of_uint d)) as Hnn'.
    destruct (Z.le_gt_cases k (Py.count_digits (NilEmpty.string_of_uint d)))
      as [Hle|]; [|lia].
    pose proof (Z.pow_le_mono_r 10 _ _ ltac:(lia) Hle) as Hpow.
    pose proof (Z.pow_pos_nonneg 10 k ltac:(lia) ltac:(lia)). nia. }
  destruct (Pos.to_uint p) as [|d|d|d|d|d|d|d|d|d|d];
    [congruence | now destruct (Hhead d) |..];
    simpl NilEmpty.string_of_uint; rewrite count_digits_cons by reflexivity;
    simpl uint_value in Hv; (eapply Hlen; [|exact Hv]; lia).
Qed.

Lemma int_literal_str (c : Z) :
  0 <= c -> Py.int (Py.str c) = Some c \/ Py.int (Py.str c) = None.
Proof.
  intros Hc. rewrite (int_of_digits _ (str_all_digits c Hc)). unfold Py.int_literal.
  destruct (Py.int_max_str_digits <? Py.count_digits (Py.str c)); [now right|left].
  destruct (str_digits c Hc) as (d & Hd & -> & <-).
  rewrite (int_digits_uint_start d 0 Hd). f_equal. apply uint_value_of_uint.
Qed.

Lemma int_str (c : Z) : 0 <= c -> c < int_str_bound -> Py.int (Py.str c) = Some c.
Proof.
  intros Hc Hlt. rewrite (int_of_digits _ (str_all_digits c Hc)). unfold Py.int_literal.
  pose proof (str_count_digits c Py.int_max_str_digits Hc ltac:(unfold Py.int_max_str_digits; lia) Hlt)
    as Hn.
  apply Z.ltb_ge in Hn. rewrite Hn.
  destruct (str_digits c Hc) as (d & Hd & -> & <-).
  rewrite (int_digits_uint_start d 0 Hd). f_equal. apply uint_value_of_uint.
Qed.

(** The codes of the evdev table and the user ids are far below the
    bound. *)
Lemma uid_below_int_str_bound : 2 ^ 32 <= int_str_bound.
Proof. apply Z.leb_le. vm_compute. reflexivity. Qed.

Lemma str_two_chars (c : Z) :
  10 <= c -> exists a b r, Py.str c = String a (String b r).
Proof.
  intros Hc. destruct (str_digits c ltac:(lia)) as (d & Hd & -> & Hv).
  destruct d as [|d|d|d|d|d|d|d|d|d|d]; [congruence|..];
    (destruct d; [vm_compute in Hv; lia | simpl; eauto ..]).
Qed.

Lemma KEY_digit_names_short :
  forallb (fun '(_, names) =>
             match names with
             | ecodes.Name n =>
                 negb (Py.startswith n "KEY_" && all_digits (Py.drop_chars 4 n)
                       && (2 <=? Py.len (Py.drop_chars 4 n))%nat)
             | ecodes.Names _ => true
             end) ecodes.KEY = true.
Proof. vm_compute. reflexivity. Qed.

Lemma name_map_keys_not_digits :
  forallb (fun k => negb (all_digits k)) (dict_keys name_map) = true.
Proof. vm_compute. reflexivity. Qed.

Lemma digits_not_KEY_prefixed (a : ascii) (r : string) :
  Py.is_digit a = true -> Py.startswith (String a r) "KEY_" = false.
Proof.
  intros Ha. unfold Py.startswith.
  change (String.prefix "KEY_" (String a r))
    with (if ascii_dec "K" a then String.prefix "EY_" r else false).
  destruct (ascii_dec "K" a) as [<-|]; [discriminate | reflexivity].
Qed.

Lemma name_to_keycode_digits (s : string) :
  all_digits s = true -> (2 <= Py.len s)%nat -> name_to_keycode s = None.
Proof.
  intros Hd Hlen. unfold name_to_keycode.
  rewrite (upper_digits s Hd), (lower_digits s Hd).
  destruct s as [|a r]; [simpl in Hlen; lia|].
  rewrite digits_not_KEY_prefixed by (simpl in Hd; now apply andb_true_iff in Hd).
  destruct (search_KEY ecodes.KEY _) as [code|] eqn:Hs.
  { apply search_KEY_In in Hs.
    pose proof (proj1 (forallb_forall _ _) KEY_digit_names_short _ Hs) as Hb.
    cbv beta iota in Hb. apply negb_true_iff in Hb.
    change (Py.drop_chars 4 ("KEY_" +:+ String a r)) with (String a r) in Hb.
    change (Py.startswith ("KEY_" +:+ String a r) "KEY_") with true in Hb.
    rewrite Hd in Hb. apply Nat.leb_le in Hlen. rewrite Hlen in Hb. discriminate. }
  assert (Nat.eqb (Py.len (String a r)) 1 = false) as ->.
  { apply Nat.eqb_neq. lia. }
  destruct (dict_get name_map (String a r)) as [code|] eqn:Hn; [|reflexivity].
  apply dict_get_key in Hn.
  pose proof (proj1 (forallb_forall _ _) name_map_keys_not_digits _ Hn) as Hb.
  cbv beta in Hb. rewrite Hd in Hb. discriminate.
Qed.

Lemma normalize_str (c : Z) :
  10 <= c -> c < int_str_bound -> fst (normalize_config_key (Py.str c)) = Some c.
Proof.
  intros Hc Hlt. rewrite normalize_unfold.
  rewrite name_to_keycode_digits.
  - rewrite int_str by (assumption || lia). reflexivity.
  - apply str_all_digits. lia.
  - destruct (str_two_chars c Hc) as (a & b & r & ->). simpl. lia.
Qed.

Lemma supported_codes_in_KEY :
  forallb (fun c => existsb (Z.eqb c) (map fst ecodes.KEY) && (0 <=? c) && (c <=? 768))
          (map fst ecodes.KEY ++ map snd char_map ++ map snd name_map) = true.
Proof. vm_compute. reflexivity. Qed.

Lemma name_to_keycode_small (key_name : string) (c : Z) :
  name_to_keycode key_name = Some c -> 0 <= c < int_str_bound.
Proof.
  intros H. apply name_to_keycode_codes in H.
  pose proof (proj1 (forallb_forall _ _) supported_codes_in_KEY _ H) as Hb.
  cbv beta in Hb.
  apply andb_true_iff in Hb as [Hb Hhi]. apply andb_true_iff in Hb as [_ Hlo].
  pose proof uid_below_int_str_bound. lia.
Qed.

(** ** Representation independence *)

Lemma respell_get_other (old new : string) (table : dict string) (k : string) :
  k <> old -> k <> new ->
  dict_get (respell_table old new table) k = dict_get table k.
Proof.
  intros Ho Hn. induction table as [|[k' v] table IH]; simpl; [reflexivity|].
  destruct (String.eqb_spec k' old) as [->|Hk'].
  - destruct (String.eqb_spec new k); [congruence|].
    destruct (String.eqb_spec old k); [congruence | exact IH].
  - destruct (String.eqb_spec k' k); [reflexivity | exact IH].
Qed.

Lemma respell_keys (old new : string) (table : dict string) :
  dict_keys (respell_table old new table) =
  map (fun k => if String.eqb k old then new else k) (dict_keys table).
Proof.
  unfold dict_keys, respell_table. rewrite !map_map.
  apply map_ext. now intros [k v].
Qed.

Lemma respell_absent (old new : string) (table : dict string) :
  dict_get table old = None -> respell_table old new table = table.
Proof.
  induction table as [|[k' v] table IH]; simpl; [reflexivity|].
  destruct (String.eqb_spec k' old); [discriminate|].
  intros H. now rewrite (IH H).
Qed.

Lemma respell_get_new (old new : string) (table : dict string) :
  (In new (dict_keys table) -> new = old) ->
  dict_get (respell_table old new table) new = dict_get table old.
Proof.
  induction table as [|[k' v] table IH]; simpl; [reflexivity|].
  intros Hnew.
  destruct (String.eqb_spec k' old) as [->|Hk'].
  - now rewrite String.eqb_refl.
  - destruct (String.eqb_spec k' new) as [->|Hne].
    + exfalso. apply Hk'. apply Hnew. now left.
    + apply IH. intros Hin. apply Hnew. now right.
Qed.

Lemma only_decimal_spelling_keys (old : string) (c : Z) (table : dict string) :
  old = Py.str c -> only_decimal_spelling c table = true ->
  forall k, In k (dict_keys table) ->
            code_is (fst (normalize_config_key k)) c = true -> k = old.
Proof.
  intros -> Hall k Hin Hk. unfold only_decimal_spelling in Hall.
  pose proof (proj1 (forallb_forall _ _) Hall k Hin) as Hb. cbv beta in Hb.
  rewrite Hk in Hb. simpl in Hb. rewrite orb_false_r in Hb.
  now apply String.eqb_eq.
Qed.

(** A table in which one key [k0] spells the key code yields the value
    stored under [k0], whichever loop finds it. *)
Lemma table_loops_single_spelling {R : Type} (key_code : Z) (table : dict string)
    (on_match : string -> R) (lookup_keys : list string) (k0 mapped : string) :
  (forall k, In k (dict_keys table) ->
             code_is (fst (normalize_config_key k)) key_code = true -> k = k0) ->
  code_is (fst (normalize_config_key k0)) key_code = true ->
  dict_get table k0 = Some mapped ->
  table_loops key_code table on_match lookup_keys = Some (on_match mapped).
Proof.
  intros Huniq Hk0 Hget. unfold table_loops.
  assert (direct_loop key_code table on_match lookup_keys = None \/
          direct_loop key_code table on_match lookup_keys = Some (on_match mapped))
    as [-> | ->]; [|..|reflexivity].
  { induction lookup_keys as [|lk rest IH]; simpl; [now left|].
    destruct (dict_get table lk) as [v|] eqn:Hlk; [|exact IH].
    destruct (code_is (fst (normalize_config_key lk)) key_code) eqn:Hc; [|exact IH].
    right. rewrite (Huniq lk (dict_get_key _ _ _ Hlk) Hc) in Hlk. congruence. }
  assert (forall keys, (forall k, In k keys -> In k (dict_keys table)) ->
            In k0 keys ->
            normalize_loop key_code table on_match keys = Some (on_match mapped)) as Hn.
  { induction keys as [|k rest IH]; simpl; [tauto|].
    intros Hsub Hin.
    destruct (code_is (fst (normalize_config_key k)) key_code) eqn:Hc.
    - rewrite (Huniq k (Hsub k (or_introl eq_refl)) Hc), Hget. reflexivity.
    - destruct Hin as [->|Hin]; [congruence|]. apply IH; auto. }
  apply Hn; [auto | exact (dict_get_key _ _ _ Hget)].
Qed.

Lemma code_is_other (k : string) (c key_code : Z) :
  fst (normalize_config_key k) = Some c -> key_code <> c ->
  code_is (fst (normalize_config_key k)) key_code = false.
Proof.
  intros -> Hne. simpl. apply Z.eqb_neq. congruence.
Qed.

Lemma code_is_same (k : string) (c : Z) :
  fst (normalize_config_key k) = Some c ->
  code_is (fst (normalize_config_key k)) c = true.
Proof. intros ->. simpl. apply Z.eqb_refl. Qed.

(** Respelling the decimal key of a table as another spelling of the same
    key code does not change what the two loops return, for any event. *)
Lemma table_loops_respell {R : Type} (c : Z) (new : string) (table : dict string)
    (key_code : Z) (on_match : string -> R) (lookup_keys : list string) :
  fst (normalize_config_key (Py.str c)) = Some c ->
  fst (normalize_config_key new) = Some c ->
  only_decimal_spelling c table = true ->
  table_loops key_code (respell_table (Py.str c) new table) on_match lookup_keys =
  table_loops key_code table on_match lookup_keys.
Proof.
  intros Hold Hnew Honly. set (old := Py.str c) in *.
  pose proof (only_decimal_spelling_keys old c table eq_refl Honly) as Huniq.
  destruct (Z.eq_dec key_code c) as [->|Hne].
  - destruct (dict_get table old) as [v0|] eqn:Hget;
      [|now rewrite (respell_absent old new table Hget)].
    rewrite (table_loops_single_spelling c table on_match lookup_keys old v0
               Huniq (code_is_same old c Hold) Hget).
    apply table_loops_single_spelling with (k0 := new).
    + intros k Hin Hk. rewrite respell_keys in Hin.
      apply in_map_iff in Hin as (k1 & <- & Hin1).
      destruct (String.eqb_spec k1 old) as [->|Hk1]; [reflexivity|].
      now apply Huniq in Hk.
    + now apply code_is_same.
    + rewrite respell_get_new; [exact Hget|].
      intros Hin. apply Huniq; [exact Hin | now apply code_is_same].
  - unfold table_loops.
    assert (direct_loop key_code (respell_table old new table) on_match lookup_keys =
            direct_loop key_code table on_match lookup_keys) as ->.
    { induction lookup_keys as [|lk rest IH]; simpl; [reflexivity|].
      destruct (code_is (fst (normalize_config_key lk)) key_code) eqn:Hc.
      - rewrite respell_get_other.
        + destruct (dict_get table lk); [reflexivity | exact IH].
        + intros ->. rewrite (code_is_other old c key_code Hold Hne) in Hc. discriminate.
        + intros ->. rewrite (code_is_other new c key_code Hnew Hne) in Hc. discriminate.
      - destruct (dict_get (respell_table old new table) lk), (dict_get table lk);
          exact IH. }
    destruct (direct_loop key_code table on_match lookup_keys); [reflexivity|].
    rewrite respell_keys. clear Huniq.
    induction (dict_keys table) as [|k rest IH]; simpl; [reflexivity|].
    destruct (String.eqb_spec k old) as [->|Hk].
    + rewrite (code_is_other new c key_code Hnew Hne),
              (code_is_other old c key_code Hold Hne). exact IH.
    + destruct (code_is (fst (normalize_config_key k)) key_code) eqn:Hc; [|exact IH].
      rewrite respell_get_other.
      * destruct (dict_get table k); [reflexivity | exact IH].
      * exact Hk.
      * intros ->. rewrite (code_is_other new c key_code Hnew Hne) in Hc. discriminate.
Qed.

Lemma respell_window_maps_keys (old new : string) (maps : dict (dict string)) :
  dict_keys (respell_window_maps old new maps) = dict_keys maps.
Proof.
  unfold dict_keys, respell_window_maps. rewrite map_map.
  apply map_ext. now intros [k t].
Qed.

Lemma respell_window_maps_get (old new : string) (maps : dict (dict string))
    (window_key : string) :
  dict_get (respell_window_maps old new maps) window_key =
  option_map (respell_table old new) (dict_get maps window_key).
Proof.
  induction maps as [|[k t] maps IH]; simpl; [reflexivity|].
  destruct (String.eqb k window_key); [reflexivity | exact IH].
Qed.

Lemma find_window_key_respell (old new window : string) (maps : dict (dict string)) :
  find_window_key window (respell_window_maps old new maps) = find_window_key window maps.
Proof.
  unfold find_window_key, dict_mem.
  rewrite respell_window_maps_keys, respell_window_maps_get.
  now destruct (dict_get maps window).
Qed.

Lemma global_block_respell {R : Type} (c : Z) (new : string) (maps : option (dict string))
    (key_code : Z) (on_match : string -> R) (lookup_keys : list string) :
  fst (normalize_config_key (Py.str c)) = Some c ->
  fst (normalize_config_key new) = Some c ->
  holds_in (only_decimal_spelling c) maps = true ->
  global_block (option_map (respell_table (Py.str c) new) maps) key_code lookup_keys
    on_match =
  global_block maps key_code lookup_keys on_match.
Proof.
  intros Hold Hnew Honly. destruct maps as [table|]; simpl; [|reflexivity].
  now apply table_loops_respell.
Qed.

Lemma window_block_respell {R : Type} (c : Z) (new : string) (window : option string)
    (maps : option (dict (dict string))) (key_code : Z) (on_match : string -> R)
    (lookup_keys : list string) :
  fst (normalize_config_key (Py.str c)) = Some c ->
  fst (normalize_config_key new) = Some c ->
  holds_in (forallb (fun '(_, table) => only_decimal_spelling c table)) maps = true ->
  window_block window (option_map (respell_window_maps (Py.str c) new) maps) key_code
    lookup_keys on_match =
  window_block window maps key_code lookup_keys on_match.
Proof.
  intros Hold Hnew Honly. unfold window_block.
  destruct window as [w|]; [|reflexivity].
  destruct maps as [window_maps|]; simpl; [|reflexivity].
  destruct (Py.truthy w); [|reflexivity].
  rewrite find_window_key_respell.
  destruct (find_window_key w window_maps) as [window_key|]; [|reflexivity].
  destruct (Py.truthy window_key); [|reflexivity].
  rewrite respell_window_maps_get.
  destruct (dict_get window_maps window_key) as [table|] eqn:Hget; simpl; [|reflexivity].
  apply table_loops_respell; try assumption.
  apply dict_get_In in Hget.
  exact (proj1 (forallb_forall _ _) Honly _ Hget).
Qed.

(** C8 (as amended). For a key code of 10 or more, in a configuration
    whose tables spell that key by its decimal code only, writing the key
    under any symbolic name of the same key instead gives the same result
    of [get_mapping] for every event, window and output method. *)
Theorem key_spelling_independence (c : Z) (N : string) (cfg : Config)
    (method : string) (window : option string) (key_code : Z) :
  10 <= c ->
  name_to_keycode N = Some c ->
  only_decimal_spelling_in c cfg = true ->
  get_mapping_in (respell_config (Py.str c) N cfg) method window key_code =
  get_mapping_in cfg method window key_code.
Proof.
  intros Hc HN Honly.
  pose proof (normalize_str c Hc (proj2 (name_to_keycode_small N c HN))) as Hold.
  assert (fst (normalize_config_key N) = Some c) as Hnew
    by now rewrite (normalize_of_name N c HN).
  unfold only_decimal_spelling_in in Honly.
  apply andb_true_iff in Honly as [Honly Hg].
  apply andb_true_iff in Honly as [Honly Hw].
  apply andb_true_iff in Honly as [Hwc Hcm].
  unfold get_mapping_in, respell_config. cbn [window_command_mappings command_mappings
    window_mappings global_mappings].
  rewrite !(window_block_respell c N) by assumption.
  rewrite !(global_block_respell c N) by assumption.
  reflexivity.
Qed.

Lemma key_spelling_independence_witness :
  get_mapping_in (respell_config (Py.str 30) "a" a_by_code_config) "uinput" None 30 =
  get_mapping_in a_by_code_config "uinput" None 30.
Proof.
  apply (key_spelling_independence 30 "a" a_by_code_config "uinput" None 30).
  - lia.
  - vm_compute. reflexivity.
  - vm_compute. reflexivity.
Defined.

(** C8 (as stated) fails for the key codes 0 to 9, whose decimal string is
    the name of a digit key.  Escape has code 1: the entry ["1": "a"]
    configures the digit key [KEY_1] and leaves Escape unmapped, the entry
    ["escape": "a"] maps Escape to [a] (code 30). *)
Lemma key_spelling_counterexample :
  Py.str ecodes.KEY_ESC = "1" /\
  name_to_keycode "escape" = Some ecodes.KEY_ESC /\
  respell_config "1" "escape" escape_by_code_config =
    {| window_command_mappings := None; command_mappings := None;
       window_mappings := None; global_mappings := Some [("escape", "a")] |} /\
  get_mapping_in escape_by_code_config "uinput" None ecodes.KEY_ESC = Ret RNone /\
  get_mapping_in (respell_config "1" "escape" escape_by_code_config) "uinput" None
    ecodes.KEY_ESC = Ret (RInt ecodes.KEY_A).
Proof. repeat split; vm_compute; reflexivity. Qed.

(** The condition on the spelling is needed: when a table holds two entries
    for one key, the direct lookup prefers the decimal string, then the
    dotool name, so that respelling ["30"] as ["KEY_A"] hands the key to
    the other entry. *)
Lemma key_spelling_two_entries :
  only_decimal_spelling_in 30 a_twice_config = false /\
  get_mapping_in a_twice_config "uinput" None 30 = Ret (RInt ecodes.KEY_X) /\
  get_mapping_in (respell_config "30" "KEY_A" a_twice_config) "uinput" None 30
    = Ret (RInt ecodes.KEY_Y).
Proof. repeat split; vm_compute; reflexivity. Qed.

(** With [{"global_mappings": {"1": "a"}}] the digit key [KEY_1] is
    remapped to [a]. *)
Lemma digit_key_is_remapped :
  get_mapping_in escape_by_code_config "uinput" None ecodes.KEY_1 = Ret (RInt ecodes.KEY_A).
Proof. vm_compute. reflexivity. Qed.

(** * Further properties of the registry *)

(** ** Case of identifiers *)

Lemma upper_char_idem (c : ascii) : Py.upper_char (Py.upper_char c) = Py.upper_char c.
Proof. destruct c as [[|] [|] [|] [|] [|] [|] [|] [|]]; reflexivity. Qed.

Lemma lower_char_idem (c : ascii) : Py.lower_char (Py.lower_char c) = Py.lower_char c.
Proof. destruct c as [[|] [|] [|] [|] [|] [|] [|] [|]]; reflexivity. Qed.

Lemma lower_upper_char (c : ascii) : Py.lower_char (Py.upper_char c) = Py.lower_char c.
Proof. destruct c as [[|] [|] [|] [|] [|] [|] [|] [|]]; reflexivity. Qed.

Lemma upper_lower_char (c : ascii) : Py.upper_char (Py.lower_char c) = Py.upper_char c.
Proof. destruct c as [[|] [|] [|] [|] [|] [|] [|] [|]]; reflexivity. Qed.

Lemma map_chars_compose (f g h : ascii -> ascii) (s : string) :
  (forall c, f (g c) = h c) ->
  Py.map_chars f (Py.map_chars g s) = Py.map_chars h s.
Proof.
  intros Hfg. induction s as [|c r IH]; simpl; [reflexivity|].
  now rewrite Hfg, IH.
Qed.

Lemma map_chars_len (f : ascii -> ascii) (s : string) :
  Py.len (Py.map_chars f s) = Py.len s.
Proof.
  unfold Py.len. induction s as [|c r IH]; simpl; [reflexivity | now rewrite IH].
Qed.

Lemma map_chars_app (f : ascii -> ascii) (s t : string) :
  Py.map_chars f (s +:+ t) = Py.map_chars f s +:+ Py.map_chars f t.
Proof. induction s as [|c r IH]; simpl; [reflexivity | now rewrite IH]. Qed.

(** X1. [name_to_keycode] does not depend on the case of its argument. *)
Theorem name_to_keycode_ignores_case (key_name : string) :
  name_to_keycode (Py.upper key_name) = name_to_keycode key_name /\
  name_to_keycode (Py.lower key_name) = name_to_keycode key_name.
Proof.
  unfold name_to_keycode, Py.upper, Py.lower.
  rewrite !map_chars_len.
  rewrite (map_chars_compose _ _ _ key_name upper_char_idem).
  rewrite (map_chars_compose _ _ _ key_name lower_upper_char).
  rewrite (map_chars_compose _ _ _ key_name upper_lower_char).
  rewrite (map_chars_compose _ _ _ key_name lower_char_idem).
  split; reflexivity.
Qed.

(** ** The [KEY_] prefix *)

Lemma KEY_names_not_doubly_prefixed :
  forallb (fun '(_, names) =>
             match names with
             | ecodes.Name n => negb (Py.startswith n "KEY_KEY_")
             | ecodes.Names _ => true
             end) ecodes.KEY = true.
Proof. vm_compute. reflexivity. Qed.

Lemma name_map_keys_not_prefixed :
  forallb (fun k => negb (Py.startswith k "key_")) (dict_keys name_map) = true.
Proof. vm_compute. reflexivity. Qed.

Lemma startswith_app (p s : string) : Py.startswith (p +:+ s) p = true.
Proof.
  unfold Py.startswith. induction p as [|c p IH]; simpl.
  - now destruct s.
  - destruct (ascii_dec c c); [exact IH | congruence].
Qed.

Lemma startswith_split (s p : string) :
  Py.startswith s p = true -> exists r, s = p +:+ r.
Proof.
  unfold Py.startswith. revert s. induction p as [|c p IH]; intros s.
  - intros _. now exists s.
  - destruct s as [|a s]; simpl; [discriminate|].
    destruct (ascii_dec c a) as [->|]; [|discriminate].
    intros [r ->]%IH. now exists r.
Qed.

(** X2. The prefix [KEY_] is optional: a name accepted with the prefix is
    accepted without it, for the same code. *)
Theorem name_to_keycode_prefix_optional (key_name : string) (c : Z) :
  name_to_keycode ("KEY_" +:+ key_name) = Some c ->
  name_to_keycode key_name = Some c.
Proof.
  unfold name_to_keycode.
  assert (Py.upper ("KEY_" +:+ key_name) = "KEY_" +:+ Py.upper key_name) as ->.
  { unfold Py.upper. now rewrite map_chars_app. }
  assert (Py.lower ("KEY_" +:+ key_name) = "key_" +:+ Py.lower key_name) as ->.
  { unfold Py.lower. now rewrite map_chars_app. }
  rewrite startswith_app.
  change (Nat.eqb (Py.len ("KEY_" +:+ key_name)) 1) with false.
  destruct (search_KEY ecodes.KEY ("KEY_" +:+ Py.upper key_name)) as [c0|] eqn:Hs.
  - intros [= ->].
    destruct (Py.startswith (Py.upper key_name) "KEY_") eqn:Hp; [|now rewrite Hs].
    exfalso. apply startswith_split in Hp as [r Hr]. rewrite Hr in Hs.
    apply search_KEY_In in Hs.
    pose proof (proj1 (forallb_forall _ _) KEY_names_not_doubly_prefixed _ Hs) as Hb.
    cbv beta iota in Hb.
    change ("KEY_" +:+ "KEY_" +:+ r) with ("KEY_KEY_" +:+ r) in Hb.
    now rewrite startswith_app in Hb.
  - intros Hn. exfalso. apply dict_get_key in Hn.
    pose proof (proj1 (forallb_forall _ _) name_map_keys_not_prefixed _ Hn) as Hb.
    cbv beta in Hb. now rewrite startswith_app in Hb.
Qed.

Lemma name_to_keycode_prefix_optional_witness :
  name_to_keycode "rightshift" = Some ecodes.KEY_RIGHTSHIFT.
Proof.
  apply (name_to_keycode_prefix_optional "rightshift" ecodes.KEY_RIGHTSHIFT).
  vm_compute. reflexivity.
Defined.

(** ** Range of the codes *)

(** X3. Every code that [name_to_keycode] returns is a code of
    [ecodes.KEY], between 0 and 768 ([KEY_CNT]). *)
Theorem name_to_keycode_range (key_name : string) (c : Z) :
  name_to_keycode key_name = Some c ->
  In c (map fst ecodes.KEY) /\ 0 <= c <= 768.
Proof.
  intros H. apply name_to_keycode_codes in H.
  pose proof (proj1 (forallb_forall _ _) supported_codes_in_KEY _ H) as Hb.
  cbv beta in Hb.
  apply andb_true_iff in Hb as [Hb Hhi]. apply andb_true_iff in Hb as [Hin Hlo].
  split; [now apply existsb_eqb_In | lia].
Qed.

Lemma name_to_keycode_range_witness :
  In ecodes.KEY_F24 (map fst ecodes.KEY) /\ 0 <= ecodes.KEY_F24 <= 768.
Proof.
  apply (name_to_keycode_range "f24" ecodes.KEY_F24). vm_compute. reflexivity.
Defined.

(** ** Identifiers with a colon *)

Lemma int_unfold (s : string) :
  Py.int s =
  match Py.int_rstrip (Py.int_lstrip s) with
  | EmptyString => None
  | String c r =>
      if Ascii.eqb c "-" then option_map Z.opp (Py.int_literal r)
      else if Ascii.eqb c "+" then Py.int_literal r
      else Py.int_literal (String c r)
  end.
Proof.
  unfold Py.int. destruct (Py.int_rstrip (Py.int_lstrip s)) as [|c r]; [reflexivity|].
  destruct c as [[|] [|] [|] [|] [|] [|] [|] [|]]; reflexivity.
Qed.

Lemma has_char_app (ch : ascii) (s t : string) :
  has_char ch (s +:+ t) = has_char ch s || has_char ch t.
Proof.
  induction s as [|c r IH]; simpl; [reflexivity|].
  now rewrite IH, orb_assoc.
Qed.

Lemma has_char_map (f : ascii -> ascii) (ch : ascii) (s : string) :
  f ch = ch -> has_char ch s = true -> has_char ch (Py.map_chars f s) = true.
Proof.
  intros Hf. induction s as [|c r IH]; simpl; [discriminate|].
  destruct (Ascii.eqb_spec c ch) as [->|_]; simpl.
  - intros _. now rewrite Hf, Ascii.eqb_refl.
  - intros H. rewrite (IH H). apply orb_true_r.
Qed.

Lemma has_char_lstrip (ch : ascii) (s : string) :
  Py.is_space ch = false -> has_char ch s = true -> has_char ch (Py.lstrip s) = true.
Proof.
  intros Hsp. induction s as [|c r IH]; simpl; [discriminate|].
  destruct (Py.is_space c) eqn:Hc; [|now simpl].
  destruct (Ascii.eqb_spec c ch) as [->|_]; [congruence | exact IH].
Qed.

Lemma has_char_rstrip (ch : ascii) (s : string) :
  Py.is_space ch = false -> has_char ch s = true -> has_char ch (Py.rstrip s) = true.
Proof.
  intros Hsp. induction s as [|c r IH]; simpl; [discriminate|].
  destruct (Ascii.eqb_spec c ch) as [->|_]; simpl.
  - intros _. destruct (Py.rstrip r); [rewrite Hsp|]; simpl;
      now rewrite Ascii.eqb_refl.
  - intros H. specialize (IH H).
    destruct (Py.rstrip r); [discriminate|].
    simpl in *. rewrite IH. apply orb_true_r.
Qed.

Lemma has_char_int_lstrip (ch : ascii) (s : string) :
  Py.is_int_space ch = false -> has_char ch s = true ->
  has_char ch (Py.int_lstrip s) = true.
Proof.
  intros Hsp. induction s as [|c r IH]; simpl; [discriminate|].
  destruct (Py.is_int_space c) eqn:Hc; [|now simpl].
  destruct (Ascii.eqb_spec c ch) as [->|_]; [congruence | exact IH].
Qed.

Lemma has_char_int_rstrip (ch : ascii) (s : string) :
  Py.is_int_space ch = false -> has_char ch s = true ->
  has_char ch (Py.int_rstrip s) = true.
Proof.
  intros Hsp. induction s as [|c r IH]; simpl; [discriminate|].
  destruct (Ascii.eqb_spec c ch) as [->|_]; simpl.
  - intros _. destruct (Py.int_rstrip r); [rewrite Hsp|]; simpl;
      now rewrite Ascii.eqb_refl.
  - intros H. specialize (IH H).
    destruct (Py.int_rstrip r); [discriminate|].
    simpl in *. rewrite IH. apply orb_true_r.
Qed.

Lemma int_digits_other_char (ch : ascii) (s : string) :
  Py.is_digit ch = false -> Ascii.eqb ch "_" = false -> has_char ch s = true ->
  forall acc prev, Py.int_digits acc prev s = None.
Proof.
  intros Hd Hu. induction s as [|c r IH]; simpl; [discriminate|].
  destruct (Ascii.eqb_spec c ch) as [->|_]; simpl.
  - intros _ acc prev. now rewrite Hd, Hu.
  - intros H acc prev.
    destruct (Py.is_digit c); [now apply IH|].
    destruct (Ascii.eqb c "_"); [|reflexivity].
    destruct prev; [now apply IH | reflexivity].
Qed.

Lemma int_literal_other_char (ch : ascii) (s : string) :
  Py.is_digit ch = false -> Ascii.eqb ch "_" = false -> has_char ch s = true ->
  Py.int_literal s = None.
Proof.
  intros Hd Hu H. unfold Py.int_literal.
  destruct (Py.int_max_str_digits <? Py.count_digits s); [reflexivity|].
  now apply (int_digits_other_char ch).
Qed.

Lemma int_colon (s : string) : has_char ":" s = true -> Py.int s = None.
Proof.
  intros H. rewrite int_unfold.
  assert (has_char ":" (Py.int_rstrip (Py.int_lstrip s)) = true) as Hs.
  { apply has_char_int_rstrip; [reflexivity|].
    now apply has_char_int_lstrip. }
  destruct (Py.int_rstrip (Py.int_lstrip s)) as [|c r]; [reflexivity|].
  destruct (Ascii.eqb_spec c "-") as [->|_].
  - simpl in Hs. now rewrite (int_literal_other_char ":" r).
  - destruct (Ascii.eqb_spec c "+") as [->|_].
    + simpl in Hs. now apply (int_literal_other_char ":" r).
    + now apply (int_literal_other_char ":").
Qed.

Lemma KEY_names_without_colon :
  forallb (fun '(_, names) =>
             match names with
             | ecodes.Name n => negb (has_char ":" n)
             | ecodes.Names _ => true
             end) ecodes.KEY = true.
Proof. vm_compute. reflexivity. Qed.

Lemma map_keys_without_colon :
  forallb (fun k => negb (has_char ":" k)) (dict_keys char_map ++ dict_keys name_map) = true.
Proof. vm_compute. reflexivity. Qed.

Lemma name_to_keycode_colon (s : string) :
  has_char ":" s = true -> name_to_keycode s = None.
Proof.
  intros H. unfold name_to_keycode.
  assert (has_char ":" (Py.upper s) = true) as Hu by now apply has_char_map.
  assert (has_char ":" (Py.lower s) = true) as Hl by now apply has_char_map.
  set (u := if Py.startswith (Py.upper s) "KEY_" then _ else _).
  assert (has_char ":" u = true) as Hku.
  { subst u. destruct (Py.startswith (Py.upper s) "KEY_"); [exact Hu|].
    rewrite has_char_app, Hu. apply orb_true_r. }
  destruct (search_KEY ecodes.KEY u) as [c|] eqn:Hs.
  { apply search_KEY_In in Hs.
    pose proof (proj1 (forallb_forall _ _) KEY_names_without_colon _ Hs) as Hb.
    cbv beta iota in Hb. now rewrite Hku in Hb. }
  assert (forall d, In d [char_map; name_map] -> dict_get d (Py.lower s) = None) as Hmaps.
  { intros d Hd. destruct (dict_get d (Py.lower s)) as [c|] eqn:Hg; [|reflexivity].
    apply dict_get_key in Hg.
    assert (In (Py.lower s) (dict_keys char_map ++ dict_keys name_map)) as Hin.
    { apply in_or_app. destruct Hd as [<-|[<-|[]]]; [now left | now right]. }
    pose proof (proj1 (forallb_forall _ _) map_keys_without_colon _ Hin) as Hb.
    cbv beta in Hb. now rewrite Hl in Hb. }
  rewrite (Hmaps char_map), (Hmaps name_map) by (simpl; auto).
  now destruct (Nat.eqb (Py.len s) 1).
Qed.

(** X4. An identifier that contains a colon is never normalized: it is
    neither a key name nor a decimal literal.  In particular the synthetic
    name [k:<code>] that [keycode_to_dotool_name] gives to a code without
    a name of its own is not accepted back. *)
Theorem colon_identifiers_do_not_normalize :
  (forall key, has_char ":" key = true -> normalize_config_key key = (None, None)) /\
  (forall key_code, has_dotool_name key_code = false ->
     normalize_config_key (keycode_to_dotool_name key_code) = (None, None)).
Proof.
  assert (forall key, has_char ":" key = true -> normalize_config_key key = (None, None))
    as Hcolon.
  { intros key H. apply normalize_unresolvable;
      [now apply name_to_keycode_colon | now apply int_colon]. }
  split; [exact Hcolon|].
  intros key_code Hname. apply Hcolon.
  unfold has_dotool_name in Hname. unfold keycode_to_dotool_name.
  destruct (code_get key_name_map key_code); [discriminate | reflexivity].
Qed.

Lemma colon_identifiers_do_not_normalize_witness :
  normalize_config_key "x:exclam" = (None, None) /\
  normalize_config_key (keycode_to_dotool_name 12) = (None, None).
Proof.
  split.
  - apply (proj1 colon_identifiers_do_not_normalize). reflexivity.
  - apply (proj2 colon_identifiers_do_not_normalize). reflexivity.
Defined.

(** ** Decimal identifiers *)

(** X5. The decimal string of an integer from 10 on that has at most
    4300 digits (the most that [int()] accepts) normalizes to that
    integer, with the name [keycode_to_dotool_name] gives it: such a
    string is never taken for a key name, and no range of key codes is
    checked. *)
Theorem decimal_code_normalizes (n : Z) :
  10 <= n -> n < 10 ^ Py.int_max_str_digits ->
  normalize_config_key (Py.str n) = (Some n, Some (keycode_to_dotool_name n)).
Proof.
  intros Hn Hlt. rewrite normalize_unfold, name_to_keycode_digits.
  - now rewrite int_str by (assumption || lia).
  - apply str_all_digits. lia.
  - destruct (str_two_chars n Hn) as (a & b & r & ->). simpl. lia.
Qed.

Lemma decimal_code_normalizes_witness :
  normalize_config_key (Py.str 100000) = (Some 100000, Some (keycode_to_dotool_name 100000)).
Proof.
  apply (decimal_code_normalizes 100000); [lia|].
  apply Z.ltb_lt. vm_compute. reflexivity.
Defined.

(** * Further properties of the resolver *)

(** ** What a table matches *)

Lemma code_is_true (normalized : option Z) (key_code : Z) :
  code_is normalized key_code = true <-> normalized = Some key_code.
Proof.
  destruct normalized as [c|]; simpl.
  - rewrite Z.eqb_eq. split; congruence.
  - split; discriminate.
Qed.

(** X6. The two loops of a block find a value for a key code exactly when
    the table has a key that normalizes to that code, however the key is
    spelled; the value found is stored under such a key. *)
Theorem table_lookup_spellings (key_code : Z) (table : dict string) :
  (table_lookup key_code table <> None <->
   exists k, In k (dict_keys table) /\ fst (normalize_config_key k) = Some key_code) /\
  (forall mapped, table_lookup key_code table = Some mapped ->
   exists k, In (k, mapped) table /\ fst (normalize_config_key k) = Some key_code).
Proof.
  assert (forall mapped, table_lookup key_code table = Some mapped ->
            exists k, In (k, mapped) table /\
                      fst (normalize_config_key k) = Some key_code) as Hfound.
  { intros mapped (k & Hin & Hc)%table_loops_found.
    exists k. split; [exact Hin | now apply code_is_true]. }
  split; [split|exact Hfound].
  - intros Hsome. destruct (table_lookup key_code table) as [mapped|] eqn:Hl;
      [|congruence].
    destruct (Hfound mapped eq_refl) as (k & Hin & Hc).
    exists k. split; [|exact Hc].
    unfold dict_keys. apply in_map_iff. now exists (k, mapped).
  - intros (k & Hin & Hc). apply (table_lookup_finds key_code table k Hin).
    now apply code_is_true.
Qed.

Lemma table_lookup_spellings_witness :
  table_lookup ecodes.KEY_A [("escape", "x"); ("Key_a", "b")] <> None.
Proof.
  apply (proj2 (proj1 (table_lookup_spellings ecodes.KEY_A
                         [("escape", "x"); ("Key_a", "b")]))).
  exists "Key_a". split; [simpl; auto | vm_compute; reflexivity].
Defined.

(** ** Choice of the window table *)

Lemma contains_unfold (hay needle : string) :
  Py.contains hay needle =
  String.prefix needle hay ||
  match hay with EmptyString => false | String _ r => Py.contains r needle end.
Proof. destruct hay; reflexivity. Qed.

Lemma contains_refl (s : string) : Py.contains s s = true.
Proof.
  rewrite contains_unfold.
  assert (s +:+ "" = s) as Hs.
  { induction s as [|c r IH]; [reflexivity|].
    change (String c (r +:+ "") = String c r). now rewrite IH. }
  pose proof (startswith_app s "") as H. unfold Py.startswith in H.
  rewrite Hs in H. now rewrite H.
Qed.

(** [Py.contains hay needle] holds exactly when [needle] occurs in [hay]. *)
Lemma contains_spec (hay needle : string) :
  Py.contains hay needle = true <-> exists pre post, hay = pre +:+ needle +:+ post.
Proof.
  split.
  - induction hay as [|c r IH]; rewrite contains_unfold;
      intros [Hp|Hc]%orb_true_iff; try discriminate.
    + apply (startswith_split _ needle) in Hp as [post ->]. now exists "", post.
    + apply (startswith_split _ needle) in Hp as [post ->]. now exists "", post.
    + destruct (IH Hc) as (pre & post & ->). now exists (String c pre), post.
  - intros (pre & post & ->). induction pre as [|c pre IH].
    + change ("" +:+ needle +:+ post) with (needle +:+ post).
      rewrite contains_unfold. pose proof (startswith_app needle post) as H.
      unfold Py.startswith in H. now rewrite H.
    + change (String c pre +:+ needle +:+ post)
        with (String c (pre +:+ needle +:+ post)).
      rewrite contains_unfold, IH. apply orb_true_r.
Qed.

Lemma dict_mem_keys {V : Type} (d : dict V) (k : string) :
  dict_mem d k = true <-> In k (dict_keys d).
Proof.
  unfold dict_mem. split.
  - destruct (dict_get d k) as [v|] eqn:Hg; [|discriminate].
    intros _. exact (dict_get_key d k v Hg).
  - intros [v ->]%dict_get_of_key. reflexivity.
Qed.

(** X7. The window table is chosen by name: a configured name equal to the
    focused window is taken first; otherwise the first configured name equal
    to it up to case; otherwise the first configured name that contains the
    window name or is contained in it, case ignored.  The name chosen is
    always a configured one, and no name is chosen only when no configured
    name contains or is contained in the window name. *)
Theorem find_window_key_rule {V : Type} (window : string) (maps : dict V) :
  (In window (dict_keys maps) -> find_window_key window maps = Some window) /\
  (forall k, ~ In window (dict_keys maps) -> In k (dict_keys maps) ->
     Py.lower k = Py.lower window ->
     exists k', find_window_key window maps = Some k' /\
                Py.lower k' = Py.lower window) /\
  (forall k, find_window_key window maps = Some k ->
     In k (dict_keys maps) /\
     (Py.contains (Py.lower window) (Py.lower k) = true \/
      Py.contains (Py.lower k) (Py.lower window) = true)) /\
  (find_window_key window maps = None <->
   forall k, In k (dict_keys maps) ->
     Py.contains (Py.lower window) (Py.lower k) = false /\
     Py.contains (Py.lower k) (Py.lower window) = false).
Proof.
  assert (forall k, find_window_key window maps = Some k ->
            In k (dict_keys maps) /\
            (Py.contains (Py.lower window) (Py.lower k) = true \/
             Py.contains (Py.lower k) (Py.lower window) = true)) as Hsound.
  { intros k. unfold find_window_key.
    destruct (dict_mem maps window) eqn:Hmem.
    - intros [= <-]. split; [now apply dict_mem_keys|].
      left. apply contains_refl.
    - destruct (find _ (dict_keys maps)) as [k1|] eqn:H1.
      + intros [= <-]. apply find_some in H1 as [Hin Heq].
        apply String.eqb_eq in Heq. split; [exact Hin|].
        left. rewrite Heq. apply contains_refl.
      + intros H2. apply find_some in H2 as [Hin Hsub].
        split; [exact Hin | now apply orb_true_iff in Hsub]. }
  split; [|split; [|split; [exact Hsound|]]].
  - intros Hin. unfold find_window_key.
    now rewrite (proj2 (dict_mem_keys maps window) Hin).
  - intros k Hnot Hin Hlow. unfold find_window_key.
    destruct (dict_mem maps window) eqn:Hmem;
      [now apply dict_mem_keys in Hmem|].
    destruct (find _ (dict_keys maps)) as [k1|] eqn:H1.
    + exists k1. split; [reflexivity|].
      apply find_some in H1 as [_ Heq]. now apply String.eqb_eq.
    + exfalso. pose proof (find_none _ _ H1 k Hin) as Hk. cbv beta in Hk.
      rewrite Hlow, String.eqb_refl in Hk. discriminate.
  - split.
    + intros Hnone k Hin. unfold find_window_key in Hnone.
      destruct (dict_mem maps window); [discriminate|].
      destruct (find _ (dict_keys maps)) as [k1|]; [discriminate|].
      pose proof (find_none _ _ Hnone k Hin) as Hk. cbv beta in Hk.
      now apply orb_false_iff in Hk.
    + intros Hall. destruct (find_window_key window maps) as [k|] eqn:Hf;
        [|reflexivity].
      destruct (Hsound k eq_refl) as [Hin [Hc|Hc]];
        destruct (Hall k Hin) as [H1 H2]; congruence.
Qed.

Lemma find_window_key_rule_witness :
  find_window_key "krita" [("gimp", 1%nat); ("krita", 2%nat)] = Some "krita" /\
  (exists k', find_window_key "Krita" [("gimp", 1%nat); ("krita", 2%nat)] = Some k' /\
              Py.lower k' = Py.lower "Krita") /\
  In "krita" (dict_keys [("gimp", 1%nat); ("krita", 2%nat)]).
Proof.
  split; [|split].
  - apply (proj1 (find_window_key_rule "krita" [("gimp", 1%nat); ("krita", 2%nat)])).
    simpl. auto.
  - apply (proj1 (proj2 (find_window_key_rule "Krita" [("gimp", 1%nat); ("krita", 2%nat)]))
             "krita").
    + simpl. intros [H|[H|[]]]; discriminate.
    + simpl. auto.
    + reflexivity.
  - apply (proj1 (proj2 (proj2 (find_window_key_rule "org.kde.krita"
                                  [("gimp", 1%nat); ("krita", 2%nat)]))) "krita").
    vm_compute. reflexivity.
Defined.

(** ** Shape of the result *)

Lemma convert_mapped_dotool (mapped : string) :
  exists s, convert_mapped "dotool" mapped = Ret (RStr s).
Proof.
  unfold convert_mapped. simpl.
  destruct (snd (normalize_config_key mapped)) as [n|]; [|eauto].
  destruct (Py.truthy n); eauto.
Qed.

Lemma convert_mapped_other (method mapped : string) :
  method <> "dotool" ->
  convert_mapped method mapped = Raise ValueError \/
  exists n, convert_mapped method mapped = Ret (RInt n).
Proof.
  intros Hm%String.eqb_neq. unfold convert_mapped, int_or_raise. rewrite Hm.
  destruct (fst (normalize_config_key mapped)) as [c|].
  - destruct (c =? 0); [|eauto]. destruct (Py.int mapped); eauto.
  - destruct (Py.int mapped); eauto.
Qed.

Lemma key_mapping_result_cases (method mapped : string) :
  (exists cmd, key_mapping_result method mapped = Ret (RCommand cmd)) \/
  key_mapping_result method mapped = convert_mapped method mapped.
Proof.
  unfold key_mapping_result.
  destruct (is_command_mapping mapped); [|now right].
  destruct (get_command_from_mapping mapped) as [cmd|]; [|now right].
  destruct (Py.truthy cmd); [left; eauto | now right].
Qed.

Lemma get_mapping_in_dotool_cases (cfg : Config) (window : option string)
    (key_code : Z) :
  get_mapping_in cfg "dotool" window key_code = Ret RNone \/
  (exists cmd, get_mapping_in cfg "dotool" window key_code = Ret (RCommand cmd)) \/
  (exists name, get_mapping_in cfg "dotool" window key_code = Ret (RStr name)).
Proof.
  rewrite get_mapping_in_unfold.
  destruct (window_lookup window (window_command_mappings cfg) key_code);
    [right; left; eauto|].
  destruct (global_lookup (command_mappings cfg) key_code); [right; left; eauto|].
  assert (forall mapped,
            (exists cmd, key_mapping_result "dotool" mapped = Ret (RCommand cmd)) \/
            (exists name, key_mapping_result "dotool" mapped = Ret (RStr name))) as Hk.
  { intros mapped. destruct (key_mapping_result_cases "dotool" mapped) as [H| ->];
      [now left | right; apply convert_mapped_dotool]. }
  destruct (window_lookup window (window_mappings cfg) key_code) as [mapped|];
    [right; apply Hk|].
  destruct (global_lookup (global_mappings cfg) key_code) as [mapped|];
    [right; apply Hk | now left].
Qed.

Lemma get_mapping_in_other_cases (cfg : Config) (method : string)
    (window : option string) (key_code : Z) :
  method <> "dotool" ->
  forall name, get_mapping_in cfg method window key_code <> Ret (RStr name).
Proof.
  intros Hm name. rewrite get_mapping_in_unfold.
  destruct (window_lookup window (window_command_mappings cfg) key_code);
    [discriminate|].
  destruct (global_lookup (command_mappings cfg) key_code); [discriminate|].
  assert (forall mapped, key_mapping_result method mapped <> Ret (RStr name)) as Hk.
  { intros mapped. destruct (key_mapping_result_cases method mapped) as [[cmd ->]| ->];
      [discriminate|].
    destruct (convert_mapped_other method mapped Hm) as [-> |[n ->]]; discriminate. }
  destruct (window_lookup window (window_mappings cfg) key_code) as [mapped|];
    [apply Hk|].
  destruct (global_lookup (global_mappings cfg) key_code) as [mapped|];
    [apply Hk | discriminate].
Qed.

(** X8. Once the window is known, the lookup of [get_mapping] in tables
    of strings (the four blocks of lines 593-838) has, with the dotool
    method, one of three results: [None], a command or a key name; it
    raises no exception and returns no key code.  With any other method
    it returns no key name. *)
Theorem get_mapping_result_shape (cfg : Config) (window : option string) (key_code : Z) :
  (get_mapping_in cfg "dotool" window key_code = Ret RNone \/
   (exists cmd, get_mapping_in cfg "dotool" window key_code = Ret (RCommand cmd)) \/
   (exists name, get_mapping_in cfg "dotool" window key_code = Ret (RStr name))) /\
  (forall method name, method <> "dotool" ->
     get_mapping_in cfg method window key_code <> Ret (RStr name)).
Proof.
  split; [apply get_mapping_in_dotool_cases|].
  intros method name Hm. now apply get_mapping_in_other_cases.
Qed.

Lemma get_mapping_result_shape_witness :
  get_mapping_in xkb_target_config "uinput" None ecodes.KEY_A <> Ret (RStr "x:exclam").
Proof.
  apply (proj2 (get_mapping_result_shape xkb_target_config None ecodes.KEY_A)).
  discriminate.
Defined.

(** ** The command prefix *)

(** X9. In a key-substitution table a value [cmd:<text>] or [CMD:<text>]
    is the command [<text>] without its surrounding white space, provided
    something is left of it.  When nothing is left, the value is treated as
    a remap target: with dotool it is returned as the key name, with any
    other method [ValueError] is raised. *)
Theorem command_prefix_result (method text : string) :
  (Py.strip text <> "" ->
   key_mapping_result method ("cmd:" +:+ text) = Ret (RCommand (Py.strip text)) /\
   key_mapping_result method ("CMD:" +:+ text) = Ret (RCommand (Py.strip text))) /\
  (Py.strip text = "" ->
   key_mapping_result "dotool" ("cmd:" +:+ text) = Ret (RStr ("cmd:" +:+ text)) /\
   key_mapping_result "dotool" ("CMD:" +:+ text) = Ret (RStr ("CMD:" +:+ text)) /\
   (method <> "dotool" ->
    key_mapping_result method ("cmd:" +:+ text) = Raise ValueError /\
    key_mapping_result method ("CMD:" +:+ text) = Raise ValueError)).
Proof.
  assert (forall p, p = "cmd:" \/ p = "CMD:" ->
            is_command_mapping (p +:+ text) = true /\
            get_command_from_mapping (p +:+ text) = Some (Py.strip text)) as Hp.
  { intros p [-> | ->]; unfold is_command_mapping, get_command_from_mapping.
    - now rewrite (startswith_app "cmd:" text).
    - change (Py.startswith ("CMD:" +:+ text) "cmd:") with false.
      now rewrite (startswith_app "CMD:" text). }
  split.
  - intros Hne.
    assert (Py.truthy (Py.strip text) = true) as Ht
      by (destruct (Py.strip text); [congruence | reflexivity]).
    split; unfold key_mapping_result.
    + destruct (Hp "cmd:" (or_introl eq_refl)) as [-> ->]. now rewrite Ht.
    + destruct (Hp "CMD:" (or_intror eq_refl)) as [-> ->]. now rewrite Ht.
  - intros Hempty.
    assert (forall p, p = "cmd:" \/ p = "CMD:" ->
              key_mapping_result "dotool" (p +:+ text) = Ret (RStr (p +:+ text)) /\
              (method <> "dotool" ->
               key_mapping_result method (p +:+ text) = Raise ValueError)) as Hblank.
    { intros p Hpp.
      assert (forall m, key_mapping_result m (p +:+ text) = convert_mapped m (p +:+ text))
        as Hconv.
      { intros m. unfold key_mapping_result.
        destruct (Hp p Hpp) as [-> ->]. now rewrite Hempty. }
      assert (has_char ":" (p +:+ text) = true) as Hcolon
        by (destruct Hpp as [-> | ->]; reflexivity).
      assert (normalize_config_key (p +:+ text) = (None, None)) as Hnorm.
      { apply normalize_unresolvable;
          [now apply name_to_keycode_colon | now apply int_colon]. }
      assert (Py.int (p +:+ text) = None) as Hint by now apply int_colon.
      split.
      - rewrite Hconv. unfold convert_mapped. now rewrite Hnorm.
      - intros Hm%String.eqb_neq. rewrite Hconv.
        unfold convert_mapped, int_or_raise. now rewrite Hm, Hnorm, Hint. }
    destruct (Hblank "cmd:" (or_introl eq_refl)) as [Hd1 Ho1].
    destruct (Hblank "CMD:" (or_intror eq_refl)) as [Hd2 Ho2].
    split; [exact Hd1|]. split; [exact Hd2|].
    intros Hm. split; [now apply Ho1 | now apply Ho2].
Qed.

Lemma command_prefix_result_witness :
  key_mapping_result "uinput" ("cmd:" +:+ "  firefox --new-window ")
    = Ret (RCommand "firefox --new-window") /\
  key_mapping_result "uinput" ("CMD:" +:+ "   ") = Raise ValueError.
Proof.
  split.
  - apply (proj1 (command_prefix_result "uinput" "  firefox --new-window ")).
    discriminate.
  - apply (proj2 (command_prefix_result "uinput" "   ")); [reflexivity | discriminate].
Defined.

(** * Further properties of the event loop *)

(** ** What [process_event] leaves alone *)

Lemma send_dotool_key_fields (m : KeyMapper) (broken : bool) (key_name : string)
    (value : Z) :
  let m' := fst (send_dotool_key m broken key_name value) in
  config m' = config m /\ output_method m' = output_method m /\
  uinput m' = uinput m /\ (dotool_process m = false -> dotool_process m' = false).
Proof.
  unfold send_dotool_key.
  destruct (dotool_process m) eqn:Hd; simpl; [|now repeat split].
  destruct (negb (Py.truthy key_name)); simpl; [now repeat split|].
  destruct (value =? 1).
  - destruct (decide _); [now repeat split|]. destruct broken; now repeat split.
  - destruct (value =? 0); [|now repeat split].
    destruct (decide _); [|now repeat split]. destruct broken; now repeat split.
Qed.

Lemma process_event_fields (m m' : KeyMapper) (w : World) (event : InputEvent)
    (out : list Effect) :
  process_event m w event = Ret (m', out) ->
  config m' = config m /\ output_method m' = output_method m /\
  uinput m' = uinput m /\ (dotool_process m = false -> dotool_process m' = false).
Proof.
  unfold process_event.
  destruct (ev_type event =? ecodes.EV_KEY);
    [|destruct (uinput m) eqn:Hu0; intros [= <- <-]; now repeat split].
  destruct (categorize event) as [_|e0]; [|discriminate].
  rewrite get_mapping_unfold.
  pose proof (get_focused_window_fields m w) as (Hc & Hm & Hu & Hd & _).
  set (m1 := fst (get_focused_window m w)) in *. simpl in Hc, Hm, Hu, Hd.
  assert (forall name value,
            Ret (send_dotool_key m1 (pipe_broken w) name value) = Ret (m', out) ->
            config m' = config m /\ output_method m' = output_method m /\
            uinput m' = uinput m /\
            (dotool_process m = false -> dotool_process m' = false)) as Hsend.
  { intros name value [= Hs].
    pose proof (send_dotool_key_fields m1 (pipe_broken w) name value) as Hf.
    rewrite Hs in Hf. simpl in Hf. destruct Hf as (H1 & H2 & H3 & H4).
    repeat split; try congruence. intros H. apply H4. congruence. }
  assert (Ret (m1, @nil Effect) = Ret (m', out) ->
          config m' = config m /\ output_method m' = output_method m /\
          uinput m' = uinput m /\
          (dotool_process m = false -> dotool_process m' = false)) as Hnil.
  { intros [= <- <-]. repeat split; congruence. }
  destruct (get_mapping_in _ _ _ _) as [[|cmd|n|s]|e]; try discriminate.
  - destruct (String.eqb (output_method m1) "dotool"); simpl.
    + destruct (dotool_process m1 && _); [apply Hsend|exact Hnil].
    + destruct (uinput m1) eqn:Hu1;
      [intros [= <- <-]; repeat split; congruence | exact Hnil].
  - intros [= <- <-]. repeat split; congruence.
  - destruct (String.eqb (output_method m1) "dotool" && dotool_process m1 && _);
      [apply Hsend|].
    destruct (uinput m1) eqn:Hu1;
      [intros [= <- <-]; repeat split; congruence | exact Hnil].
  - destruct (String.eqb (output_method m1) "dotool" && dotool_process m1 && _);
      [apply Hsend | exact Hnil].
Qed.

(** ** Composition of runs *)

(** X10. Running the loop over two batches of events is running it over
    the first and then, from the mapper the first leaves, over the second;
    once an exception has escaped, no later event is processed and nothing
    more is emitted. *)
Theorem run_app (m : KeyMapper) (events1 events2 : list (World * InputEvent)) :
  (forall m1, snd (run m events1) = Interrupted m1 ->
     run m (events1 ++ events2) =
     (fst (run m events1) ++ fst (run m1 events2), snd (run m1 events2))) /\
  (forall e, snd (run m events1) = Aborted e ->
     run m (events1 ++ events2) = run m events1).
Proof.
  revert m. induction events1 as [|[w event] rest IH]; intros m.
  - split.
    + intros m1 [= <-]. simpl. now destruct (run m events2).
    + discriminate.
  - simpl. destruct (process_event m w event) as [[m' out]|e0] eqn:Hp.
    + destruct (IH m') as [IH1 IH2].
      destruct (run m' rest) as [outs o] eqn:Hr. simpl in *. split.
      * intros m1 Ho. rewrite (IH1 m1 Ho). simpl. now rewrite app_assoc.
      * intros e Ho. now rewrite (IH2 e Ho).
    + split; [discriminate | reflexivity].
Qed.

Lemma run_app_witness :
  run (fresh_mapper xkb_target_config "uinput")
      ([(world 1000 TimeoutExpired, key_event ecodes.KEY_A 1)] ++
       [(world 1100 TimeoutExpired, key_event ecodes.KEY_B 1)]) =
  run (fresh_mapper xkb_target_config "uinput")
      [(world 1000 TimeoutExpired, key_event ecodes.KEY_A 1)].
Proof.
  apply (proj2 (run_app (fresh_mapper xkb_target_config "uinput")
                  [(world 1000 TimeoutExpired, key_event ecodes.KEY_A 1)]
                  [(world 1100 TimeoutExpired, key_event ecodes.KEY_B 1)]) ValueError).
  vm_compute. reflexivity.
Defined.

(** ** A mapper without transport *)

Lemma process_event_no_transport (m m' : KeyMapper) (w : World) (event : InputEvent)
    (out : list Effect) :
  dotool_process m = false -> uinput m = false ->
  process_event m w event = Ret (m', out) ->
  forallb is_exec out = true.
Proof.
  intros Hd Hu. unfold process_event.
  destruct (ev_type event =? ecodes.EV_KEY);
    [|rewrite Hu; now intros [= <- <-]].
  destruct (categorize event) as [_|e0]; [|discriminate].
  rewrite get_mapping_unfold.
  pose proof (get_focused_window_fields m w) as (_ & _ & Hu1 & Hd1 & _).
  set (m1 := fst (get_focused_window m w)) in *. simpl in Hu1, Hd1.
  rewrite Hd in Hd1. rewrite Hu in Hu1.
  destruct (get_mapping_in _ _ _ _) as [[|cmd|n|s]|e]; try discriminate;
    rewrite ?Hd1, ?Hu1, ?andb_false_r; simpl.
  - destruct (String.eqb _ _); now intros [= <- <-].
  - destruct (ev_value event =? 1); now intros [= <- <-].
  - now intros [= <- <-].
  - now intros [= <- <-].
Qed.

(** X12. A mapper that has neither a dotool child nor a uinput device
    (read-only mode, or dotool after its pipe broke) never gets one back
    and emits no key event for the rest of the run: all it does is to
    launch commands. *)
Theorem run_without_transport (m : KeyMapper) (events : list (World * InputEvent)) :
  dotool_process m = false -> uinput m = false ->
  forallb is_exec (fst (run m events)) = true.
Proof.
  revert m. induction events as [|[w event] rest IH]; intros m Hd Hu; simpl;
    [reflexivity|].
  destruct (process_event m w event) as [[m1 out]|e] eqn:Hp; [|reflexivity].
  pose proof (process_event_no_transport m m1 w event out Hd Hu Hp) as Hout.
  destruct (process_event_fields m m1 w event out Hp) as (_ & _ & Hu1 & Hd1).
  specialize (IH m1 (Hd1 Hd) ltac:(congruence)).
  destruct (run m1 rest) as [outs o]. simpl in *.
  rewrite forallb_app. now rewrite Hout, IH.
Qed.

Lemma run_without_transport_witness :
  forallb is_exec
    (fst (run (set_dotool (fresh_mapper four_tier_config "dotool") false ∅)
            [(world 1000 TimeoutExpired, key_event ecodes.KEY_A 1);
             (world 1100 TimeoutExpired, key_event ecodes.KEY_B 1)])) = true.
Proof.
  apply (run_without_transport (set_dotool (fresh_mapper four_tier_config "dotool") false ∅));
    reflexivity.
Defined.

(** X13. After a write to the dotool pipe has failed, nothing was written,
    [pressed_keys] is as before, and every later call of [send_dotool_key]
    does nothing. *)
Theorem broken_pipe_disables_dotool (m : KeyMapper) (key_name : string) (value : Z) :
  dotool_process m = true -> key_name <> "" ->
  (value = 1 /\ key_name ∉ pressed_keys m) \/ (value = 0 /\ key_name ∈ pressed_keys m) ->
  send_dotool_key m true key_name value = (set_dotool m false (pressed_keys m), []) /\
  (forall broken name v,
     send_dotool_key (set_dotool m false (pressed_keys m)) broken name v =
     (set_dotool m false (pressed_keys m), [])).
Proof.
  intros Hd Hne Hcase. split; [|reflexivity].
  unfold send_dotool_key. rewrite Hd.
  destruct key_name as [|c r]; [congruence|]. simpl.
  destruct Hcase as [[-> Hout]|[-> Hin]]; simpl.
  - destruct (decide _); [contradiction | reflexivity].
  - destruct (decide _); [reflexivity | contradiction].
Qed.

Lemma broken_pipe_disables_dotool_witness :
  send_dotool_key (fresh_mapper no_tables "dotool") true "a" 1 =
  (set_dotool (fresh_mapper no_tables "dotool") false ∅, []).
Proof.
  apply (broken_pipe_disables_dotool (fresh_mapper no_tables "dotool") "a" 1).
  - reflexivity.
  - discriminate.
  - left. split; [reflexivity|]. simpl. apply not_elem_of_empty.
Defined.

(** ** Keys without a mapping *)

(** X14. A key event (of a key that evdev has a name for) for which
    [get_mapping] returns [None] is passed on as it came.  With a uinput
    device and a method other than dotool, the code and the value of the
    event are written to uinput, followed by a [syn()]; with the dotool
    method, the dotool name of the key and the value of the event are
    handed to [send_dotool_key]; with a method other than dotool and no
    uinput device nothing is emitted. *)
Theorem unmapped_key_passes_through (m m1 : KeyMapper) (w : World) (key_code value : Z) :
  in_ecodes_keys key_code = true ->
  get_mapping m w key_code = (m1, Ret RNone) ->
  (output_method m <> "dotool" -> uinput m = true ->
   process_event m w (key_event key_code value) =
   Ret (m1, [UWrite ecodes.EV_KEY key_code value; USyn])) /\
  (output_method m = "dotool" ->
   process_event m w (key_event key_code value) =
   Ret (send_dotool_key m1 (pipe_broken w) (keycode_to_dotool_name key_code) value)) /\
  (output_method m <> "dotool" -> uinput m = false ->
   process_event m w (key_event key_code value) = Ret (m1, [])).
Proof.
  intros Hk H. destruct (get_mapping_returns _ _ _ _ _ H) as [-> Hres].
  split; [|split].
  - intros Hm Hu. now apply process_event_unmapped_uinput.
  - intros Hm. now apply process_event_unmapped_dotool.
  - intros Hm Hu. key_branch Hk. rewrite get_mapping_unfold, Hres.
    pose proof (get_focused_window_fields m w) as (_ & Hm1 & Hu1 & _).
    simpl in Hm1, Hu1. rewrite Hm1, Hu1, Hu.
    apply String.eqb_neq in Hm. now rewrite Hm.
Qed.

Lemma unmapped_key_passes_through_witness :
  process_event (fresh_mapper krita_config "uinput") (world 1000 TimeoutExpired)
    (key_event ecodes.KEY_B 1) =
  Ret (fresh_mapper krita_config "uinput", [UWrite ecodes.EV_KEY ecodes.KEY_B 1; USyn]).
Proof.
  apply (unmapped_key_passes_through (fresh_mapper krita_config "uinput")
           (fresh_mapper krita_config "uinput") (world 1000 TimeoutExpired)
           ecodes.KEY_B 1).
  - vm_compute. reflexivity.
  - vm_compute. reflexivity.
  - discriminate.
  - reflexivity.
Defined.

(** ** Remapped keys *)

Lemma key_name_map_names_not_empty :
  forallb (fun '(_, name) => Py.truthy name) key_name_map = true.
Proof. vm_compute. reflexivity. Qed.

Lemma keycode_to_dotool_name_truthy (key_code : Z) :
  Py.truthy (keycode_to_dotool_name key_code) = true.
Proof.
  unfold keycode_to_dotool_name.
  destruct (code_get key_name_map key_code) as [name|] eqn:Hg; [|reflexivity].
  apply code_get_In in Hg.
  exact (proj1 (forallb_forall _ _) key_name_map_names_not_empty _ Hg).
Qed.

Lemma process_event_code (m : KeyMapper) (w : World) (key_code value n : Z) :
  in_ecodes_keys key_code = true ->
  output_method m <> "dotool" -> uinput m = true ->
  get_mapping_in (config m) (output_method m) (snd (get_focused_window m w)) key_code
    = Ret (RInt n) ->
  process_event m w (key_event key_code value) =
  Ret (fst (get_focused_window m w), [UWrite ecodes.EV_KEY n value; USyn]).
Proof.
  intros Hk Hm Hu H. key_branch Hk.
  rewrite get_mapping_unfold, H.
  pose proof (get_focused_window_fields m w) as (_ & Hm1 & Hu1 & _).
  simpl in Hm1, Hu1. rewrite Hm1, Hu1, Hu.
  apply String.eqb_neq in Hm. now rewrite Hm.
Qed.

(** X15. A key (one that evdev has a name for) whose first matching
    entry, no command table matching, is a key-substitution entry with a
    valid key name as target is replaced by that key, with the value
    (press, release, repeat) of the event: uinput gets the code of the
    target, dotool gets its dotool name. *)
Theorem remap_is_dispatched (m : KeyMapper) (w : World) (key_code value : Z)
    (target : string) (c : Z) :
  in_ecodes_keys key_code = true ->
  command_lookup (config m) (snd (get_focused_window m w)) key_code = None ->
  key_lookup (config m) (snd (get_focused_window m w)) key_code = Some target ->
  is_command_mapping target = false ->
  name_to_keycode target = Some c ->
  (output_method m <> "dotool" -> uinput m = true -> c <> 0 ->
   process_event m w (key_event key_code value) =
   Ret (fst (get_focused_window m w), [UWrite ecodes.EV_KEY c value; USyn])) /\
  (output_method m = "dotool" ->
   process_event m w (key_event key_code value) =
   Ret (send_dotool_key (fst (get_focused_window m w)) (pipe_broken w)
          (keycode_to_dotool_name c) value)).
Proof.
  intros Hcode Hc Hk Hcmd Hname.
  pose proof (get_mapping_in_key _ (output_method m) _ _ _ Hc Hk) as Hres.
  unfold key_mapping_result in Hres. rewrite Hcmd in Hres.
  unfold convert_mapped in Hres.
  rewrite (normalize_of_name target c Hname) in Hres. simpl in Hres.
  split.
  - intros Hm Hu Hc0. apply process_event_code; try assumption.
    rewrite Hres. apply String.eqb_neq in Hm. rewrite Hm.
    apply Z.eqb_neq in Hc0. now rewrite Hc0.
  - intros Hm.
    pose proof (keycode_to_dotool_name_truthy c) as Ht.
    apply process_event_dotool_name; try assumption.
    rewrite Hres, Hm. simpl. now rewrite Ht.
Qed.

Lemma remap_is_dispatched_witness :
  process_event probed_krita_mapper (world 1010 TimeoutExpired) (key_event ecodes.KEY_A 2)
  = Ret (fst (get_focused_window probed_krita_mapper (world 1010 TimeoutExpired)),
         [UWrite ecodes.EV_KEY ecodes.KEY_B 2; USyn]).
Proof.
  apply (proj1 (remap_is_dispatched probed_krita_mapper (world 1010 TimeoutExpired)
                  ecodes.KEY_A 2 "b" ecodes.KEY_B
                  ltac:(vm_compute; reflexivity)
                  ltac:(vm_compute; reflexivity) ltac:(vm_compute; reflexivity)
                  ltac:(vm_compute; reflexivity) ltac:(vm_compute; reflexivity)));
    [discriminate | reflexivity | discriminate].
Defined.

(** ** Key codes without a name *)

(** X25. A key event whose code is not in [ecodes.keys] is not processed:
    [categorize] raises [KeyError] before the window is asked for and
    before any table is read, whatever the configuration, the output
    method and the value of the event; the loop of [run] ends there and
    the events that follow are not processed.  Code 84 is such a code. *)
Theorem unnamed_key_code_aborts (m : KeyMapper) (w : World) (key_code value : Z)
    (rest : list (World * InputEvent)) :
  in_ecodes_keys key_code = false ->
  process_event m w (key_event key_code value) = Raise KeyError /\
  run m ((w, key_event key_code value) :: rest) = ([], Aborted KeyError).
Proof.
  intros Hk. pose proof (process_event_unnamed m w key_code value Hk) as Hp.
  split; [exact Hp | now apply run_cons_raise].
Qed.

Lemma unnamed_key_code_aborts_witness :
  run (fresh_mapper no_tables "uinput")
      [(world 1000 TimeoutExpired, key_event 84 1);
       (world 1100 TimeoutExpired, key_event ecodes.KEY_A 1)]
  = ([], Aborted KeyError).
Proof.
  apply (unnamed_key_code_aborts (fresh_mapper no_tables "uinput")
           (world 1000 TimeoutExpired) 84 1).
  vm_compute. reflexivity.
Defined.

(** ** Lines written to dotool *)

Lemma append_newline_inj (x y : string) : x +:+ newline = y +:+ newline -> x = y.
Proof.
  revert y. induction x as [|a x IH]; intros [|b y] H.
  - reflexivity.
  - change (newline = String b (y +:+ newline)) in H.
    injection H as _ H. now destruct y.
  - change (String a (x +:+ newline) = newline) in H.
    injection H as _ H. now destruct x.
  - change (String a (x +:+ newline) = String b (y +:+ newline)) in H.
    injection H as -> H. now rewrite (IH y H).
Qed.

Lemma keydown_line_eqb (k name : string) :
  String.eqb (keydown_line k) (keydown_line name) = String.eqb k name.
Proof.
  destruct (String.eqb_spec k name) as [->|Hne]; [apply String.eqb_refl|].
  apply String.eqb_neq. intros H. apply Hne. unfold keydown_line in H.
  change ("keydown " +:+ k +:+ newline) with ("keydown " +:+ (k +:+ newline)) in H.
  injection H as H. now apply append_newline_inj.
Qed.

Lemma keyup_line_eqb (k name : string) :
  String.eqb (keyup_line k) (keyup_line name) = String.eqb k name.
Proof.
  destruct (String.eqb_spec k name) as [->|Hne]; [apply String.eqb_refl|].
  apply String.eqb_neq. intros H. apply Hne. unfold keyup_line in H.
  injection H as H. now apply append_newline_inj.
Qed.

Lemma keydown_keyup_differ (k name : string) :
  String.eqb (keydown_line k) (keyup_line name) = false /\
  String.eqb (keyup_line k) (keydown_line name) = false.
Proof. split; apply String.eqb_neq; discriminate. Qed.

Lemma is_down_add (m : KeyMapper) (alive : bool) (k name : string) :
  is_down (set_dotool m alive ({[ k ]} ∪ pressed_keys m)) name =
  if String.eqb k name then 1%nat else is_down m name.
Proof.
  unfold is_down. simpl.
  destruct (String.eqb_spec k name) as [->|Hne].
  - destruct (decide _) as [|Hn]; [reflexivity|]. exfalso. apply Hn.
    apply elem_of_union. left. now apply elem_of_singleton.
  - destruct (decide (name ∈ {[k]} ∪ pressed_keys m)) as [Hin|Hn],
             (decide (name ∈ pressed_keys m)) as [Hin'|Hn']; try reflexivity.
    + apply elem_of_union in Hin as [Hin%elem_of_singleton|Hin]; congruence.
    + exfalso. apply Hn. apply elem_of_union. now right.
Qed.

Lemma is_down_remove (m : KeyMapper) (alive : bool) (k name : string) :
  is_down (set_dotool m alive (pressed_keys m ∖ {[ k ]})) name =
  if String.eqb k name then 0%nat else is_down m name.
Proof.
  unfold is_down. simpl.
  destruct (String.eqb_spec k name) as [->|Hne].
  - destruct (decide _) as [Hin|]; [|reflexivity].
    apply elem_of_difference in Hin as [_ Hn]. exfalso. apply Hn.
    now apply elem_of_singleton.
  - destruct (decide (name ∈ pressed_keys m ∖ {[k]})) as [Hin|Hn],
             (decide (name ∈ pressed_keys m)) as [Hin'|Hn']; try reflexivity.
    + apply elem_of_difference in Hin as [Hin _]. contradiction.
    + exfalso. apply Hn. apply elem_of_difference. split; [exact Hin'|].
      intros Heq%elem_of_singleton. congruence.
Qed.

Lemma send_dotool_key_balance (m : KeyMapper) (broken : bool) (k : string) (value : Z)
    (name : string) :
  (count_lines (keydown_line name) (snd (send_dotool_key m broken k value))
   + is_down m name =
   count_lines (keyup_line name) (snd (send_dotool_key m broken k value))
   + is_down (fst (send_dotool_key m broken k value)) name)%nat.
Proof.
  unfold send_dotool_key.
  destruct (negb (dotool_process m) || negb (Py.truthy k)); [reflexivity|].
  destruct (value =? 1).
  - destruct (decide (k ∈ pressed_keys m)) as [Hin|Hout]; [reflexivity|].
    destruct broken; [reflexivity|].
    cbn [fst snd count_lines]. fold (keydown_line k).
    rewrite keydown_line_eqb, (proj1 (keydown_keyup_differ k name)), is_down_add.
    destruct (String.eqb_spec k name) as [->|_]; [|reflexivity].
    unfold is_down. destruct (decide _); [contradiction | reflexivity].
  - destruct (value =? 0); [|reflexivity].
    destruct (decide (k ∈ pressed_keys m)) as [Hin|Hout]; [|reflexivity].
    destruct broken; [reflexivity|].
    cbn [fst snd count_lines]. fold (keyup_line k).
    rewrite keyup_line_eqb, (proj2 (keydown_keyup_differ k name)), is_down_remove.
    destruct (String.eqb_spec k name) as [->|_]; [|reflexivity].
    unfold is_down. destruct (decide _); [reflexivity | contradiction].
Qed.

Lemma count_lines_app (line : string) (out1 out2 : list Effect) :
  count_lines line (out1 ++ out2) = (count_lines line out1 + count_lines line out2)%nat.
Proof.
  induction out1 as [|e out1 IH]; simpl; [reflexivity|].
  destruct e as [| |l|]; try exact IH.
  destruct (String.eqb l line); simpl; now rewrite IH.
Qed.

(** X16. Over any sequence of calls of [send_dotool_key], for any keys,
    values and pipe failures, the [keydown] and [keyup] lines written for
    one name stay in balance with [pressed_keys]: the number of its
    [keydown] lines exceeds the number of its [keyup] lines by one when the
    name ends in [pressed_keys] and did not start there, and so on.  So
    dotool never gets two [keydown] of a name without a [keyup] between
    them. *)
Theorem dotool_lines_balance (calls : list (string * Z * bool)) (m : KeyMapper)
    (name : string) :
  (count_lines (keydown_line name) (snd (send_dotool_calls m calls)) + is_down m name =
   count_lines (keyup_line name) (snd (send_dotool_calls m calls))
   + is_down (fst (send_dotool_calls m calls)) name)%nat.
Proof.
  revert m. induction calls as [|[[k value] broken] rest IH]; intros m;
    [simpl; lia|].
  simpl. pose proof (send_dotool_key_balance m broken k value name) as Hstep.
  destruct (send_dotool_key m broken k value) as [m1 out].
  specialize (IH m1). destruct (send_dotool_calls m1 rest) as [m2 outs].
  simpl in *. rewrite !count_lines_app. lia.
Qed.

(** * Further properties of the window cache *)

Lemma lstrip_head (s : string) :
  Py.lstrip s = "" \/ exists c r, Py.lstrip s = String c r /\ Py.is_space c = false.
Proof.
  induction s as [|c r IH]; simpl; [now left|].
  destruct (Py.is_space c) eqn:Hc; [exact IH | right; eauto].
Qed.

Lemma rstrip_idem (s : string) : Py.rstrip (Py.rstrip s) = Py.rstrip s.
Proof.
  induction s as [|c r IH]; [reflexivity|]. simpl.
  destruct (Py.rstrip r) as [|c' r'] eqn:Hr.
  - destruct (Py.is_space c) eqn:Hc; [reflexivity|]. simpl. now rewrite Hc.
  - change (Py.rstrip (String c (String c' r'))) with
      (match Py.rstrip (String c' r') with
       | EmptyString => if Py.is_space c then EmptyString else String c EmptyString
       | r'' => String c r''
       end).
    now rewrite IH.
Qed.

Lemma rstrip_keeps_head (c : ascii) (r : string) :
  Py.is_space c = false -> exists r', Py.rstrip (String c r) = String c r'.
Proof.
  intros Hc. simpl. destruct (Py.rstrip r); [rewrite Hc|]; eauto.
Qed.

Lemma strip_idem (s : string) : Py.strip (Py.strip s) = Py.strip s.
Proof.
  unfold Py.strip.
  assert (Py.lstrip (Py.rstrip (Py.lstrip s)) = Py.rstrip (Py.lstrip s)) as ->.
  { destruct (lstrip_head s) as [-> |(c & r & -> & Hc)]; [reflexivity|].
    destruct (rstrip_keeps_head c r Hc) as [r' ->]. simpl. now rewrite Hc. }
  apply rstrip_idem.
Qed.

(** X17. The window name that [get_focused_window] stores and returns
    after a successful probe is the output of the window command without
    its surrounding white space, or no window when nothing is left; the
    second [strip()] of the source changes nothing.  So the cached name
    stays clean: once it is absent or a non-empty stripped string, it is
    so after every call, and so is the name handed to the resolver. *)
Theorem focused_window_is_clean (m : KeyMapper) (w : World) :
  (forall stdout,
     window_cache_ttl <= now w - window_cache_time m ->
     probe w = Exited 0 stdout ->
     snd (get_focused_window m w) =
       (if Py.truthy (Py.strip stdout) then Some (Py.strip stdout) else None) /\
     current_window (fst (get_focused_window m w)) = snd (get_focused_window m w)) /\
  (window_clean (current_window m) ->
   window_clean (current_window (fst (get_focused_window m w))) /\
   window_clean (snd (get_focused_window m w))).
Proof.
  split.
  - intros stdout Hexp Hprobe. unfold get_focused_window.
    apply Z.ltb_ge in Hexp. rewrite Hexp, Hprobe, strip_idem. simpl.
    now destruct (Py.truthy (Py.strip stdout)).
  - intros Hclean. unfold get_focused_window.
    destruct (now w - window_cache_time m <? window_cache_ttl); [now split|].
    destruct (probe w) as [rc stdout| | |]; try now split.
    destruct (rc =? 0); [|now split].
    rewrite strip_idem. simpl.
    destruct (Py.strip stdout) as [|c r] eqn:Hs; simpl; [now split|].
    assert (Py.strip (String c r) = String c r) as Hid
      by (rewrite <- Hs; apply strip_idem).
    repeat split; (discriminate || exact Hid).
Qed.

Lemma focused_window_is_clean_witness :
  snd (get_focused_window (fresh_mapper krita_config "uinput")
         (world 1000 (Exited 0 ("  krita " +:+ newline)))) = Some "krita" /\
  window_clean (snd (get_focused_window probed_krita_mapper
                       (world 2000 (Exited 0 newline)))).
Proof.
  split.
  - apply (proj1 (focused_window_is_clean (fresh_mapper krita_config "uinput")
                    (world 1000 (Exited 0 ("  krita " +:+ newline))))
             ("  krita " +:+ newline)).
    + vm_compute. discriminate.
    + reflexivity.
  - apply (proj2 (focused_window_is_clean probed_krita_mapper
                    (world 2000 (Exited 0 newline)))).
    vm_compute. split; [discriminate | reflexivity].
Defined.

(** X18. After a successful probe the answer is cached: every call whose
    clock is less than 100 ms past the time of that probe returns the same
    window without looking at the window command, and leaves the mapper as
    it is; the resolver then gives the same result as right after the
    probe. *)
Theorem window_cache_within_ttl (m : KeyMapper) (w1 w2 : World) (stdout : string) :
  window_cache_ttl <= now w1 - window_cache_time m ->
  probe w1 = Exited 0 stdout ->
  now w2 - now w1 < window_cache_ttl ->
  get_focused_window (fst (get_focused_window m w1)) w2 = get_focused_window m w1 /\
  (forall key_code,
     get_mapping (fst (get_focused_window m w1)) w2 key_code =
     get_mapping m w1 key_code).
Proof.
  intros Hexp Hprobe Httl.
  assert (get_focused_window m w1 =
          (set_window m (if Py.truthy (Py.strip (Py.strip stdout))
                         then Some (Py.strip (Py.strip stdout)) else None) (now w1),
           if Py.truthy (Py.strip (Py.strip stdout))
           then Some (Py.strip (Py.strip stdout)) else None)) as H1.
  { unfold get_focused_window. apply Z.ltb_ge in Hexp.
    now rewrite Hexp, Hprobe. }
  assert (get_focused_window (fst (get_focused_window m w1)) w2 =
          get_focused_window m w1) as H2.
  { rewrite H1. unfold get_focused_window at 1. simpl.
    apply Z.ltb_lt in Httl. now rewrite Httl. }
  split; [exact H2|].
  intros key_code. rewrite !get_mapping_unfold, H2.
  pose proof (get_focused_window_fields m w1) as (Hc & Hm & _).
  simpl in Hc, Hm. now rewrite Hc, Hm.
Qed.

Lemma window_cache_within_ttl_witness :
  get_focused_window probed_krita_mapper (world 1099 (Exited 0 "gimp")) =
  get_focused_window (fresh_mapper krita_config "uinput")
    (world 1000 (Exited 0 ("krita" +:+ newline))).
Proof.
  apply (window_cache_within_ttl (fresh_mapper krita_config "uinput")
           (world 1000 (Exited 0 ("krita" +:+ newline)))
           (world 1099 (Exited 0 "gimp")) ("krita" +:+ newline)).
  - vm_compute. discriminate.
  - reflexivity.
  - vm_compute. reflexivity.
Defined.

(** * The window command and the desktop user *)

(** ** Paths of the window command *)

Lemma has_char_prefix (ch : ascii) (s p : string) :
  has_char ch p = true -> Py.startswith s p = true -> has_char ch s = true.
Proof.
  intros Hp [r ->]%startswith_split. rewrite has_char_app, Hp. reflexivity.
Qed.

Lemma no_slash_not_abs (s : string) : has_char "/" s = false -> isabs s = false.
Proof.
  intros H. unfold isabs. destruct (Py.startswith s "/") eqn:Hs; [|reflexivity].
  rewrite (has_char_prefix "/" s "/" eq_refl Hs) in H. discriminate.
Qed.

Lemma no_slash_not_dotted (s : string) :
  has_char "/" s = false ->
  Py.startswith s "./" = false /\ Py.startswith s "../" = false.
Proof.
  intros H. split.
  - destruct (Py.startswith s "./") eqn:Hs; [|reflexivity].
    rewrite (has_char_prefix "/" s "./" eq_refl Hs) in H. discriminate.
  - destruct (Py.startswith s "../") eqn:Hs; [|reflexivity].
    rewrite (has_char_prefix "/" s "../" eq_refl Hs) in H. discriminate.
Qed.

Lemma resolve_bare_name (fs : FileSystem) (config_path : option string)
    (cmd_path : string) :
  has_char "/" cmd_path = false -> has_script_extension cmd_path = false ->
  resolve_window_command_path fs config_path cmd_path = cmd_path.
Proof.
  intros Hs He. unfold resolve_window_command_path.
  destruct (no_slash_not_dotted cmd_path Hs) as [-> ->].
  rewrite Hs, He. now destruct (isabs cmd_path).
Qed.

(** X19. [resolve_window_command_path] returns an absolute path as it is,
    and also a bare command name, that is a name without a slash and
    without one of the extensions [.sh], [.py], [.pl], [.rb]: the file
    system is not consulted for them. *)
Theorem resolve_path_untouched (fs : FileSystem) (config_path : option string)
    (cmd_path : string) :
  (isabs cmd_path = true ->
   resolve_window_command_path fs config_path cmd_path = cmd_path) /\
  (has_char "/" cmd_path = false -> has_script_extension cmd_path = false ->
   resolve_window_command_path fs config_path cmd_path = cmd_path).
Proof.
  split.
  - unfold resolve_window_command_path. now intros ->.
  - apply resolve_bare_name.
Qed.

Lemma resolve_path_untouched_witness :
  resolve_window_command_path sample_fs (Some "/etc/keymap/config.json") "/usr/bin/probe.sh"
    = "/usr/bin/probe.sh" /\
  resolve_window_command_path sample_fs (Some "/etc/keymap/config.json") "hyprctl"
    = "hyprctl".
Proof.
  split.
  - apply (proj1 (resolve_path_untouched sample_fs (Some "/etc/keymap/config.json")
                    "/usr/bin/probe.sh")). reflexivity.
  - apply (proj2 (resolve_path_untouched sample_fs (Some "/etc/keymap/config.json")
                    "hyprctl")); reflexivity.
Defined.

(** X20. A path that is resolved is looked for next to the configuration
    file, then next to the script, then in the working directory, in this
    order: when the file next to the configuration exists it is the one
    returned.  Whatever the file system, the result is the path given or
    the resolution of one of these three candidates, and then that
    candidate is a file. *)
Theorem resolve_path_candidates (fs : FileSystem) (config_path : option string)
    (cmd_path : string) :
  (forall p, isabs cmd_path = false ->
     has_char "/" cmd_path = true \/ has_script_extension cmd_path = true ->
     config_path = Some p -> p <> "" ->
     fs_is_file fs (fs_join fs (fs_config_dir fs p) cmd_path) = true ->
     resolve_window_command_path fs config_path cmd_path =
     fs_resolve fs (fs_join fs (fs_config_dir fs p) cmd_path)) /\
  (resolve_window_command_path fs config_path cmd_path = cmd_path \/
   (exists p, config_path = Some p /\
      fs_is_file fs (fs_join fs (fs_config_dir fs p) cmd_path) = true /\
      resolve_window_command_path fs config_path cmd_path =
      fs_resolve fs (fs_join fs (fs_config_dir fs p) cmd_path)) \/
   (fs_is_file fs (fs_join fs (fs_script_dir fs) cmd_path) = true /\
    resolve_window_command_path fs config_path cmd_path =
    fs_resolve fs (fs_join fs (fs_script_dir fs) cmd_path)) \/
   (fs_is_file fs (fs_resolve fs cmd_path) = true /\
    resolve_window_command_path fs config_path cmd_path = fs_resolve fs cmd_path)).
Proof.
  unfold resolve_window_command_path. split.
  - intros p Habs Hlooks -> Hp Hfile. rewrite Habs.
    assert (negb (has_char "/" cmd_path) && negb (Py.startswith cmd_path "./")
            && negb (Py.startswith cmd_path "../")
            && negb (has_script_extension cmd_path) = false) as ->.
    { destruct Hlooks as [-> | ->]; simpl; [reflexivity|].
      now rewrite andb_false_r. }
    destruct p as [|c r]; [congruence|]. simpl. now rewrite Hfile.
  - destruct (isabs cmd_path); [now left|].
    destruct (_ && _ && _ && _); [now left|].
    assert (forall rest : string,
              rest = (if fs_is_file fs (fs_join fs (fs_script_dir fs) cmd_path)
                      then fs_resolve fs (fs_join fs (fs_script_dir fs) cmd_path)
                      else if fs_is_file fs (fs_resolve fs cmd_path)
                           then fs_resolve fs cmd_path else cmd_path) ->
              rest = cmd_path \/
              (fs_is_file fs (fs_join fs (fs_script_dir fs) cmd_path) = true /\
               rest = fs_resolve fs (fs_join fs (fs_script_dir fs) cmd_path)) \/
              (fs_is_file fs (fs_resolve fs cmd_path) = true /\
               rest = fs_resolve fs cmd_path)) as Hrest.
    { intros rest ->.
      destruct (fs_is_file fs (fs_join fs (fs_script_dir fs) cmd_path));
        [right; left; now split|].
      destruct (fs_is_file fs (fs_resolve fs cmd_path));
        [right; right; now split | now left]. }
    destruct config_path as [p|].
    + destruct (Py.truthy p).
      * destruct (fs_is_file fs (fs_join fs (fs_config_dir fs p) cmd_path)) eqn:Hf.
        -- right. left. exists p. now repeat split.
        -- destruct (Hrest _ eq_refl) as [H|[H|H]]; tauto.
      * destruct (Hrest _ eq_refl) as [H|[H|H]]; tauto.
    + destruct (Hrest _ eq_refl) as [H|[H|H]]; tauto.
Qed.

Lemma resolve_path_candidates_witness :
  resolve_window_command_path sample_fs (Some "/etc/keymap/config.json") "probe.sh"
    = "/etc/keymap/probe.sh".
Proof.
  apply (proj1 (resolve_path_candidates sample_fs (Some "/etc/keymap/config.json")
                  "probe.sh") "/etc/keymap/config.json").
  - reflexivity.
  - right. reflexivity.
  - reflexivity.
  - discriminate.
  - reflexivity.
Defined.

Lemma endswith_unfold (s suffix : string) :
  endswith s suffix =
  String.eqb s suffix ||
  match s with EmptyString => false | String _ r => endswith r suffix end.
Proof. destruct s; reflexivity. Qed.

Lemma endswith_bash_only (s : string) :
  endswith s ".bash" = true -> has_script_extension s = false.
Proof.
  unfold has_script_extension.
  induction s as [|c r IH]; [discriminate|].
  rewrite (endswith_unfold _ ".bash").
  intros [Heq%String.eqb_eq | Hr]%orb_true_iff; [now rewrite Heq|].
  specialize (IH Hr). apply orb_false_iff in IH as [IH Hrb].
  apply orb_false_iff in IH as [IH Hpl]. apply orb_false_iff in IH as [Hsh Hpy].
  rewrite !(endswith_unfold (String c r)), Hsh, Hpy, Hpl, Hrb, !orb_false_r.
  assert (forall suffix,
            endswith suffix ".bash" = false -> suffix <> "" ->
            String.eqb (String c r) suffix = false) as Hne.
  { intros suffix Hs Hnon. apply String.eqb_neq. intros Heq.
    rewrite <- Heq in Hs. rewrite (endswith_unfold (String c r)), Hr in Hs.
    now rewrite orb_true_r in Hs. }
  rewrite !Hne by (reflexivity || discriminate). reflexivity.
Qed.

(** X21. A first word without a slash that ends in [.bash] is sent to
    [resolve_window_command_path] by [get_focused_window] and comes back
    unchanged, whatever files exist; a first word without a slash that
    ends in [.sh] is replaced by the file of that name next to the
    configuration file when there is one. *)
Theorem bare_script_names (fs : FileSystem) (config_path : option string)
    (head : string) (args : list string) :
  has_char "/" head = false ->
  (endswith head ".bash" = true ->
   resolve_command_head fs config_path (head :: args) = head :: args) /\
  (forall p, endswith head ".sh" = true -> config_path = Some p -> p <> "" ->
     fs_is_file fs (fs_join fs (fs_config_dir fs p) head) = true ->
     resolve_command_head fs config_path (head :: args) =
     fs_resolve fs (fs_join fs (fs_config_dir fs p) head) :: args).
Proof.
  intros Hs. unfold resolve_command_head. rewrite (no_slash_not_abs head Hs). simpl.
  split.
  - intros Hb. rewrite Hb, !orb_true_r.
    now rewrite (resolve_bare_name fs config_path head Hs
                   (endswith_bash_only head Hb)).
  - intros p Hsh Hc Hp Hf. rewrite Hsh, !orb_true_r. simpl.
    f_equal. unfold resolve_window_command_path.
    rewrite (no_slash_not_abs head Hs). unfold has_script_extension.
    rewrite Hsh, Hc. simpl. rewrite !andb_false_r.
    destruct p as [|c r]; [congruence|]. simpl. now rewrite Hf.
Qed.

Lemma bare_script_names_witness :
  resolve_command_head sample_fs (Some "/etc/keymap/config.json") ["probe.bash"; "-q"]
    = ["probe.bash"; "-q"] /\
  resolve_command_head sample_fs (Some "/etc/keymap/config.json") ["probe.sh"; "-q"]
    = ["/etc/keymap/probe.sh"; "-q"].
Proof.
  split.
  - apply (proj1 (bare_script_names sample_fs (Some "/etc/keymap/config.json")
                    "probe.bash" ["-q"] eq_refl)). reflexivity.
  - apply (proj2 (bare_script_names sample_fs (Some "/etc/keymap/config.json")
                    "probe.sh" ["-q"] eq_refl) "/etc/keymap/config.json");
      (reflexivity || discriminate).
Defined.

(** ** The desktop user *)

Lemma after_first_unfold (sep s : string) :
  after_first sep s =
  if String.prefix sep s then Some (Py.drop_chars (String.length sep) s)
  else match s with EmptyString => None | String _ r => after_first sep r end.
Proof. destruct s; reflexivity. Qed.

Lemma before_first_unfold (sep s : string) :
  before_first sep s =
  if String.prefix sep s then EmptyString
  else match s with
       | EmptyString => EmptyString
       | String c r => String c (before_first sep r)
       end.
Proof. destruct s; reflexivity. Qed.

Lemma drop_chars_app (p s : string) :
  Py.drop_chars (String.length p) (p +:+ s) = s.
Proof. induction p as [|c p IH]; [now destruct s | exact IH]. Qed.

Lemma after_first_app (sep x : string) : after_first sep (sep +:+ x) = Some x.
Proof.
  rewrite after_first_unfold.
  pose proof (startswith_app sep x) as H. unfold Py.startswith in H.
  now rewrite H, drop_chars_app.
Qed.

Lemma digit_not_slash (c : ascii) (sep r : string) :
  Py.is_digit c = true -> String.prefix (String "/" sep) (String c r) = false.
Proof.
  intros Hc.
  change (String.prefix (String "/" sep) (String c r))
    with (if ascii_dec "/" c then String.prefix sep r else false).
  destruct (ascii_dec "/" c) as [<-|]; [discriminate | reflexivity].
Qed.

Lemma before_first_digits (sep d y : string) :
  all_digits d = true ->
  before_first (String "/" sep) (d +:+ y) = d +:+ before_first (String "/" sep) y.
Proof.
  induction d as [|c d IH]; [reflexivity|].
  intros [Hc Hd]%andb_true_iff.
  change (String c d +:+ y) with (String c (d +:+ y)).
  rewrite before_first_unfold, (digit_not_slash c sep _ Hc), (IH Hd).
  reflexivity.
Qed.

Lemma before_slash_of_rest (sep rest : string) :
  rest = "" \/ Py.startswith rest "/" = true ->
  before_first "/" (before_first (String "/" sep) rest) = "".
Proof.
  intros [-> | [r ->]%startswith_split]; [reflexivity|].
  change ("/" +:+ r) with (String "/" r).
  rewrite (before_first_unfold (String "/" sep)).
  destruct (String.prefix (String "/" sep) (String "/" r)); [reflexivity|].
  rewrite before_first_unfold.
  pose proof (startswith_app "/" (before_first (String "/" sep) r)) as H.
  unfold Py.startswith in H.
  change ("/" +:+ before_first (String "/" sep) r)
    with (String "/" (before_first (String "/" sep) r)) in H.
  now rewrite H.
Qed.

Lemma app_empty_r (s : string) : s +:+ "" = s.
Proof.
  induction s as [|c r IH]; [reflexivity|].
  change (String c (r +:+ "") = String c r). now rewrite IH.
Qed.

(** A user id that [getpwuid] accepts is a value of [uid_t], which
    [int()] reads back from its decimal string. *)
Lemma getpwuid_range (os : OsEnv) (uid : Z) (name : string) :
  0 <= uid -> getpwuid os uid = Some name -> uid < int_str_bound.
Proof.
  intros Huid. unfold getpwuid.
  destruct (Z.eqb_spec uid (-1)); [lia|].
  destruct (Z.leb_spec 0 uid); [|lia].
  destruct (Z.leb_spec uid uid_max) as [Hle|]; [|discriminate].
  intros _. pose proof uid_below_int_str_bound. unfold uid_max in Hle. lia.
Qed.

Lemma getpwuid_beyond (os : OsEnv) (uid : Z) :
  int_str_bound <= uid -> getpwuid os uid = None.
Proof.
  intros Hge. pose proof uid_below_int_str_bound as Hb. unfold getpwuid.
  destruct (Z.eqb_spec uid (-1)); [lia|].
  destruct (Z.leb_spec uid uid_max) as [Hle|]; [|now rewrite andb_false_r].
  unfold uid_max in Hle. lia.
Qed.

Lemma runtime_dir_user_uid (os : OsEnv) (uid : Z) (rest : string) :
  0 <= uid -> rest = "" \/ Py.startswith rest "/" = true ->
  runtime_dir_user os ("/run/user/" +:+ Py.str uid +:+ rest) = getpwuid os uid.
Proof.
  intros Huid Hrest. unfold runtime_dir_user, split_second.
  change (Py.truthy ("/run/user/" +:+ Py.str uid +:+ rest)) with true. cbv iota.
  assert (Py.contains ("/run/user/" +:+ Py.str uid +:+ rest) "/run/user/" = true) as ->.
  { apply contains_spec. now exists "", (Py.str uid +:+ rest). }
  rewrite after_first_app. simpl option_map.
  rewrite (before_first_digits "run/user/") by now apply str_all_digits.
  rewrite (before_first_digits "") by now apply str_all_digits.
  rewrite (before_slash_of_rest "run/user/" rest Hrest), app_empty_r.
  destruct (Z.lt_ge_cases uid int_str_bound) as [Hlt|Hge]; [now rewrite int_str|].
  rewrite (getpwuid_beyond os uid Hge).
  destruct (int_literal_str uid Huid) as [-> | ->];
    [now apply getpwuid_beyond | reflexivity].
Qed.

(** X22. For a process of root without [SUDO_USER] and [PKEXEC_UID], the
    original user is read off the runtime directory: with
    [XDG_RUNTIME_DIR] equal to [/run/user/<uid>], or to a path below it,
    [get_original_user] returns the name the password database has for
    [<uid>]. *)
Theorem original_user_from_runtime_dir (os : OsEnv) (uid : Z) (rest name : string) :
  geteuid os = 0 ->
  environ os "SUDO_USER" = None ->
  environ os "PKEXEC_UID" = None ->
  environ os "XDG_RUNTIME_DIR" = Some ("/run/user/" +:+ Py.str uid +:+ rest) ->
  0 <= uid ->
  rest = "" \/ Py.startswith rest "/" = true ->
  getpwuid os uid = Some name ->
  get_original_user os = Some name.
Proof.
  intros Hroot Hsudo Hpk Hxdg Huid Hrest Hpw.
  unfold get_original_user. rewrite Hsudo, Hpk, Hroot. simpl.
  now rewrite Hxdg, (runtime_dir_user_uid os uid rest Huid Hrest), Hpw.
Qed.

Lemma original_user_from_runtime_dir_witness :
  get_original_user sample_os = Some "alice".
Proof.
  apply (original_user_from_runtime_dir sample_os 1000 "" "alice");
    try reflexivity; [lia | now left].
Defined.

(** X23. [SUDO_USER], when set and not empty, names the original user
    whatever else is set; without it a decimal [PKEXEC_UID] names the
    user the password database has for it; without both, a process that
    is not root has no original user. *)
Theorem original_user_precedence (os : OsEnv) :
  (forall user, environ os "SUDO_USER" = Some user -> user <> "" ->
     get_original_user os = Some user) /\
  (forall uid name, environ os "SUDO_USER" = None ->
     environ os "PKEXEC_UID" = Some (Py.str uid) -> 0 <= uid ->
     getpwuid os uid = Some name ->
     get_original_user os = Some name) /\
  (environ os "SUDO_USER" = None -> environ os "PKEXEC_UID" = None ->
   geteuid os <> 0 -> get_original_user os = None).
Proof.
  unfold get_original_user. split; [|split].
  - intros user -> Hne. destruct user; [congruence | reflexivity].
  - intros uid name -> -> Huid Hpw.
    rewrite (int_str uid Huid (getpwuid_range os uid name Huid Hpw)), Hpw.
    destruct (str_digits uid Huid) as (d & Hd & -> & _).
    destruct d; [congruence | reflexivity ..].
  - intros -> -> Hne. apply Z.eqb_neq in Hne. now rewrite Hne.
Qed.

Lemma original_user_precedence_witness :
  get_original_user
    {| environ := fun name => if String.eqb name "PKEXEC_UID" then Some (Py.str 1000)
                              else None;
       geteuid := 0;
       passwd_name := passwd_name sample_os;
       getpwnam := getpwnam sample_os |} = Some "alice".
Proof.
  refine (proj1 (proj2 (original_user_precedence _)) 1000 "alice" _ _ _ _);
    try reflexivity. lia.
Defined.

(** ** The environment of the desktop user *)

Lemma dict_get_set {V : Type} (d : dict V) (k k' : string) (v : V) :
  dict_get (dict_set d k v) k' = if String.eqb k k' then Some v else dict_get d k'.
Proof.
  induction d as [|[k0 v0] d IH]; simpl.
  - now destruct (String.eqb k k').
  - destruct (String.eqb_spec k0 k) as [->|Hne]; simpl.
    + now destruct (String.eqb k k').
    + rewrite IH. destruct (String.eqb_spec k0 k') as [->|_]; [|reflexivity].
      destruct (String.eqb_spec k k'); [congruence | reflexivity].
Qed.

Lemma copy_environ_get (os : OsEnv) (vars : list string) (env : dict string)
    (k : string) :
  dict_get (copy_environ os env vars) k =
  match (if existsb (String.eqb k) vars then environ os k else None) with
  | Some value => Some value
  | None => dict_get env k
  end.
Proof.
  revert env. induction vars as [|var rest IH]; intros env; simpl; [reflexivity|].
  destruct (String.eqb_spec k var) as [->|Hne]; simpl.
  - destruct (environ os var) as [value|] eqn:Hv; rewrite IH.
    + rewrite dict_get_set, String.eqb_refl.
      now destruct (existsb (String.eqb var) rest); rewrite ?Hv.
    + now destruct (existsb (String.eqb var) rest); rewrite ?Hv.
  - destruct (environ os var) as [value|]; rewrite IH; [|reflexivity].
    rewrite dict_get_set.
    destruct (String.eqb_spec var k); [congruence | reflexivity].
Qed.

(** X24. [get_user_environment] gives nothing for an unknown user.  For a
    known user it gives [HOME], [USER] and [USERNAME]; when the runtime
    directory [/run/user/<uid>] and its [wayland-0] socket exist, it gives
    that directory as [XDG_RUNTIME_DIR] and [wayland-0] as
    [WAYLAND_DISPLAY], whatever [WAYLAND_DISPLAY] the process itself has;
    when the runtime directory does not exist, [XDG_RUNTIME_DIR] is left
    out and [WAYLAND_DISPLAY] is the one of the process. *)
Theorem user_environment_entries (fs : FileSystem) (os : OsEnv) (username : string) :
  (getpwnam os username = None -> get_user_environment fs os username = []) /\
  (forall pw_dir pw_uid, getpwnam os username = Some (pw_dir, pw_uid) ->
     let env := get_user_environment fs os username in
     let xdg_runtime := "/run/user/" +:+ Py.str pw_uid in
     (dict_get env "HOME" = Some pw_dir /\
      dict_get env "USER" = Some username /\
      dict_get env "USERNAME" = Some username) /\
     (fs_exists fs xdg_runtime = true ->
      fs_exists fs (path_join xdg_runtime "wayland-0") = true ->
      dict_get env "XDG_RUNTIME_DIR" = Some xdg_runtime /\
      dict_get env "WAYLAND_DISPLAY" = Some "wayland-0") /\
     (fs_exists fs xdg_runtime = false ->
      dict_get env "XDG_RUNTIME_DIR" = None /\
      dict_get env "WAYLAND_DISPLAY" = environ os "WAYLAND_DISPLAY")).
Proof.
  unfold get_user_environment. split; [now intros ->|].
  intros pw_dir pw_uid ->. cbv zeta.
  set (xdg := "/run/user/" +:+ Py.str pw_uid).
  set (vars := ["WAYLAND_DISPLAY"; "DISPLAY"; "XDG_SESSION_TYPE"; "XDG_CURRENT_DESKTOP"]).
  set (env0 := [("HOME", pw_dir); ("USER", username); ("USERNAME", username)]).
  set (env1 := if fs_exists fs xdg then dict_set env0 "XDG_RUNTIME_DIR" xdg else env0).
  set (env2 := copy_environ os env1 vars).
  assert (forall k, existsb (String.eqb k) vars = false ->
            dict_get env2 k = dict_get env1 k) as Hother.
  { intros k Hk. unfold env2. now rewrite copy_environ_get, Hk. }
  assert (dict_get env2 "XDG_RUNTIME_DIR" =
          if fs_exists fs xdg then Some xdg else None) as Hxdg.
  { rewrite Hother by reflexivity. unfold env1.
    destruct (fs_exists fs xdg); [|reflexivity].
    now rewrite dict_get_set. }
  assert (forall k, String.eqb "XDG_RUNTIME_DIR" k = false ->
            dict_get env1 k = dict_get env0 k) as Henv1.
  { intros k Hk. unfold env1. destruct (fs_exists fs xdg); [|reflexivity].
    now rewrite dict_get_set, Hk. }
  assert (forall k final,
            final = match dict_get env2 "XDG_RUNTIME_DIR" with
                    | Some dir => if fs_exists fs (path_join dir "wayland-0")
                                  then dict_set env2 "WAYLAND_DISPLAY" "wayland-0"
                                  else env2
                    | None => env2
                    end ->
            String.eqb "WAYLAND_DISPLAY" k = false ->
            dict_get final k = dict_get env2 k) as Hfinal.
  { intros k final -> Hk.
    destruct (dict_get env2 "XDG_RUNTIME_DIR") as [dir|]; [|reflexivity].
    destruct (fs_exists fs (path_join dir "wayland-0")); [|reflexivity].
    now rewrite dict_get_set, Hk. }
  split; [|split].
  - repeat split; rewrite (Hfinal _ _ eq_refl), Hother, Henv1 by reflexivity;
      reflexivity.
  - intros Hex Hsock. split.
    + rewrite (Hfinal _ _ eq_refl) by reflexivity. now rewrite Hxdg, Hex.
    + rewrite Hxdg, Hex, Hsock. now rewrite dict_get_set.
  - intros Hex. rewrite Hxdg, Hex. split; [now rewrite Hxdg, Hex|].
    unfold env2. rewrite copy_environ_get. simpl.
    destruct (environ os "WAYLAND_DISPLAY"); [reflexivity|].
    now rewrite Henv1.
Qed.

Lemma user_environment_entries_witness :
  get_user_environment sample_fs sample_os "bob" = [] /\
  dict_get (get_user_environment sample_fs sample_os "alice") "WAYLAND_DISPLAY"
    = Some "wayland-0".
Proof.
  split.
  - apply (proj1 (user_environment_entries sample_fs sample_os "bob")). reflexivity.
  - apply (proj2 (user_environment_entries sample_fs sample_os "alice")
             "/home/alice" 1000 eq_refl); reflexivity.
Defined.
